(** * Fluid simulation example: dynamic buffers, uniforms and grid sizing

    A shallow embedding of [src/examples/fluid_simulation.c]: the
    multi-channel [dynamic_buffer_t], the [uniform_t] slots, and the
    resolution computation ([get_valid_dimensions],
    [get_preferred_dimensions], [init_sizes]).

    Integers of the C code are [Z] with the wrap-around of their width
    written out; the GPU device is an explicit store of buffers that is
    threaded through every operation; C [float] and [double] values are
    IEEE 754 binary32 and binary64 numbers of [SpecFloat]. *)

From Stdlib Require Import ZArith Lia Bool Strings.Byte QArith Qpower Lqa.
From Stdlib Require Import Floats.SpecFloat.
From stdpp Require Import base option list gmap.

Open Scope Z_scope.

(** ** Machine integers *)

Definition wrap32 (z : Z) : Z := z mod 2 ^ 32.
Definition wrap_size_t (z : Z) : Z := z mod 2 ^ 64.

(** Modelled from the spec: the macros [MIN] and [MAX] come from a header
    that is not part of the sources; the spec reads them as the smaller and
    the larger of their two arguments. *)
Definition MIN (a b : Z) : Z := if a <? b then a else b.
Definition MAX (a b : Z) : Z := if a >? b then a else b.

(** ** Faults

    What the C code does when it leaves defined behaviour: a failed
    [assert] aborts, an array index outside the array is undefined. *)

Inductive fault : Type :=
  | AssertionFailed
  | OutOfBounds (index : Z).

Inductive result (A : Type) : Type :=
  | Ok (a : A)
  | Fault (f : fault).
Arguments Ok {A} a.
Arguments Fault {A} f.

#[global] Instance result_ret : MRet result := fun A a => Ok a.
#[global] Instance result_bind : MBind result := fun A B k r =>
  match r with
  | Ok a => k a
  | Fault f => Fault f
  end.

(** [a[i]] for a C array held as a list: reading or writing outside the
    array is a fault. *)
Definition array_get {A} (a : list A) (i : Z) : result A :=
  if (0 <=? i) && (i <? Z.of_nat (length a))
  then match a !! Z.to_nat i with
       | Some x => Ok x
       | None => Fault (OutOfBounds i)
       end
  else Fault (OutOfBounds i).

Definition array_set {A} (a : list A) (i : Z) (x : A) : result (list A) :=
  if (0 <=? i) && (i <? Z.of_nat (length a))
  then Ok (<[Z.to_nat i := x]> a)
  else Fault (OutOfBounds i).

(** ** The GPU device

    A buffer handle is [None] for the null handle and [Some h] for a buffer
    of the device store. *)

Definition WGPUBuffer : Type := option positive.

Definition WGPUBufferUsage_CopySrc : Z := 4.
Definition WGPUBufferUsage_CopyDst : Z := 8.
Definition WGPUBufferUsage_Uniform : Z := 64.
Definition WGPUBufferUsage_Storage : Z := 128.

Record gpu_buffer : Type := {
  gb_usage : Z;
  gb_size : Z;
  gb_data : list byte;
}.

(** One call of the queue's host-to-device write, as issued. A [None] data
    pointer is the C [NULL]. *)
Record queue_write : Type := QueueWrite {
  qw_buffer : WGPUBuffer;
  qw_offset : Z;
  qw_data : option (list byte);
  qw_size : Z;
}.

Record wgpu_context_t : Type := {
  device_buffers : gmap positive gpu_buffer;
  queue_writes : list queue_write;
}.

Definition zero_bytes (n : Z) : list byte := replicate (Z.to_nat n) x00.

(** Modelled from the spec: [wgpuDeviceCreateBuffer] belongs to the GPU
    collaborator, [createBuffer(usageFlags, byteSize) -> handle]. The new
    buffer gets a handle that is not in use and zeroed contents. *)
Definition wgpuDeviceCreateBuffer (ctx : wgpu_context_t) (usage size : Z)
  : wgpu_context_t * WGPUBuffer :=
  let h := fresh (dom (device_buffers ctx)) in
  ({| device_buffers :=
        <[h := {| gb_usage := usage; gb_size := size;
                  gb_data := zero_bytes size |}]> (device_buffers ctx);
      queue_writes := queue_writes ctx |},
   Some h).

(** The bytes of [old] with [size] bytes of [data] copied in at [offset]. *)
Definition blit (old : list byte) (offset : Z) (data : list byte) (size : Z)
  : list byte :=
  take (Z.to_nat offset) old ++ take (Z.to_nat size) data
    ++ drop (Z.to_nat (offset + size)) old.

(** Modelled from the spec: [wgpu_queue_write_buffer] is the collaborator's
    host-to-device buffer write; its callers pass a byte count. Every call
    is recorded; the bytes land in the buffer when the handle is live, the
    data pointer is not null and the range lies inside the buffer and
    inside the host data. *)
Definition wgpu_queue_write_buffer (ctx : wgpu_context_t) (buffer : WGPUBuffer)
    (offset : Z) (data : option (list byte)) (size : Z) : wgpu_context_t :=
  let log := queue_writes ctx ++ [QueueWrite buffer offset data size] in
  match buffer, data with
  | Some h, Some d =>
      match device_buffers ctx !! h with
      | Some gb =>
          if (0 <=? offset) && (0 <=? size) && (offset + size <=? gb_size gb)
             && (size <=? Z.of_nat (length d))
          then {| device_buffers :=
                    <[h := {| gb_usage := gb_usage gb; gb_size := gb_size gb;
                              gb_data := blit (gb_data gb) offset d size |}]>
                      (device_buffers ctx);
                  queue_writes := log |}
          else {| device_buffers := device_buffers ctx; queue_writes := log |}
      | None => {| device_buffers := device_buffers ctx; queue_writes := log |}
      end
  | _, _ => {| device_buffers := device_buffers ctx; queue_writes := log |}
  end.

(** The commands recorded on a command encoder; they are not executed
    when recorded. *)
Inductive encoder_command : Type :=
  | CopyBufferToBuffer (src : WGPUBuffer) (src_offset : Z)
                       (dst : WGPUBuffer) (dst_offset : Z) (size : Z).

Definition WGPUCommandEncoder : Type := list encoder_command.

Definition wgpuCommandEncoderCopyBufferToBuffer (enc : WGPUCommandEncoder)
    (src : WGPUBuffer) (src_offset : Z) (dst : WGPUBuffer) (dst_offset : Z)
    (size : Z) : WGPUCommandEncoder :=
  enc ++ [CopyBufferToBuffer src src_offset dst dst_offset size].

(** Modelled from the spec: the struct [wgpu_buffer_t] is declared in a
    header that is not part of the sources; the code uses its fields
    [buffer], [usage] and [size]. *)
Record wgpu_buffer_t : Type := {
  wb_buffer : WGPUBuffer;
  wb_usage : Z;
  wb_size : Z;
}.

Definition wgpu_buffer_zero : wgpu_buffer_t :=
  {| wb_buffer := None; wb_usage := 0; wb_size := 0 |}.

(** Modelled from the spec: the descriptor of [wgpu_create_buffer], with
    the fields the code sets. *)
Record wgpu_buffer_desc_t : Type := {
  desc_usage : Z;
  desc_size : Z;
  desc_initial_data : option (list byte);
}.

(** Modelled from the spec: [wgpu_create_buffer] is not part of the
    sources. It allocates a buffer of the described usage and byte size
    and uploads the initial data when the descriptor carries some. *)
Definition wgpu_create_buffer (ctx : wgpu_context_t) (desc : wgpu_buffer_desc_t)
  : wgpu_context_t * wgpu_buffer_t :=
  let h := fresh (dom (device_buffers ctx)) in
  let contents :=
    match desc_initial_data desc with
    | Some d => blit (zero_bytes (desc_size desc)) 0 d (desc_size desc)
    | None => zero_bytes (desc_size desc)
    end in
  ({| device_buffers :=
        <[h := {| gb_usage := desc_usage desc; gb_size := desc_size desc;
                  gb_data := contents |}]> (device_buffers ctx);
      queue_writes := queue_writes ctx |},
   {| wb_buffer := Some h; wb_usage := desc_usage desc;
      wb_size := desc_size desc |}).

(** ** Dynamic buffer *)

Definition MAX_DIMENSIONS : Z := 3.

Record dynamic_buffer_t : Type := {
  db_dims : Z;
  db_buffer_size : Z;
  db_w : Z;
  db_h : Z;
  db_buffers : list wgpu_buffer_t;
}.

Definition dynamic_buffer_init_defaults : dynamic_buffer_t :=
  {| db_dims := 0; db_buffer_size := 0; db_w := 0; db_h := 0;
     db_buffers := replicate (Z.to_nat MAX_DIMENSIONS) wgpu_buffer_zero |}.

Definition set_db_buffers (this : dynamic_buffer_t) (bs : list wgpu_buffer_t)
  : dynamic_buffer_t :=
  {| db_dims := db_dims this; db_buffer_size := db_buffer_size this;
     db_w := db_w this; db_h := db_h this; db_buffers := bs |}.

Definition storage_usage : Z :=
  Z.lor (Z.lor WGPUBufferUsage_Storage WGPUBufferUsage_CopySrc)
        WGPUBufferUsage_CopyDst.

(** The allocation loop of [dynamic_buffer_init]: [n] iterations are left
    and [dim] is the loop counter. *)
Fixpoint dynamic_buffer_init_loop (n : nat) (dim : Z) (ctx : wgpu_context_t)
    (this : dynamic_buffer_t) : result (wgpu_context_t * dynamic_buffer_t) :=
  match n with
  | O => Ok (ctx, this)
  | S n' =>
      let '(ctx1, b) :=
        wgpuDeviceCreateBuffer ctx storage_usage (db_buffer_size this) in
      bs ← array_set (db_buffers this) dim
             {| wb_buffer := b; wb_usage := storage_usage;
                wb_size := db_buffer_size this |};
      dynamic_buffer_init_loop n' (dim + 1) ctx1 (set_db_buffers this bs)
  end.

(** [assertions] tells whether [assert] is compiled in. *)
Definition dynamic_buffer_init (assertions : bool) (ctx : wgpu_context_t)
    (dims w h : Z) : result (wgpu_context_t * dynamic_buffer_t) :=
  let this :=
    {| db_dims := dims; db_buffer_size := wrap32 (w * h * 4);
       db_w := w; db_h := h;
       db_buffers := db_buffers dynamic_buffer_init_defaults |} in
  if assertions && negb (dims <=? MAX_DIMENSIONS)
  then Fault AssertionFailed
  else dynamic_buffer_init_loop (Z.to_nat dims) 0 ctx this.

Fixpoint dynamic_buffer_copy_to_loop (n : nat) (i : Z)
    (this buffer : dynamic_buffer_t) (command_encoder : WGPUCommandEncoder)
  : result WGPUCommandEncoder :=
  match n with
  | O => Ok command_encoder
  | S n' =>
      src ← array_get (db_buffers this) (MIN i (wrap32 (db_dims this - 1)));
      dst ← array_get (db_buffers buffer) (MIN i (wrap32 (db_dims buffer - 1)));
      dynamic_buffer_copy_to_loop n' (i + 1) this buffer
        (wgpuCommandEncoderCopyBufferToBuffer command_encoder
           (wb_buffer src) 0 (wb_buffer dst) 0 (db_buffer_size this))
  end.

Definition dynamic_buffer_copy_to (this buffer : dynamic_buffer_t)
    (command_encoder : WGPUCommandEncoder) : result WGPUCommandEncoder :=
  dynamic_buffer_copy_to_loop
    (Z.to_nat (MAX (db_dims this) (db_dims buffer))) 0 this buffer
    command_encoder.

Fixpoint dynamic_buffer_clear_loop (n : nat) (i : Z) (ctx : wgpu_context_t)
    (this : dynamic_buffer_t) (empty_buffer : list byte)
  : result wgpu_context_t :=
  match n with
  | O => Ok ctx
  | S n' =>
      b ← array_get (db_buffers this) i;
      dynamic_buffer_clear_loop n' (i + 1)
        (wgpu_queue_write_buffer ctx (wb_buffer b) 0 (Some empty_buffer)
           (db_buffer_size this))
        this empty_buffer
  end.

(** [malloc] followed by [memset] gives [buffer_size] zero bytes. *)
Definition dynamic_buffer_clear (ctx : wgpu_context_t) (this : dynamic_buffer_t)
  : result wgpu_context_t :=
  let empty_buffer := zero_bytes (db_buffer_size this) in
  dynamic_buffer_clear_loop (Z.to_nat (db_dims this)) 0 ctx this empty_buffer.

(** ** The simulation settings

    The fields of the static [settings] that the sizing and the buffer
    setup read or write. [dx] is a C [float]. *)

Record settings_t : Type := {
  grid_size : Z;
  grid_w : Z;
  grid_h : Z;
  dye_size : Z;
  dye_w : Z;
  dye_h : Z;
  rdx : Z;
  dye_rdx : Z;
  dx : spec_float;
}.

Definition settings : settings_t :=
  {| grid_size := 512; grid_w := 0; grid_h := 0;
     dye_size := 2048; dye_w := 0; dye_h := 0;
     rdx := 0; dye_rdx := 0; dx := S754_zero false |}.

(** ** The field registry *)

Record dynamic_buffers_t : Type := {
  velocity : dynamic_buffer_t;
  velocity0 : dynamic_buffer_t;
  dye : dynamic_buffer_t;
  dye0 : dynamic_buffer_t;
  divergence : dynamic_buffer_t;
  divergence0 : dynamic_buffer_t;
  pressure : dynamic_buffer_t;
  pressure0 : dynamic_buffer_t;
  vorticity : dynamic_buffer_t;
  rgb_buffer : dynamic_buffer_t;
}.

Definition dynamic_buffers_init (assertions : bool) (ctx : wgpu_context_t)
    (s : settings_t) (regs : dynamic_buffers_t)
  : result (wgpu_context_t * dynamic_buffers_t) :=
  '(ctx, b_velocity) ←
    dynamic_buffer_init assertions ctx 2 (grid_w s) (grid_h s);
  '(ctx, b_velocity0) ←
    dynamic_buffer_init assertions ctx 2 (grid_w s) (grid_h s);
  '(ctx, b_dye) ←
    dynamic_buffer_init assertions ctx 3 (dye_w s) (dye_h s);
  '(ctx, b_dye0) ←
    dynamic_buffer_init assertions ctx 4 (dye_w s) (dye_h s);
  '(ctx, b_divergence) ←
    dynamic_buffer_init assertions ctx 1 (grid_w s) (grid_h s);
  '(ctx, b_divergence0) ←
    dynamic_buffer_init assertions ctx 1 (grid_w s) (grid_h s);
  '(ctx, b_pressure) ←
    dynamic_buffer_init assertions ctx 1 (grid_w s) (grid_h s);
  '(ctx, b_pressure0) ←
    dynamic_buffer_init assertions ctx 1 (grid_w s) (grid_h s);
  '(ctx, b_vorticity) ←
    dynamic_buffer_init assertions ctx 1 (grid_w s) (grid_h s);
  Ok (ctx,
      {| velocity := b_velocity; velocity0 := b_velocity0;
         dye := b_dye; dye0 := b_dye0;
         divergence := b_divergence; divergence0 := b_divergence0;
         pressure := b_pressure; pressure0 := b_pressure0;
         vorticity := b_vorticity; rgb_buffer := rgb_buffer regs |}).

(** ** Uniforms *)

Inductive uniform_type_t : Type :=
  | UNIFORM_TIME
  | UNIFORM_DT
  | UNIFORM_MOUSE_INFOS
  | UNIFORM_GRID_SIZE
  | UNIFORM_SIM_SPEED
  | UNIFORM_VELOCITY_ADD_INTENSITY
  | UNIFORM_VELOCITY_ADD_RADIUS
  | UNIFORM_VELOCITY_DIFFUSION
  | UNIFORM_DYE_ADD_INTENSITY
  | UNIFORM_DYE_ADD_RADIUS
  | UNIFORM_DYE_ADD_DIFFUSION
  | UNIFORM_VISCOSITY
  | UNIFORM_VORTICITY
  | UNIFORM_CONTAIN_FLUID
  | UNIFORM_MOUSE_TYPE
  | UNIFORM_RENDER_INTENSITY
  | UNIFORM_RENDER_DYE
  | UNIFORM_COUNT.

Record uniform_t : Type := {
  u_type : uniform_type_t;
  u_size : Z;
  u_always_update : bool;
  u_needs_update : bool;
  u_buffer : wgpu_buffer_t;
}.

(** [memset] of a slot to zero; the first enumerator is the zero one. *)
Definition uniform_init_defaults : uniform_t :=
  {| u_type := UNIFORM_TIME; u_size := 0; u_always_update := false;
     u_needs_update := false; u_buffer := wgpu_buffer_zero |}.

(** [p != NULL] *)
Definition not_null {A} (p : option A) : bool :=
  match p with
  | Some _ => true
  | None => false
  end.

Definition uniform_usage : Z :=
  Z.lor WGPUBufferUsage_Uniform WGPUBufferUsage_CopyDst.

(** [value] is the memory behind the [float*]: [None] for [NULL], else the
    bytes of the floats it points to. [this] is the slot as it was before
    the call; the function does not reset it. *)
Definition uniform_init (this : uniform_t) (ctx : wgpu_context_t)
    (type : uniform_type_t) (size : Z) (value : option (list byte))
  : wgpu_context_t * uniform_t :=
  let always := size =? 1 in
  if (0 <? size) && not_null value
  then
    let '(ctx', b) :=
      wgpu_create_buffer ctx
        {| desc_usage := uniform_usage;
           desc_size := wrap_size_t (size * 4);
           desc_initial_data := value |} in
    (ctx', {| u_type := type; u_size := size; u_always_update := always;
              u_needs_update := false; u_buffer := b |})
  else
    (ctx, {| u_type := type; u_size := size; u_always_update := always;
             u_needs_update := false; u_buffer := u_buffer this |}).

Definition uniform_update (this : uniform_t) (ctx : wgpu_context_t)
    (value : option (list byte)) : wgpu_context_t * uniform_t :=
  if u_needs_update this || u_always_update this || not_null value
  then
    (wgpu_queue_write_buffer ctx (wb_buffer (u_buffer this)) 0 value
       (u_size this),
     {| u_type := u_type this; u_size := u_size this;
        u_always_update := u_always_update this;
        u_needs_update := false; u_buffer := u_buffer this |})
  else (ctx, this).

(** ** Floating point

    C [float] is IEEE 754 binary32 and [double] is binary64, operations
    round to nearest even and each operation is evaluated in the type of
    its operands. *)

Definition float_of_Z (z : Z) : spec_float := binary_normalize 24 128 z 0 false.
Definition float_div : spec_float -> spec_float -> spec_float := SFdiv 24 128.
Definition float_mul : spec_float -> spec_float -> spec_float := SFmul 24 128.
Definition float_one : spec_float := float_of_Z 1.

(** Every binary32 number is a binary64 number: the conversion is exact. *)
Definition double_of_float (x : spec_float) : spec_float :=
  match x with
  | S754_finite s m e => binary_round 53 1024 s m e
  | _ => x
  end.

Definition float_of_double (x : spec_float) : spec_float :=
  match x with
  | S754_finite s m e => binary_round 24 128 s m e
  | _ => x
  end.

(** [sqrt] of [math.h] takes and returns a [double]. *)
Definition sqrt : spec_float -> spec_float := SFsqrt 53 1024.

(** The integer [floor] of [math.h] returns, for a finite argument. *)
Definition floor (x : spec_float) : option Z :=
  match x with
  | S754_zero _ => Some 0
  | S754_finite s m e =>
      let v := if s then Z.neg m else Z.pos m in
      Some (if 0 <=? e then v * 2 ^ e else v / 2 ^ (- e))
  | S754_infinity _ | S754_nan => None
  end.

(** Storing [floor(x)], with [x] a [float], into a [uint32_t]: the conversion
    is defined when the value fits the type, and undefined ([None]) when it
    does not, or when [x] is infinite or not a number. *)
Definition uint32_of_floor (x : spec_float) : option Z :=
  z ← floor (double_of_float x);
  if (0 <=? z) && (z <? 2 ^ 32) then Some z else None.

(** ** Initialization *)

Record WGPUExtent3D : Type := {
  width : Z;
  height : Z;
  depthOrArrayLayers : Z;
}.

(** The ratio that [get_valid_dimensions] ends with. *)
Definition down_ratio (w h max_buffer_size max_canvas_size : Z) : spec_float :=
  let r := float_one in
  let r :=
    if wrap32 (w * h * 4) >=? max_buffer_size
    then float_of_double
           (sqrt (double_of_float
                    (float_div (float_of_Z max_buffer_size)
                               (float_of_Z (wrap32 (w * h * 4))))))
    else r in
  if w >? max_canvas_size
  then float_div (float_of_Z max_canvas_size) (float_of_Z w)
  else if h >? max_canvas_size
  then float_div (float_of_Z max_canvas_size) (float_of_Z h)
  else r.

Definition get_valid_dimensions (w h max_buffer_size max_canvas_size : Z)
  : option WGPUExtent3D :=
  let r := down_ratio w h max_buffer_size max_canvas_size in
  width ← uint32_of_floor (float_mul (float_of_Z w) r);
  height ← uint32_of_floor (float_mul (float_of_Z h) r);
  Some {| width := width; height := height; depthOrArrayLayers := 0 |}.

(** The candidate dimensions of [get_preferred_dimensions], before they are
    validated. [surface_width] and [surface_height] are the [uint32_t]
    fields [surface.width] and [surface.height] of the context. *)
Definition preferred_wh (size surface_width surface_height : Z)
  : option (Z * Z) :=
  let aspect_ratio :=
    float_div (float_of_Z surface_width) (float_of_Z surface_height) in
  if surface_height <? surface_width
  then w ← uint32_of_floor (float_mul (float_of_Z size) aspect_ratio);
       Some (w, size)
  else h ← uint32_of_floor (float_div (float_of_Z size) aspect_ratio);
       Some (size, h).

Definition get_preferred_dimensions (size surface_width surface_height
    max_buffer_size max_canvas_size : Z) : option WGPUExtent3D :=
  '(w, h) ← preferred_wh size surface_width surface_height;
  get_valid_dimensions w h max_buffer_size max_canvas_size.

(** The two limits that [init_sizes] reads from the adapter. *)
Record WGPULimits : Type := {
  maxStorageBufferBindingSize : Z;
  maxTextureDimension2D : Z;
}.

(** [device_limits] is what [wgpuAdapterGetLimits] reports: [None] when the
    call returns false. *)
Definition init_sizes (s : settings_t) (surface_width surface_height : Z)
    (device_limits : option WGPULimits) : option settings_t :=
  let '(max_buffer_size, max_canvas_size) :=
    match device_limits with
    | Some l => (maxStorageBufferBindingSize l, maxTextureDimension2D l)
    | None => (0, 0)
    end in
  grid ← get_preferred_dimensions (grid_size s) surface_width surface_height
            max_buffer_size max_canvas_size;
  dye ← get_preferred_dimensions (dye_size s) surface_width surface_height
           max_buffer_size max_canvas_size;
  let rdx := wrap32 (grid_size s * 4) in
  Some {| grid_size := grid_size s;
          grid_w := width grid; grid_h := height grid;
          dye_size := dye_size s;
          dye_w := width dye; dye_h := height dye;
          rdx := rdx;
          dye_rdx := wrap32 (dye_size s * 4);
          dx := float_div float_one (float_of_Z rdx) |}.

(** ** Out-of-range conversions

    Storing [floor(x)] into a [uint32_t] when the value does not fit is
    undefined in C, but the compiled code does leave some [uint32_t]
    there. [oor] gives the value left for each such argument; it is
    reduced to 32 bits. With it the sizing functions are total. *)

Definition uint32_of_floor_with (oor : spec_float -> Z) (x : spec_float) : Z :=
  match uint32_of_floor x with
  | Some z => z
  | None => wrap32 (oor x)
  end.

Definition get_valid_dimensions_with (oor : spec_float -> Z)
    (w h max_buffer_size max_canvas_size : Z) : WGPUExtent3D :=
  let r := down_ratio w h max_buffer_size max_canvas_size in
  {| width := uint32_of_floor_with oor (float_mul (float_of_Z w) r);
     height := uint32_of_floor_with oor (float_mul (float_of_Z h) r);
     depthOrArrayLayers := 0 |}.

Definition preferred_wh_with (oor : spec_float -> Z)
    (size surface_width surface_height : Z) : Z * Z :=
  let aspect_ratio :=
    float_div (float_of_Z surface_width) (float_of_Z surface_height) in
  if surface_height <? surface_width
  then (uint32_of_floor_with oor (float_mul (float_of_Z size) aspect_ratio),
        size)
  else (size,
        uint32_of_floor_with oor (float_div (float_of_Z size) aspect_ratio)).

Definition get_preferred_dimensions_with (oor : spec_float -> Z)
    (size surface_width surface_height max_buffer_size max_canvas_size : Z)
  : WGPUExtent3D :=
  let '(w, h) := preferred_wh_with oor size surface_width surface_height in
  get_valid_dimensions_with oor w h max_buffer_size max_canvas_size.

Definition init_sizes_with (oor : spec_float -> Z) (s : settings_t)
    (surface_width surface_height : Z) (device_limits : option WGPULimits)
  : settings_t :=
  let '(max_buffer_size, max_canvas_size) :=
    match device_limits with
    | Some l => (maxStorageBufferBindingSize l, maxTextureDimension2D l)
    | None => (0, 0)
    end in
  let grid :=
    get_preferred_dimensions_with oor (grid_size s) surface_width
      surface_height max_buffer_size max_canvas_size in
  let dye :=
    get_preferred_dimensions_with oor (dye_size s) surface_width
      surface_height max_buffer_size max_canvas_size in
  let rdx := wrap32 (grid_size s * 4) in
  {| grid_size := grid_size s;
     grid_w := width grid; grid_h := height grid;
     dye_size := dye_size s;
     dye_w := width dye; dye_h := height dye;
     rdx := rdx;
     dye_rdx := wrap32 (dye_size s * 4);
     dx := float_div float_one (float_of_Z rdx) |}.

(** ** Teardown and the render program *)

(** Modelled from the spec: [wgpu_destroy_buffer] is not part of the
    sources; [destroy] "releases all channel buffers". Releasing a live
    buffer removes it from the device, a null handle releases nothing, and
    releasing a handle that is not live is undefined ([None]). *)
Definition wgpu_destroy_buffer (ctx : wgpu_context_t) (b : wgpu_buffer_t)
  : option wgpu_context_t :=
  match wb_buffer b with
  | None => Some ctx
  | Some h =>
      match device_buffers ctx !! h with
      | Some _ => Some {| device_buffers := delete h (device_buffers ctx);
                          queue_writes := queue_writes ctx |}
      | None => None
      end
  end.

(** The loop of [dynamic_buffer_destroy]; [None] is undefined behaviour, an
    index outside the array included. *)
Fixpoint dynamic_buffer_destroy_loop (n : nat) (i : Z) (ctx : wgpu_context_t)
    (this : dynamic_buffer_t) : option wgpu_context_t :=
  match n with
  | O => Some ctx
  | S n' =>
      match array_get (db_buffers this) i with
      | Ok b =>
          ctx' ← wgpu_destroy_buffer ctx b;
          dynamic_buffer_destroy_loop n' (i + 1) ctx' this
      | Fault _ => None
      end
  end.

Definition dynamic_buffer_destroy (ctx : wgpu_context_t) (this : dynamic_buffer_t)
  : option wgpu_context_t :=
  dynamic_buffer_destroy_loop (Z.to_nat (db_dims this)) 0 ctx this.

(** [render_program_setup_rgb_buffer]: the r, g, b field at dye resolution. *)
Definition render_program_setup_rgb_buffer (assertions : bool)
    (ctx : wgpu_context_t) (s : settings_t)
  : result (wgpu_context_t * dynamic_buffer_t) :=
  dynamic_buffer_init assertions ctx 3 (dye_w s) (dye_h s).

(** The static [uniforms]. *)
Record uniforms_t : Type := {
  time : uniform_t;
  dt : uniform_t;
  mouse : uniform_t;
  grid : uniform_t;
  sim_speed : uniform_t;
  vel_force : uniform_t;
  vel_radius : uniform_t;
  vel_diff : uniform_t;
  dye_force : uniform_t;
  dye_radius : uniform_t;
  dye_diff : uniform_t;
  viscosity : uniform_t;
  u_vorticity : uniform_t;
  contain_fluid : uniform_t;
  u_symmetry : uniform_t;
  u_render_intensity : uniform_t;
  u_render_dye : uniform_t;
}.

(** The four bytes of the C [float] 1, on a little-endian machine. *)
Definition float_one_bytes : list byte := [x00; x00; x80; x3f].

(** [render_program_setup_render_uniforms]: both render uniforms are
    initialised from the local [float value = 1]. *)
Definition render_program_setup_render_uniforms (ctx : wgpu_context_t)
    (u : uniforms_t) : wgpu_context_t * uniforms_t :=
  let value := Some float_one_bytes in
  let '(ctx, intensity) :=
    uniform_init (u_render_intensity u) ctx UNIFORM_RENDER_INTENSITY 1 value in
  let '(ctx, render_dye) :=
    uniform_init (u_render_dye u) ctx UNIFORM_RENDER_DYE 1 value in
  (ctx,
   {| time := time u; dt := dt u; mouse := mouse u; grid := grid u;
      sim_speed := sim_speed u; vel_force := vel_force u;
      vel_radius := vel_radius u; vel_diff := vel_diff u;
      dye_force := dye_force u; dye_radius := dye_radius u;
      dye_diff := dye_diff u; viscosity := viscosity u;
      u_vorticity := u_vorticity u; contain_fluid := contain_fluid u;
      u_symmetry := u_symmetry u;
      u_render_intensity := intensity; u_render_dye := render_dye |}).

(** An entry of a bind group, with the fields that the code sets; the
    offset is left at zero. *)
Record WGPUBindGroupEntry : Type := {
  binding : Z;
  entry_buffer : WGPUBuffer;
  entry_offset : Z;
  entry_size : Z;
}.

(** The six entries that [render_program_setup_bind_group] builds: the
    three channels of the rgb buffer, then the grid, intensity and
    render-dye uniforms. *)
Definition render_bind_group_entries (rgb : dynamic_buffer_t) (u : uniforms_t)
  : result (list WGPUBindGroupEntry) :=
  b0 ← array_get (db_buffers rgb) 0;
  b1 ← array_get (db_buffers rgb) 1;
  b2 ← array_get (db_buffers rgb) 2;
  Ok [ {| binding := 0; entry_buffer := wb_buffer b0; entry_offset := 0;
          entry_size := db_buffer_size rgb |};
       {| binding := 1; entry_buffer := wb_buffer b1; entry_offset := 0;
          entry_size := db_buffer_size rgb |};
       {| binding := 2; entry_buffer := wb_buffer b2; entry_offset := 0;
          entry_size := db_buffer_size rgb |};
       {| binding := 3; entry_buffer := wb_buffer (u_buffer (grid u));
          entry_offset := 0; entry_size := wb_size (u_buffer (grid u)) |};
       {| binding := 4;
          entry_buffer := wb_buffer (u_buffer (u_render_intensity u));
          entry_offset := 0;
          entry_size := wb_size (u_buffer (u_render_intensity u)) |};
       {| binding := 5;
          entry_buffer := wb_buffer (u_buffer (u_render_dye u));
          entry_offset := 0;
          entry_size := wb_size (u_buffer (u_render_dye u)) |} ].

(** ** Properties and sample data used by the statements below *)

Definition empty_context : wgpu_context_t :=
  {| device_buffers := ∅; queue_writes := [] |}.

(** The [i]-th copy command of [copyTo] as the spec gives it, moving [size]
    bytes. *)
Definition copy_command (this buffer : dynamic_buffer_t) (size i : Z)
  : option encoder_command :=
  src ← db_buffers this !! Z.to_nat (Z.min i (db_dims this - 1));
  dst ← db_buffers buffer !! Z.to_nat (Z.min i (db_dims buffer - 1));
  Some (CopyBufferToBuffer (wb_buffer src) 0 (wb_buffer dst) 0 size).

(** [copyTo] adds exactly [max dims dims'] commands to the encoder, the
    [i]-th being [copy_command _ _ size i]. *)
Definition copy_to_issues (size : Z) (this buffer : dynamic_buffer_t) : Prop :=
  forall enc : WGPUCommandEncoder,
  exists cmds : list encoder_command,
    dynamic_buffer_copy_to this buffer enc = Ok (enc ++ cmds)
    /\ Z.of_nat (length cmds) = Z.max (db_dims this) (db_dims buffer)
    /\ forall i : Z, 0 <= i < Z.max (db_dims this) (db_dims buffer) ->
         cmds !! Z.to_nat i = copy_command this buffer size i.

(** A dynamic buffer with one, two or three channels in its array of
    [MAX_DIMENSIONS] buffers. *)
Definition channels_ok (this : dynamic_buffer_t) : Prop :=
  (db_dims this = 1 \/ db_dims this = 2 \/ db_dims this = 3)
  /\ length (db_buffers this) = Z.to_nat MAX_DIMENSIONS.

(** A one-channel 2x2 field and a one-channel 1x1 field. *)
Definition copy_src : dynamic_buffer_t :=
  {| db_dims := 1; db_buffer_size := 16; db_w := 2; db_h := 2;
     db_buffers :=
       [ {| wb_buffer := Some 1%positive; wb_usage := storage_usage;
            wb_size := 16 |};
         wgpu_buffer_zero; wgpu_buffer_zero ] |}.

Definition copy_dst : dynamic_buffer_t :=
  {| db_dims := 1; db_buffer_size := 4; db_w := 1; db_h := 1;
     db_buffers :=
       [ {| wb_buffer := Some 2%positive; wb_usage := storage_usage;
            wb_size := 4 |};
         wgpu_buffer_zero; wgpu_buffer_zero ] |}.

(** A live device buffer of [size] bytes behind the handle [b]. *)
Definition sized_buffer (ctx : wgpu_context_t) (size : Z) (b : WGPUBuffer)
  : Prop :=
  exists h gb, b = Some h /\ device_buffers ctx !! h = Some gb
    /\ gb_size gb = size /\ length (gb_data gb) = Z.to_nat size.

(** A live device buffer of [size] bytes, every one of them zero. *)
Definition zeroed_buffer (ctx : wgpu_context_t) (size : Z) (b : WGPUBuffer)
  : Prop :=
  exists h gb, b = Some h /\ device_buffers ctx !! h = Some gb
    /\ gb_size gb = size /\ gb_data gb = zero_bytes size
    /\ Forall (fun x => x = x00) (gb_data gb).

(** The invariant of a dynamic buffer in a device state: at most
    [MAX_DIMENSIONS] channels, each a live buffer of [buffer_size] bytes. *)
Definition dynamic_buffer_wf (ctx : wgpu_context_t) (this : dynamic_buffer_t)
  : Prop :=
  0 <= db_dims this <= MAX_DIMENSIONS
  /\ length (db_buffers this) = Z.to_nat MAX_DIMENSIONS
  /\ 0 <= db_buffer_size this
  /\ forall (i : nat) (b : wgpu_buffer_t),
       (i < Z.to_nat (db_dims this))%nat -> db_buffers this !! i = Some b ->
       sized_buffer ctx (db_buffer_size this) (wb_buffer b).

(** The host-to-device writes that [clear] issues for the channels [bs]. *)
Definition clear_writes (size : Z) (bs : list wgpu_buffer_t)
  : list queue_write :=
  map (fun b => QueueWrite (wb_buffer b) 0 (Some (zero_bytes size)) size) bs.

(** One write of [clear]: [size] zero bytes at offset 0 of the buffer [b]. *)
Definition write_zero (size : Z) (ctx : wgpu_context_t) (b : WGPUBuffer)
  : wgpu_context_t :=
  wgpu_queue_write_buffer ctx b 0 (Some (zero_bytes size)) size.

(** The device after one 16-byte storage buffer was created. *)
Definition clear_ctx : wgpu_context_t :=
  (wgpuDeviceCreateBuffer empty_context storage_usage 16).1.

Definition set_needs_update (this : uniform_t) (dirty : bool) : uniform_t :=
  {| u_type := u_type this; u_size := u_size this;
     u_always_update := u_always_update this;
     u_needs_update := dirty; u_buffer := u_buffer this |}.

(** The write condition of [uniform_update]. *)
Definition update_condition (this : uniform_t) (value : option (list byte))
  : bool :=
  u_needs_update this || u_always_update this || not_null value.

(** What the spec expects of [uniform_init]: a buffer that was not there
    before, with uniform usage and [size * 4] bytes, holding the initial
    value when there is one. *)
Definition uniform_init_allocates (this : uniform_t) (ctx : wgpu_context_t)
    (type : uniform_type_t) (size : Z) (value : option (list byte)) : Prop :=
  let '(ctx', u) := uniform_init this ctx type size value in
  exists h gb,
    wb_buffer (u_buffer u) = Some h
    /\ device_buffers ctx !! h = None
    /\ device_buffers ctx' !! h = Some gb
    /\ Z.land (gb_usage gb) WGPUBufferUsage_Uniform = WGPUBufferUsage_Uniform
    /\ gb_size gb = size * 4
    /\ gb_data gb = match value with
                    | Some d => d
                    | None => zero_bytes (size * 4)
                    end.

(** Two values of the four-float mouse uniform, as bytes. *)
Definition mouse_value : list byte := replicate 16 x01.
Definition mouse_value' : list byte := replicate 16 xff.

Definition mouse_slot : uniform_t :=
  (uniform_init uniform_init_defaults empty_context
     UNIFORM_MOUSE_INFOS 4 (Some mouse_value)).2.

(** An entry binds a live device buffer of exactly the bound size. *)
Definition entry_bound (ctx : wgpu_context_t) (e : WGPUBindGroupEntry) : Prop :=
  exists h gb, entry_buffer e = Some h /\ device_buffers ctx !! h = Some gb
    /\ gb_size gb = entry_size e /\ entry_offset e = 0.

(** The buffer record that [dynamic_buffer_init] stores for the handle [h],
    and the device buffer behind it. *)
Definition channel_buffer (size : Z) (h : positive) : wgpu_buffer_t :=
  {| wb_buffer := Some h; wb_usage := storage_usage; wb_size := size |}.

Definition fresh_storage (size : Z) : gpu_buffer :=
  {| gb_usage := storage_usage; gb_size := size; gb_data := zero_bytes size |}.

(** ** Rational values of floats, for the sizing bounds *)

(** The rational [m * 2 ^ e]. *)
Definition dyadic (m e : Z) : Q := (inject_Z m * (2 # 1) ^ e)%Q.

(** The relative error of one binary32 rounding, [2 ^ -23]. *)
Definition eps : Q := (1 # 8388608)%Q.

(** [x] is the positive normal binary32 number [m * 2 ^ e]. *)
Definition normal_float (x : spec_float) (m : positive) (e : Z) : Prop :=
  x = S754_finite false m e /\ Z.pos (digits2_pos m) = 24.

(** The device limits of the end-to-end scenario: 128 MB and 8192. *)
Definition scenario_limits : WGPULimits :=
  {| maxStorageBufferBindingSize := 134217728; maxTextureDimension2D := 8192 |}.

Definition within_limits (w h : Z) : Prop :=
  w * h * 4 <= 134217728 /\ w <= 8192 /\ h <= 8192.

(** [init_sizes], run on the initial [settings] with the scenario's limits,
    yields grid and dye dimensions within the limits. *)
Definition init_sizes_within_limits (surface_width surface_height : Z) : Prop :=
  exists s' : settings_t,
    init_sizes settings surface_width surface_height (Some scenario_limits)
      = Some s'
    /\ within_limits (grid_w s') (grid_h s')
    /\ within_limits (dye_w s') (dye_h s').

(** ** Dynamic buffers: setup, copy and clear *)

Lemma array_set_ok {A} (a : list A) (i : Z) (x : A) :
  0 <= i < Z.of_nat (length a) -> array_set a i x = Ok (<[Z.to_nat i := x]> a).
Proof.
  intros Hi. unfold array_set.
  destruct (Z.leb_spec 0 i); [|lia]. destruct (Z.ltb_spec i (Z.of_nat (length a))); [|lia].
  reflexivity.
Qed.

Lemma array_get_ok {A} (a : list A) (i : Z) (x : A) :
  0 <= i -> a !! Z.to_nat i = Some x -> array_get a i = Ok x.
Proof.
  intros Hi Hx. unfold array_get.
  pose proof (lookup_lt_Some _ _ _ Hx) as Hlt.
  destruct (Z.leb_spec 0 i); [|lia]. destruct (Z.ltb_spec i (Z.of_nat (length a))); [|lia].
  simpl. rewrite Hx. reflexivity.
Qed.

(** The allocation loop succeeds while it stays inside the array. *)
Lemma dynamic_buffer_init_loop_ok n dim ctx this :
  0 <= dim -> dim + Z.of_nat n <= Z.of_nat (length (db_buffers this)) ->
  exists ctx' this', dynamic_buffer_init_loop n dim ctx this = Ok (ctx', this').
Proof.
  revert dim ctx this. induction n as [|n IH]; intros dim ctx this Hd Hn.
  - simpl. eauto.
  - cbn [dynamic_buffer_init_loop].
    destruct (wgpuDeviceCreateBuffer ctx storage_usage (db_buffer_size this)) as [ctx1 b].
    rewrite array_set_ok by lia. simpl.
    apply IH; [lia|]. simpl. rewrite length_insert. lia.
Qed.

(** [dynamic_buffer_init] succeeds for up to [MAX_DIMENSIONS] channels. *)
Lemma dynamic_buffer_init_ok assertions ctx dims w h :
  0 <= dims <= MAX_DIMENSIONS ->
  exists ctx' this, dynamic_buffer_init assertions ctx dims w h = Ok (ctx', this).
Proof.
  intros Hd. unfold dynamic_buffer_init.
  destruct (Z.leb_spec dims MAX_DIMENSIONS); [|lia].
  rewrite andb_false_r.
  apply dynamic_buffer_init_loop_ok; [lia|]. simpl. unfold MAX_DIMENSIONS in *. lia.
Qed.

(** Runs the next [dynamic_buffer_init] of a sequence when its channel
    count is within [MAX_DIMENSIONS]. *)
Ltac init_succeeds :=
  match goal with
  | |- context [mbind _ (dynamic_buffer_init ?a ?c ?d ?w ?h)] =>
      let c' := fresh "ctx" in
      let b := fresh "b" in
      destruct (dynamic_buffer_init_ok a c d w h) as (c' & b & ->);
      [done|]; cbn [mbind result_bind]
  end.

(** C1. [dynamic_buffers_init] initialises the dye-prev buffer [dye0] with
    four channels, one more than [MAX_DIMENSIONS]. Whatever the device
    state and the sizes, the setup therefore stops at the assertion of
    [dynamic_buffer_init] when assertions are compiled in, and without
    them the allocation loop writes [buffers[3]], past the end of the
    three-element array. *)
Theorem dynamic_buffers_init_dye0_exceeds_max_dimensions
    (ctx : wgpu_context_t) (s : settings_t) (regs : dynamic_buffers_t) :
  MAX_DIMENSIONS < 4
  /\ dynamic_buffers_init true ctx s regs = Fault AssertionFailed
  /\ dynamic_buffers_init false ctx s regs = Fault (OutOfBounds MAX_DIMENSIONS).
Proof.
  split; [reflexivity|].
  unfold dynamic_buffers_init.
  split; repeat init_succeeds; reflexivity.
Qed.

(** The two sample fields are what [dynamic_buffer_init] builds on an empty
    device. *)
Example copy_src_dst_from_init :
  exists ctx1 ctx2,
    dynamic_buffer_init true empty_context 1 2 2 = Ok (ctx1, copy_src)
    /\ dynamic_buffer_init true ctx1 1 1 1 = Ok (ctx2, copy_dst).
Proof. do 2 eexists. split; vm_compute; reflexivity. Qed.

(** C2, amended. For channel counts [d1], [d2] in {1, 2, 3}, [copyTo]
    records exactly [max d1 d2] buffer-to-buffer copies; the [i]-th one
    copies the source's channel [min i (d1 - 1)] to the destination's
    channel [min i (d2 - 1)] at offset 0, and each copy transfers the byte
    size of the source buffer. *)
Theorem dynamic_buffer_copy_to_commands (this buffer : dynamic_buffer_t) :
  channels_ok this -> channels_ok buffer ->
  copy_to_issues (db_buffer_size this) this buffer.
Proof.
  destruct this as [d1 s1 w1 h1 bs1], buffer as [d2 s2 w2 h2 bs2].
  unfold channels_ok, copy_to_issues, copy_command; simpl.
  intros [Hd1 Hl1] [Hd2 Hl2] enc.
  destruct bs1 as [|a0 [|a1 [|a2 [|]]]]; try discriminate Hl1.
  destruct bs2 as [|b0 [|b1 [|b2 [|]]]]; try discriminate Hl2.
  destruct Hd1 as [->|[->| ->]], Hd2 as [->|[->| ->]];
    (eexists; split;
      [ cbv -[app]; rewrite <- ?app_assoc; reflexivity
      | split; [reflexivity|];
        intros i Hi;
        assert (i = 0 \/ i = 1 \/ i = 2) as [->|[->| ->]] by lia;
        solve [reflexivity | lia] ]).
Qed.

(** C2: the amended statement at the two sample fields. *)
Lemma dynamic_buffer_copy_to_commands_witness :
  channels_ok copy_src /\ channels_ok copy_dst
  /\ copy_to_issues (db_buffer_size copy_src) copy_src copy_dst.
Proof.
  assert (H1 : channels_ok copy_src) by (split; [left; reflexivity | reflexivity]).
  assert (H2 : channels_ok copy_dst) by (split; [left; reflexivity | reflexivity]).
  split; [exact H1|]. split; [exact H2|].
  exact (dynamic_buffer_copy_to_commands copy_src copy_dst H1 H2).
Defined.

(** C2 as stated fails: copying the 16-byte field onto the 4-byte field
    records a copy of 16 bytes, not of the smaller size 4. *)
Lemma dynamic_buffer_copy_to_not_smaller_size :
  channels_ok copy_src /\ channels_ok copy_dst
  /\ ~ copy_to_issues (Z.min (db_buffer_size copy_src) (db_buffer_size copy_dst))
         copy_src copy_dst.
Proof.
  split; [split; [left; reflexivity | reflexivity]|].
  split; [split; [left; reflexivity | reflexivity]|].
  intros H. destruct (H []) as (cmds & Heq & _ & Hi).
  vm_compute in Heq. injection Heq as <-.
  specialize (Hi 0 ltac:(simpl; lia)). vm_compute in Hi. discriminate Hi.
Qed.

(** Every call of the queue write is recorded, whatever its effect. *)
Lemma queue_writes_write ctx b o d s :
  queue_writes (wgpu_queue_write_buffer ctx b o d s)
  = queue_writes ctx ++ [QueueWrite b o d s].
Proof.
  unfold wgpu_queue_write_buffer.
  destruct b as [h|], d as [d|]; try reflexivity.
  destruct (device_buffers ctx !! h) as [gb|]; [|reflexivity].
  destruct (_ && _); reflexivity.
Qed.

Lemma length_zero_bytes n : length (zero_bytes n) = Z.to_nat n.
Proof. apply length_replicate. Qed.

Lemma zero_bytes_all_zero n : Forall (fun x => x = x00) (zero_bytes n).
Proof. apply Forall_replicate. reflexivity. Qed.

(** Overwriting a whole buffer leaves exactly the new data. *)
Lemma blit_whole old data size :
  0 <= size -> length old = Z.to_nat size -> length data = Z.to_nat size ->
  blit old 0 data size = data.
Proof.
  intros Hs Ho Hd. unfold blit. simpl.
  rewrite take_ge by lia. rewrite drop_ge by lia. apply app_nil_r.
Qed.

(** One zero write of [clear]: it zeroes its target and keeps the size and
    the zeroes of every other buffer. *)
Section clear.
Variable size : Z.
Hypothesis size_nonneg : 0 <= size.

Lemma write_zero_zeroes ctx b :
  sized_buffer ctx size b -> zeroed_buffer (write_zero size ctx b) size b.
Proof using size_nonneg.
  intros (h & gb & -> & Hh & Hs & Hl).
  unfold write_zero, wgpu_queue_write_buffer. rewrite Hh.
  rewrite length_zero_bytes, Hs.
  replace ((0 <=? 0) && (0 <=? size) && (0 + size <=? size)
           && (size <=? Z.of_nat (Z.to_nat size))) with true.
  2:{ symmetry. rewrite !andb_true_iff, !Z.leb_le. lia. }
  exists h, {| gb_usage := gb_usage gb; gb_size := size;
               gb_data := blit (gb_data gb) 0 (zero_bytes size) size |}.
  split; [reflexivity|]. split; [simpl; apply lookup_insert_eq|].
  split; [reflexivity|]. simpl.
  rewrite blit_whole by (rewrite ?length_zero_bytes; auto).
  split; [reflexivity | apply zero_bytes_all_zero].
Qed.

Lemma write_zero_keeps_zeroed ctx b b' :
  zeroed_buffer ctx size b' -> zeroed_buffer (write_zero size ctx b) size b'.
Proof using size_nonneg.
  intros (h' & gb' & -> & Hh' & Hs' & Hd' & Hz').
  unfold write_zero, wgpu_queue_write_buffer.
  destruct b as [h|]; [|exists h', gb'; auto].
  destruct (device_buffers ctx !! h) as [gb|] eqn:Hh; [|exists h', gb'; auto].
  destruct (_ && _) eqn:Hc; [|exists h', gb'; auto].
  destruct (decide (h = h')) as [->|Hne].
  - rewrite Hh' in Hh. injection Hh as <-.
    eexists h', _. split; [reflexivity|]. split; [simpl; apply lookup_insert_eq|].
    simpl. split; [exact Hs'|].
    rewrite blit_whole;
      rewrite ?Hs', ?Hd', ?length_zero_bytes; auto using zero_bytes_all_zero.
  - exists h', gb'. split; [reflexivity|]. split; [|auto].
    simpl. rewrite lookup_insert_ne by exact Hne. exact Hh'.
Qed.

Lemma write_zero_keeps_sized ctx b b' :
  sized_buffer ctx size b' -> sized_buffer (write_zero size ctx b) size b'.
Proof using size_nonneg.
  intros (h' & gb' & -> & Hh' & Hs' & Hl').
  unfold write_zero, wgpu_queue_write_buffer.
  destruct b as [h|]; [|exists h', gb'; auto].
  destruct (device_buffers ctx !! h) as [gb|] eqn:Hh; [|exists h', gb'; auto].
  destruct (_ && _) eqn:Hc; [|exists h', gb'; auto].
  destruct (decide (h = h')) as [->|Hne].
  - rewrite Hh' in Hh. injection Hh as <-.
    eexists h', _. split; [reflexivity|]. split; [simpl; apply lookup_insert_eq|].
    simpl. split; [exact Hs'|].
    rewrite blit_whole; rewrite ?Hs', ?length_zero_bytes; auto.
  - exists h', gb'. split; [reflexivity|]. split; [|auto].
    simpl. rewrite lookup_insert_ne by exact Hne. exact Hh'.
Qed.
End clear.

(** The loop of [clear] from channel [i] on: the channels before [i] are
    zeroed already, the [n] channels from [i] are still to be written. *)
Lemma dynamic_buffer_clear_loop_spec this n i ctx :
  0 <= db_buffer_size this ->
  (i + n <= length (db_buffers this))%nat ->
  (forall j b, (i <= j < i + n)%nat -> db_buffers this !! j = Some b ->
     sized_buffer ctx (db_buffer_size this) (wb_buffer b)) ->
  (forall j b, (j < i)%nat -> db_buffers this !! j = Some b ->
     zeroed_buffer ctx (db_buffer_size this) (wb_buffer b)) ->
  exists ctx',
    dynamic_buffer_clear_loop n (Z.of_nat i) ctx this
      (zero_bytes (db_buffer_size this)) = Ok ctx'
    /\ queue_writes ctx'
       = queue_writes ctx
         ++ clear_writes (db_buffer_size this) (take n (drop i (db_buffers this)))
    /\ forall j b, (j < i + n)%nat -> db_buffers this !! j = Some b ->
         zeroed_buffer ctx' (db_buffer_size this) (wb_buffer b).
Proof.
  intros Hsz. revert i ctx. induction n as [|n IH]; intros i ctx Hlen Hs Hz.
  - exists ctx. simpl. rewrite app_nil_r. split; [reflexivity|]. split; [reflexivity|].
    intros j b Hj. apply Hz. lia.
  - destruct (lookup_lt_is_Some_2 (db_buffers this) i) as [bi Hbi]; [lia|].
    cbn [dynamic_buffer_clear_loop].
    rewrite (array_get_ok _ _ bi) by (rewrite ?Nat2Z.id; auto; lia).
    cbn [mbind result_bind].
    replace (Z.of_nat i + 1) with (Z.of_nat (S i)) by lia.
    destruct (IH (S i)
      (wgpu_queue_write_buffer ctx (wb_buffer bi) 0
         (Some (zero_bytes (db_buffer_size this))) (db_buffer_size this)))
      as (ctx' & Hrun & Hlog & Hzero).
    + lia.
    + intros j b Hj Hb. apply write_zero_keeps_sized; [exact Hsz|].
      apply (Hs j); [lia | exact Hb].
    + intros j b Hj Hb. destruct (decide (j = i)) as [->|Hne].
      * rewrite Hbi in Hb. injection Hb as <-.
        apply write_zero_zeroes; [exact Hsz|]. apply (Hs i); [lia | exact Hbi].
      * apply write_zero_keeps_zeroed; [exact Hsz|]. apply (Hz j); [lia | exact Hb].
    + exists ctx'. split; [exact Hrun|]. split.
      * rewrite Hlog, queue_writes_write, <- app_assoc. f_equal.
        rewrite (drop_S _ _ _ Hbi). reflexivity.
      * intros j b Hj. apply Hzero. lia.
Qed.

(** C9. For a dynamic buffer that satisfies its invariant, [clear] succeeds,
    issues for each channel one host-to-device write of [buffer_size] zero
    bytes at offset 0, and afterwards every byte of every channel buffer is
    zero. *)
Theorem dynamic_buffer_clear_zeroes (ctx : wgpu_context_t) (this : dynamic_buffer_t) :
  dynamic_buffer_wf ctx this ->
  exists ctx',
    dynamic_buffer_clear ctx this = Ok ctx'
    /\ queue_writes ctx'
       = queue_writes ctx
         ++ clear_writes (db_buffer_size this)
              (take (Z.to_nat (db_dims this)) (db_buffers this))
    /\ forall (i : nat) (b : wgpu_buffer_t),
         (i < Z.to_nat (db_dims this))%nat -> db_buffers this !! i = Some b ->
         zeroed_buffer ctx' (db_buffer_size this) (wb_buffer b).
Proof.
  intros (Hd & Hl & Hs & Hb). unfold dynamic_buffer_clear.
  destruct (dynamic_buffer_clear_loop_spec this (Z.to_nat (db_dims this)) 0 ctx)
    as (ctx' & Hrun & Hlog & Hz); auto.
  - rewrite Hl. unfold MAX_DIMENSIONS in *. lia.
  - intros j b Hj. apply Hb. lia.
  - intros j b Hj. lia.
  - exists ctx'. auto.
Qed.

(** A created buffer has the requested size; creating a buffer does not
    touch the ones that exist. *)
Lemma create_buffer_sized ctx usage size :
  sized_buffer (wgpuDeviceCreateBuffer ctx usage size).1 size
    (wgpuDeviceCreateBuffer ctx usage size).2.
Proof.
  unfold wgpuDeviceCreateBuffer, sized_buffer. simpl.
  eexists _, _. split; [reflexivity|]. split; [apply lookup_insert_eq|].
  simpl. split; [reflexivity | apply length_zero_bytes].
Qed.

Lemma create_buffer_keeps_sized ctx usage size size' b :
  sized_buffer ctx size' b ->
  sized_buffer (wgpuDeviceCreateBuffer ctx usage size).1 size' b.
Proof.
  intros (h & gb & -> & Hh & Hs & Hl).
  exists h, gb. split; [reflexivity|]. split; [|auto].
  unfold wgpuDeviceCreateBuffer. simpl.
  rewrite lookup_insert_ne; [exact Hh|].
  intros Heq. pose proof (is_fresh (dom (device_buffers ctx))) as Hf.
  rewrite Heq in Hf. apply Hf. apply elem_of_dom. eauto.
Qed.

(** The allocation loop keeps the channels below [dim] and adds [n] more. *)
Lemma dynamic_buffer_init_loop_wf n (dim : nat) ctx this ctx' this' :
  (dim + n <= length (db_buffers this))%nat ->
  (forall j b, (j < dim)%nat -> db_buffers this !! j = Some b ->
     sized_buffer ctx (db_buffer_size this) (wb_buffer b)) ->
  dynamic_buffer_init_loop n (Z.of_nat dim) ctx this = Ok (ctx', this') ->
  db_dims this' = db_dims this /\ db_buffer_size this' = db_buffer_size this
  /\ length (db_buffers this') = length (db_buffers this)
  /\ forall j b, (j < dim + n)%nat -> db_buffers this' !! j = Some b ->
       sized_buffer ctx' (db_buffer_size this) (wb_buffer b).
Proof.
  revert dim ctx this. induction n as [|n IH]; intros dim ctx this Hlen Hs Hrun.
  - simpl in Hrun. injection Hrun as <- <-. repeat split; auto.
    intros j b Hj. apply Hs. lia.
  - cbn [dynamic_buffer_init_loop] in Hrun.
    pose proof (create_buffer_sized ctx storage_usage (db_buffer_size this)) as Hnew.
    pose proof (fun b => create_buffer_keeps_sized ctx storage_usage
                  (db_buffer_size this) (db_buffer_size this) b) as Hold.
    destruct (wgpuDeviceCreateBuffer ctx storage_usage (db_buffer_size this))
      as [ctx1 nb]. simpl in Hnew, Hold.
    rewrite array_set_ok in Hrun by lia. cbn [mbind result_bind] in Hrun.
    replace (Z.of_nat dim + 1) with (Z.of_nat (S dim)) in Hrun by lia.
    rewrite Nat2Z.id in Hrun.
    apply IH in Hrun.
    + simpl in Hrun. rewrite length_insert in Hrun.
      destruct Hrun as (H1 & H2 & H3 & H4). repeat split; auto.
      intros j b Hj. apply H4. lia.
    + simpl. rewrite length_insert. lia.
    + simpl. intros j b Hj Hb.
      destruct (decide (j = dim)) as [->|Hne].
      * rewrite list_lookup_insert_eq in Hb by lia. injection Hb as <-. exact Hnew.
      * rewrite list_lookup_insert_ne in Hb by auto. apply Hold, (Hs j); [lia | exact Hb].
Qed.

Lemma wrap32_nonneg z : 0 <= wrap32 z.
Proof. unfold wrap32. apply Z.mod_pos_bound. reflexivity. Qed.

(** [dynamic_buffer_init] establishes the invariant. *)
Lemma dynamic_buffer_init_wf assertions ctx dims w h ctx' this :
  0 <= dims <= MAX_DIMENSIONS ->
  dynamic_buffer_init assertions ctx dims w h = Ok (ctx', this) ->
  dynamic_buffer_wf ctx' this.
Proof.
  intros Hd. unfold dynamic_buffer_init.
  destruct (Z.leb_spec dims MAX_DIMENSIONS); [|lia].
  rewrite andb_false_r. intros Hrun.
  apply (dynamic_buffer_init_loop_wf _ 0) in Hrun.
  - simpl in Hrun. destruct Hrun as (H1 & H2 & H3 & H4).
    unfold dynamic_buffer_wf. rewrite H1, H2, H3.
    repeat split; try lia; auto using wrap32_nonneg.
  - simpl. unfold MAX_DIMENSIONS in *. lia.
  - intros j b Hj. lia.
Qed.

(** C9: the statement at the one-channel sample field. *)
Lemma dynamic_buffer_clear_zeroes_witness :
  exists ctx',
    dynamic_buffer_clear clear_ctx copy_src = Ok ctx'
    /\ queue_writes ctx'
       = queue_writes clear_ctx
         ++ clear_writes (db_buffer_size copy_src)
              (take (Z.to_nat (db_dims copy_src)) (db_buffers copy_src))
    /\ forall (i : nat) (b : wgpu_buffer_t),
         (i < Z.to_nat (db_dims copy_src))%nat -> db_buffers copy_src !! i = Some b ->
         zeroed_buffer ctx' (db_buffer_size copy_src) (wb_buffer b).
Proof.
  apply (dynamic_buffer_clear_zeroes clear_ctx copy_src).
  split; [vm_compute; split; discriminate|].
  split; [reflexivity|]. split; [vm_compute; discriminate|].
  intros i b Hi Hb.
  assert (i = 0%nat) as -> by (vm_compute in Hi; lia).
  injection Hb as <-.
  eexists _, _. split; [reflexivity|]. split; [vm_compute; reflexivity|].
  split; reflexivity.
Defined.

(** ** Uniform slots *)

Lemma uniform_init_fields this ctx type size value :
  let u := (uniform_init this ctx type size value).2 in
  u_type u = type /\ u_size u = size
  /\ u_always_update u = (size =? 1) /\ u_needs_update u = false.
Proof.
  unfold uniform_init.
  destruct (_ && _); [destruct (wgpu_create_buffer _ _)|]; simpl; auto.
Qed.

(** The handle of a new buffer was not in use. *)
Lemma fresh_handle_unused (ctx : wgpu_context_t) :
  device_buffers ctx !! fresh (dom (device_buffers ctx)) = None.
Proof. apply not_elem_of_dom, is_fresh. Qed.

(** C6, amended. For an element count of at least 1, [uniform_init] with a
    non-null initial value of [size] floats allocates a fresh buffer with
    uniform usage and exactly [size * 4] bytes and uploads the value into
    it; with a null initial value it allocates nothing and leaves the
    device and the slot's buffer as they were. *)
Theorem uniform_init_allocates_for_value (this : uniform_t) (ctx : wgpu_context_t)
    (type : uniform_type_t) (size : Z) :
  1 <= size < 2 ^ 32 ->
  (forall d : list byte, length d = Z.to_nat (size * 4) ->
     uniform_init_allocates this ctx type size (Some d))
  /\ uniform_init this ctx type size None
     = (ctx, {| u_type := type; u_size := size; u_always_update := size =? 1;
                u_needs_update := false; u_buffer := u_buffer this |}).
Proof.
  intros Hs. split.
  - intros d Hd. unfold uniform_init_allocates, uniform_init.
    destruct (Z.ltb_spec 0 size); [|lia]. simpl.
    assert (Hw : wrap_size_t (size * 4) = size * 4).
    { unfold wrap_size_t. apply Z.mod_small. lia. }
    rewrite Hw.
    eexists _, _. split; [reflexivity|]. split; [apply fresh_handle_unused|].
    split; [apply lookup_insert_eq|]. simpl. split; [reflexivity|].
    split; [reflexivity|].
    apply blit_whole; rewrite ?length_zero_bytes; auto; lia.
  - unfold uniform_init. simpl. rewrite andb_false_r. reflexivity.
Qed.

(** C6: the amended statement at the four-float mouse uniform. *)
Lemma uniform_init_allocates_for_value_witness :
  uniform_init_allocates uniform_init_defaults empty_context
    UNIFORM_MOUSE_INFOS 4 (Some mouse_value)
  /\ uniform_init uniform_init_defaults empty_context UNIFORM_MOUSE_INFOS 4 None
     = (empty_context,
        {| u_type := UNIFORM_MOUSE_INFOS; u_size := 4; u_always_update := false;
           u_needs_update := false; u_buffer := wgpu_buffer_zero |}).
Proof.
  destruct (uniform_init_allocates_for_value uniform_init_defaults empty_context
              UNIFORM_MOUSE_INFOS 4 ltac:(lia)) as [H1 H2].
  split; [apply H1; reflexivity | exact H2].
Defined.

(** C6 as stated fails: with a null initial value no buffer is allocated. *)
Lemma uniform_init_null_value_allocates_nothing :
  ~ uniform_init_allocates uniform_init_defaults empty_context
      UNIFORM_MOUSE_INFOS 4 None.
Proof.
  unfold uniform_init_allocates. simpl.
  intros (h & gb & Hh & _). discriminate Hh.
Qed.

(** A write of [size] bytes at offset 0 into a live buffer that holds at
    least [size] bytes, from host data of at least [size] bytes, replaces
    the first [size] bytes of that buffer and nothing else on the device. *)
Lemma wgpu_queue_write_buffer_lands (ctx : wgpu_context_t) (h : positive)
    (gb : gpu_buffer) (d : list byte) (size : Z) :
  device_buffers ctx !! h = Some gb ->
  0 <= size <= gb_size gb -> size <= Z.of_nat (length d) ->
  device_buffers (wgpu_queue_write_buffer ctx (Some h) 0 (Some d) size)
  = <[h := {| gb_usage := gb_usage gb; gb_size := gb_size gb;
              gb_data := take (Z.to_nat size) d
                         ++ drop (Z.to_nat size) (gb_data gb) |}]>
      (device_buffers ctx).
Proof.
  intros Hh Hs Hd. unfold wgpu_queue_write_buffer. rewrite Hh.
  replace ((0 <=? 0) && (0 <=? size) && (0 + size <=? gb_size gb)
           && (size <=? Z.of_nat (length d))) with true.
  2:{ symmetry. rewrite !andb_true_iff, !Z.leb_le. lia. }
  reflexivity.
Qed.

(** C7. A slot initialised with element count 1 performs a buffer write
    on every [update], whatever the dirty flag and whether or not the
    value is null: the write is issued on the slot's buffer, with the
    element count 1 as byte count, and the dirty flag is clear afterwards.
    When the slot's buffer is live and the value is not null, the write
    lands: the first byte of the buffer is replaced by the first byte of
    the value, and nothing else on the device changes. A slot initialised
    with a non-null value owns such a buffer, a new one of 4 bytes. *)
Theorem uniform_update_scalar_always_writes (this0 : uniform_t)
    (ctx0 : wgpu_context_t) (type : uniform_type_t) (value0 : option (list byte))
    (dirty : bool) (ctx : wgpu_context_t) (value : option (list byte)) :
  let '(ctx1, u0) := uniform_init this0 ctx0 type 1 value0 in
  let u := set_needs_update u0 dirty in
  let '(ctx', u') := uniform_update u ctx value in
  update_condition u value = true
  /\ queue_writes ctx'
     = queue_writes ctx ++ [QueueWrite (wb_buffer (u_buffer u)) 0 value 1]
  /\ u_needs_update u' = false
  /\ (forall (h : positive) (gb : gpu_buffer) (d : list byte),
        wb_buffer (u_buffer u) = Some h ->
        device_buffers ctx !! h = Some gb -> 1 <= gb_size gb ->
        value = Some d -> (1 <= length d)%nat ->
        device_buffers ctx'
        = <[h := {| gb_usage := gb_usage gb; gb_size := gb_size gb;
                    gb_data := take 1 d ++ drop 1 (gb_data gb) |}]>
            (device_buffers ctx))
  /\ (forall d0 : list byte, value0 = Some d0 ->
        exists (h : positive) (gb : gpu_buffer),
          wb_buffer (u_buffer u) = Some h
          /\ device_buffers ctx0 !! h = None
          /\ device_buffers ctx1 !! h = Some gb
          /\ gb_size gb = 4 /\ gb_usage gb = uniform_usage).
Proof.
  pose proof (uniform_init_fields this0 ctx0 type 1 value0) as Hf.
  destruct (uniform_init this0 ctx0 type 1 value0) as [ctx1 u0] eqn:Hinit.
  destruct Hf as (_ & Hsize & Halways & _). simpl in Hsize, Halways.
  unfold uniform_update, update_condition. simpl.
  rewrite Halways, Hsize, orb_true_r. simpl.
  split; [reflexivity|]. split; [apply queue_writes_write|].
  split; [reflexivity|]. split.
  - intros h gb d Hb Hh Hgb -> Hd. rewrite Hb.
    apply (wgpu_queue_write_buffer_lands ctx h gb d 1 Hh); lia.
  - intros d0 ->. unfold uniform_init in Hinit. simpl in Hinit.
    injection Hinit as <- <-. simpl.
    eexists _, _. split; [reflexivity|]. split; [apply fresh_handle_unused|].
    split; [apply lookup_insert_eq|]. split; reflexivity.
Qed.

(** C7 at the time uniform: initialised with the float 1 and updated with
    the bytes 1, 2, 3, 4, its buffer then starts with the byte 1. *)
Lemma uniform_update_scalar_always_writes_witness :
  let '(ctx1, u0) :=
    uniform_init uniform_init_defaults empty_context UNIFORM_TIME 1
      (Some float_one_bytes) in
  device_buffers (uniform_update u0 ctx1 (Some [x01; x02; x03; x04])).1
  = {[ 1%positive := {| gb_usage := uniform_usage; gb_size := 4;
                        gb_data := [x01; x00; x80; x3f] |} ]}.
Proof.
  pose proof (uniform_update_scalar_always_writes uniform_init_defaults
                empty_context UNIFORM_TIME (Some float_one_bytes) false
                (uniform_init uniform_init_defaults empty_context UNIFORM_TIME 1
                   (Some float_one_bytes)).1
                (Some [x01; x02; x03; x04])) as H.
  destruct (uniform_init uniform_init_defaults empty_context UNIFORM_TIME 1
              (Some float_one_bytes)) as [ctx1 u0] eqn:Hinit.
  vm_compute in Hinit. injection Hinit as <- <-.
  cbn [fst] in H.
  change (set_needs_update _ false)
    with {| u_type := UNIFORM_TIME; u_size := 1; u_always_update := true;
            u_needs_update := false;
            u_buffer := {| wb_buffer := Some 1%positive;
                           wb_usage := uniform_usage; wb_size := 4 |} |} in H.
  destruct (uniform_update _ _ _) as [ctx' u'].
  destruct H as (_ & _ & _ & Hdev & _). cbn [fst].
  rewrite (Hdev 1%positive
             {| gb_usage := uniform_usage; gb_size := 4;
                gb_data := float_one_bytes |}
             [x01; x02; x03; x04]);
    try reflexivity; try (simpl; lia).
Defined.

(** C8. For a slot with more than one element, [update] with a clear dirty
    flag and a null value writes nothing: the device and the slot,
    its dirty flag included, are unchanged. *)
Theorem uniform_update_clean_vector_no_write (this : uniform_t) (ctx : wgpu_context_t) :
  u_always_update this = (u_size this =? 1) ->
  1 < u_size this ->
  u_needs_update this = false ->
  uniform_update this ctx None = (ctx, this).
Proof.
  intros Ha Hs Hn. unfold uniform_update. rewrite Hn, Ha.
  destruct (Z.eqb_spec (u_size this) 1); [lia|]. reflexivity.
Qed.

(** C8: the statement at the four-float mouse uniform. *)
Lemma uniform_update_clean_vector_no_write_witness :
  uniform_update mouse_slot empty_context None = (empty_context, mouse_slot).
Proof.
  apply (uniform_update_clean_vector_no_write mouse_slot empty_context).
  - reflexivity.
  - vm_compute. reflexivity.
  - reflexivity.
Defined.

(** C3, the code at a failing input. The mouse uniform has 4 elements and a
    16-byte buffer. [update] with a non-null value passes the element
    count 4 as the byte count of the write: only the first 4 bytes of the
    buffer change, and the buffer does not hold the new value. *)
Example uniform_update_writes_element_count_bytes :
  let '(ctx0, u) := uniform_init uniform_init_defaults empty_context
                      UNIFORM_MOUSE_INFOS 4 (Some mouse_value) in
  let '(ctx1, u') := uniform_update u ctx0 (Some mouse_value') in
  u_size u = 4
  /\ (exists h gb, wb_buffer (u_buffer u) = Some h
        /\ device_buffers ctx0 !! h = Some gb /\ gb_size gb = 16)
  /\ update_condition u (Some mouse_value') = true
  /\ queue_writes ctx1
     = [QueueWrite (wb_buffer (u_buffer u)) 0 (Some mouse_value') 4]
  /\ (exists h gb, wb_buffer (u_buffer u) = Some h
        /\ device_buffers ctx1 !! h = Some gb
        /\ gb_data gb = replicate 4 xff ++ replicate 12 x01
        /\ gb_data gb <> mouse_value').
Proof.
  vm_compute. split; [reflexivity|].
  split; [eexists _, _; repeat split; reflexivity|].
  split; [reflexivity|]. split; [reflexivity|].
  eexists _, _. repeat split; try reflexivity. discriminate.
Qed.

(** ** Rounding in [SpecFloat] *)

Lemma digits2_pos_spec (p : positive) :
  2 ^ (Z.pos (digits2_pos p) - 1) <= Z.pos p < 2 ^ Z.pos (digits2_pos p).
Proof.
  induction p as [p IH|p IH|]; simpl digits2_pos.
  - rewrite Pos2Z.inj_succ. change (Z.pos p~1) with (2 * Z.pos p + 1).
    replace (Z.succ (Z.pos (digits2_pos p)) - 1) with (Z.succ (Z.pos (digits2_pos p) - 1)) by lia.
    rewrite !Z.pow_succ_r by lia.
    generalize dependent (2 ^ (Z.pos (digits2_pos p) - 1)).
    generalize dependent (2 ^ Z.pos (digits2_pos p)). intros; lia.
  - rewrite Pos2Z.inj_succ. change (Z.pos p~0) with (2 * Z.pos p).
    replace (Z.succ (Z.pos (digits2_pos p)) - 1) with (Z.succ (Z.pos (digits2_pos p) - 1)) by lia.
    rewrite !Z.pow_succ_r by lia.
    generalize dependent (2 ^ (Z.pos (digits2_pos p) - 1)).
    generalize dependent (2 ^ Z.pos (digits2_pos p)). intros; lia.
  - simpl. lia.
Qed.

Lemma digits2_pos_unique (p : positive) (d : Z) :
  2 ^ (d - 1) <= Z.pos p < 2 ^ d -> Z.pos (digits2_pos p) = d.
Proof.
  intros [Hlo Hhi]. pose proof (digits2_pos_spec p) as [Hlo' Hhi'].
  assert (0 < d).
  { destruct (Z.lt_trichotomy d 0) as [Hd|[Hd|Hd]]; [|subst d; simpl in Hhi; lia|lia].
    rewrite (Z.pow_neg_r 2 d) in Hhi by lia. lia. }
  assert (d - 1 < Z.pos (digits2_pos p)).
  { apply (Z.pow_lt_mono_r_iff 2); lia. }
  assert (Z.pos (digits2_pos p) - 1 < d).
  { apply (Z.pow_lt_mono_r_iff 2); lia. }
  lia.
Qed.

(** Shifting a mantissa right by [n] bits divides it by [2 ^ n]. *)
Lemma shr_m_shr_1 (r : shr_record) :
  0 <= shr_m r -> shr_m (shr_1 r) = shr_m r / 2.
Proof.
  destruct r as [m r s]. simpl. intros Hm.
  destruct m as [|[p|p|]|p]; simpl; try lia.
  - reflexivity.
  - change (Z.pos p~1) with (2 * Z.pos p + 1). apply Z.div_unique with 1; lia.
  - change (Z.pos p~0) with (2 * Z.pos p). apply Z.div_unique with 0; lia.
  - reflexivity.
Qed.

Lemma shr_m_iter_pos (p : positive) (r : shr_record) :
  0 <= shr_m r -> shr_m (SpecFloat.iter_pos shr_1 p r) = shr_m r / 2 ^ Z.pos p.
Proof.
  revert r. induction p as [p IH|p IH|]; intros r Hr; simpl SpecFloat.iter_pos.
  - assert (H1 : 0 <= shr_m (shr_1 r)) by (rewrite shr_m_shr_1 by auto; apply Z.div_pos; lia).
    assert (H2 : 0 <= shr_m (SpecFloat.iter_pos shr_1 p (shr_1 r)))
      by (rewrite IH by auto; apply Z.div_pos; [auto | apply Z.pow_pos_nonneg; lia]).
    rewrite IH, IH, shr_m_shr_1 by auto.
    rewrite !Z.div_div by (try apply Z.pow_pos_nonneg; lia).
    f_equal. change (Z.pos p~1) with (2 * Z.pos p + 1).
    replace (2 * Z.pos p + 1) with (1 + Z.pos p + Z.pos p) by lia.
    rewrite !Z.pow_add_r by lia. lia.
  - assert (H2 : 0 <= shr_m (SpecFloat.iter_pos shr_1 p r))
      by (rewrite IH by auto; apply Z.div_pos; [auto | apply Z.pow_pos_nonneg; lia]).
    rewrite IH, IH by auto.
    rewrite !Z.div_div by (try apply Z.pow_pos_nonneg; lia).
    f_equal. change (Z.pos p~0) with (2 * Z.pos p).
    replace (2 * Z.pos p) with (Z.pos p + Z.pos p) by lia.
    rewrite !Z.pow_add_r by lia. lia.
  - rewrite shr_m_shr_1 by auto. reflexivity.
Qed.

Lemma shr_spec (r : shr_record) (e n : Z) :
  0 <= shr_m r -> 0 <= n ->
  shr_m (shr r e n).1 = shr_m r / 2 ^ n /\ (shr r e n).2 = e + n.
Proof.
  intros Hr Hn. unfold shr. destruct n as [|p|p]; simpl; try lia.
  - rewrite Z.div_1_r. split; [reflexivity | lia].
  - split; [|reflexivity]. apply shr_m_iter_pos; auto.
Qed.

(** Rounding to nearest moves a truncated mantissa up by at most one. *)
Lemma round_nearest_even_bounds (m : Z) (l : location) :
  m <= round_nearest_even m l <= m + 1.
Proof.
  unfold round_nearest_even. destruct l as [|[| |]]; try lia.
  destruct (Z.even m); lia.
Qed.

Lemma shr_m_record_of_loc (m : Z) (l : location) :
  shr_m (shr_record_of_loc m l) = m.
Proof. destruct l as [|[| |]]; reflexivity. Qed.

Lemma loc_of_shr_record_of_loc (m : Z) (l : location) :
  loc_of_shr_record (shr_record_of_loc m l) = l.
Proof. destruct l as [|[| |]]; reflexivity. Qed.

(** Powers of two. *)
Lemma pow2_pos (k : Z) : 0 <= k -> 0 < 2 ^ k.
Proof. intros. apply Z.pow_pos_nonneg; lia. Qed.

Lemma pow2_split (a b : Z) : 0 <= a -> 0 <= b -> 2 ^ (a + b) = 2 ^ a * 2 ^ b.
Proof. intros. apply Z.pow_add_r; lia. Qed.

Lemma pow2_double (k : Z) : 0 < k -> 2 ^ k = 2 * 2 ^ (k - 1).
Proof.
  intros. replace k with (1 + (k - 1)) at 1 by lia.
  rewrite pow2_split by lia. reflexivity.
Qed.

(** [binary_round_aux] on a mantissa of at least [prec] bits, away from
    underflow and overflow: the result is a finite number with a
    [prec]-bit mantissa, equal to the truncated mantissa or to its
    successor, and equal to the input when the input is exact and has
    [prec] bits. *)
Section rounding.
Variables prec emax : Z.
Hypothesis prec_pos : 0 < prec.

Lemma binary_round_aux_normal (s : bool) (m : positive) (e : Z) (l : location) :
  let d := Z.pos (digits2_pos m) in
  prec <= d ->
  emin prec emax <= d + e - prec ->
  d + e - prec + 1 <= emax - prec ->
  exists (m' : positive) (e' : Z),
    binary_round_aux prec emax s (Z.pos m) e l = S754_finite s m' e'
    /\ Z.pos (digits2_pos m') = prec
    /\ e + (d - prec) <= e' <= e + (d - prec) + 1
    /\ Z.pos m / 2 ^ (d - prec) * 2 ^ (d - prec) <= Z.pos m' * 2 ^ (e' - e)
         <= (Z.pos m / 2 ^ (d - prec) + 1) * 2 ^ (d - prec)
    /\ (l = loc_Exact -> d = prec -> m' = m /\ e' = e).
Proof using prec_pos.
  cbv zeta. pose proof (digits2_pos_spec m) as Hm.
  unfold binary_round_aux, shr_fexp.
  change (Zdigits2 (Z.pos m)) with (Z.pos (digits2_pos m)).
  remember (Z.pos (digits2_pos m)) as d eqn:Hdd.
  intros Hd Hmin Hmax.
  remember (d - prec) as n eqn:Hnn.
  assert (Hn : 0 <= n) by lia.
  remember (Z.pos m / 2 ^ n) as m1 eqn:Hm1def.
  assert (Hm1 : 2 ^ (prec - 1) <= m1 < 2 ^ prec).
  { subst m1. pose proof (pow2_pos n Hn) as Hpn.
    replace (d - 1) with (n + (prec - 1)) in Hm by lia.
    replace (2 ^ d) with (2 ^ (n + prec)) in Hm by (f_equal; lia).
    rewrite !pow2_split in Hm by lia. split.
    - apply Z.div_le_lower_bound; [exact Hpn | tauto].
    - apply Z.div_lt_upper_bound; [exact Hpn | tauto]. }
  assert (Hfexp : fexp prec emax (d + e) - e = n) by (unfold fexp; lia).
  rewrite Hfexp.
  destruct (shr (shr_record_of_loc (Z.pos m) l) e n) as [mrs' e1] eqn:Hshr.
  assert (Hmrs : shr_m mrs' = m1 /\ e1 = e + n
                 /\ (n = 0 -> loc_of_shr_record mrs' = l)).
  { destruct (shr_spec (shr_record_of_loc (Z.pos m) l) e n) as [H1 H2];
      [rewrite shr_m_record_of_loc; lia | exact Hn |].
    rewrite Hshr in H1, H2. simpl in H1, H2.
    rewrite shr_m_record_of_loc in H1. split; [congruence|]. split; [exact H2|].
    intros H0. rewrite H0 in Hshr. simpl in Hshr. injection Hshr as <- _.
    apply loc_of_shr_record_of_loc. }
  destruct Hmrs as (Hm1eq & -> & Hloc).
  rewrite Hm1eq.
  set (m2 := round_nearest_even m1 (loc_of_shr_record mrs')).
  pose proof (round_nearest_even_bounds m1 (loc_of_shr_record mrs')) as Hm2.
  fold m2 in Hm2.
  assert (Hpp : 0 < 2 ^ (prec - 1)) by (apply pow2_pos; lia).
  destruct m2 as [|p2|p2] eqn:Hp2; try lia.
  destruct (Z_lt_le_dec (Z.pos p2) (2 ^ prec)) as [Hlt|Hge].
  - (* no carry *)
    assert (Hd2 : Z.pos (digits2_pos p2) = prec)
      by (apply digits2_pos_unique; lia).
    change (Zdigits2 (Z.pos p2)) with (Z.pos (digits2_pos p2)).
    rewrite Hd2.
    assert (Hfexp2 : fexp prec emax (prec + (e + n)) - (e + n) = 0)
      by (unfold fexp; lia).
    rewrite Hfexp2. simpl.
    destruct (Z.leb_spec (e + n) (emax - prec)); [|lia].
    exists p2, (e + n). split; [reflexivity|]. split; [exact Hd2|].
    split; [lia|]. split.
    + replace (e + n - e) with n by lia.
      pose proof (pow2_pos n Hn). nia.
    + intros -> Hdp. assert (n = 0) as Hn0 by lia.
      split; [|lia].
      specialize (Hloc Hn0). unfold m2 in Hp2. rewrite Hloc in Hp2.
      simpl in Hp2. rewrite Hm1def, Hn0 in Hp2.
      rewrite Z.div_1_r in Hp2. congruence.
  - (* the rounded mantissa is [2 ^ prec] *)
    assert (Hp2eq : Z.pos p2 = 2 ^ prec) by lia.
    assert (Hd2 : Z.pos (digits2_pos p2) = prec + 1).
    { apply digits2_pos_unique. replace (prec + 1 - 1) with prec by lia.
      rewrite (Z.pow_add_r 2 prec 1) by lia. lia. }
    change (Zdigits2 (Z.pos p2)) with (Z.pos (digits2_pos p2)).
    rewrite Hd2.
    assert (Hfexp2 : fexp prec emax (prec + 1 + (e + n)) - (e + n) = 1)
      by (unfold fexp; lia).
    rewrite Hfexp2.
    destruct (shr (shr_record_of_loc (Z.pos p2) loc_Exact) (e + n) 1)
      as [mrs2 e2] eqn:Hshr2.
    destruct (shr_spec (shr_record_of_loc (Z.pos p2) loc_Exact) (e + n) 1)
      as [H1 H2]; [simpl; lia | lia |].
    rewrite Hshr2 in H1, H2. simpl in H1, H2.
    assert (Hhalf : Z.pos p2 / 2 = 2 ^ (prec - 1)).
    { rewrite Hp2eq, (pow2_double prec) by lia.
      rewrite Z.mul_comm, Z.div_mul by lia. reflexivity. }
    change (2 ^ 1) with 2 in H1. rewrite Hhalf in H1. rewrite H1.
    destruct (2 ^ (prec - 1)) as [|p3|p3] eqn:Hp3; try lia.
    subst e2.
    destruct (Z.leb_spec (e + n + 1) (emax - prec)); [|lia].
    exists p3, (e + n + 1). split; [reflexivity|]. split.
    { apply digits2_pos_unique. rewrite (pow2_double prec) by lia. lia. }
    split; [lia|]. split.
    + replace (e + n + 1 - e) with (n + 1) by lia.
      rewrite pow2_split by lia. change (2 ^ 1) with 2.
      pose proof (pow2_pos n Hn).
      assert (Hpe : 2 ^ prec = 2 * Z.pos p3)
        by (rewrite (pow2_double prec) by lia; lia).
      assert (Hm2eq : m1 + 1 = 2 * Z.pos p3) by lia.
      nia.
    + intros -> Hdp. assert (n = 0) as Hn0 by lia.
      specialize (Hloc Hn0). unfold m2 in Hp2. rewrite Hloc in Hp2.
      simpl in Hp2. lia.
Qed.
End rounding.

(** The rational value [dyadic m e]. *)
Lemma Qpow2_pos (e : Z) : (0 < (2 # 1) ^ e)%Q.
Proof. apply Qpower_0_lt. reflexivity. Qed.

Lemma Qpow2_add (a b : Z) : ((2 # 1) ^ (a + b) == (2 # 1) ^ a * (2 # 1) ^ b)%Q.
Proof. apply Qpower_plus. discriminate. Qed.

Lemma dyadic_shift (m e k : Z) :
  0 <= k -> (dyadic (m * 2 ^ k) e == dyadic m (e + k))%Q.
Proof.
  intros Hk. unfold dyadic.
  rewrite inject_Z_mult, (Zpower_Qpower 2 k Hk), Qpow2_add.
  change (inject_Z 2) with (2 # 1)%Q. ring.
Qed.

Lemma dyadic_le (m m' e : Z) : m <= m' -> (dyadic m e <= dyadic m' e)%Q.
Proof.
  intros H. unfold dyadic. apply Qmult_le_compat_r.
  - rewrite <- Zle_Qle. exact H.
  - apply Qlt_le_weak, Qpow2_pos.
Qed.

Lemma dyadic_pos (m e : Z) : 0 < m -> (0 < dyadic m e)%Q.
Proof.
  intros H. unfold dyadic. apply Qmult_lt_0_compat; [|apply Qpow2_pos].
  change 0%Q with (inject_Z 0). rewrite <- Zlt_Qlt. exact H.
Qed.

Lemma dyadic_0 (m : Z) : (dyadic m 0 == inject_Z m)%Q.
Proof. unfold dyadic. simpl. ring. Qed.

(** An integer within [m / 2 ^ 23] of [m] is within the relative error. *)
Lemma dyadic_rel_upper (m a e : Z) :
  2 ^ 23 * (a - m) <= m -> (dyadic a e <= dyadic m e * (1 + eps))%Q.
Proof.
  intros H. unfold dyadic, eps.
  rewrite <- Qmult_assoc, (Qmult_comm ((2 # 1) ^ e)), Qmult_assoc.
  apply Qmult_le_compat_r; [|apply Qlt_le_weak, Qpow2_pos].
  rewrite Zle_Qle, inject_Z_mult in H. unfold Z.sub in H.
  rewrite inject_Z_plus, inject_Z_opp in H.
  change (inject_Z (2 ^ 23)) with (8388608 # 1)%Q in H. lra.
Qed.

Lemma dyadic_rel_lower (m a e : Z) :
  2 ^ 23 * (m - a) <= m -> (dyadic m e * (1 - eps) <= dyadic a e)%Q.
Proof.
  intros H. unfold dyadic, eps.
  rewrite <- Qmult_assoc, (Qmult_comm ((2 # 1) ^ e)), Qmult_assoc.
  apply Qmult_le_compat_r; [|apply Qlt_le_weak, Qpow2_pos].
  rewrite Zle_Qle, inject_Z_mult in H. unfold Z.sub in H.
  rewrite inject_Z_plus, inject_Z_opp in H.
  change (inject_Z (2 ^ 23)) with (8388608 # 1)%Q in H. lra.
Qed.

(** The outcome of [binary_round_aux] in binary32, as rational bounds. *)
Lemma round32_bounds (m : positive) (e : Z) (l : location) :
  24 <= Z.pos (digits2_pos m) ->
  -149 <= Z.pos (digits2_pos m) + e - 24 ->
  Z.pos (digits2_pos m) + e - 24 + 1 <= 104 ->
  exists (m' : positive) (e' : Z),
    binary_round_aux 24 128 false (Z.pos m) e l = S754_finite false m' e'
    /\ Z.pos (digits2_pos m') = 24
    /\ Z.pos (digits2_pos m) + e - 24 <= e' <= Z.pos (digits2_pos m) + e - 23
    /\ (dyadic (Z.pos m + 1) e * (1 - eps) <= dyadic (Z.pos m') e'
        <= dyadic (Z.pos m) e * (1 + eps))%Q
    /\ (l = loc_Exact -> dyadic (Z.pos m) e * (1 - eps) <= dyadic (Z.pos m') e')%Q.
Proof.
  intros Hd Hlo Hhi.
  destruct (binary_round_aux_normal 24 128 ltac:(lia) false m e l Hd)
    as (m' & e' & Hr & Hd' & He' & Hv & Hex); [exact Hlo | exact Hhi |].
  exists m', e'. split; [exact Hr|]. split; [exact Hd'|]. split; [lia|].
  pose proof (digits2_pos_spec m) as Hm.
  remember (Z.pos (digits2_pos m)) as d eqn:Hdd.
  remember (d - 24) as n eqn:Hnn.
  assert (Hn : 0 <= n) by lia.
  pose proof (pow2_pos n Hn) as Hpn.
  replace (d - 1) with (n + 23) in Hm by lia.
  rewrite pow2_split in Hm by lia.
  assert (Hdiv : Z.pos m - 2 ^ n < Z.pos m / 2 ^ n * 2 ^ n <= Z.pos m).
  { pose proof (Z.div_mod (Z.pos m) (2 ^ n) ltac:(lia)) as H1.
    pose proof (Z.mod_pos_bound (Z.pos m) (2 ^ n) Hpn) as H2. lia. }
  assert (Heq : (dyadic (Z.pos m') e' == dyadic (Z.pos m' * 2 ^ (e' - e)) e)%Q).
  { rewrite dyadic_shift by lia. replace (e + (e' - e)) with e' by lia. reflexivity. }
  rewrite Heq.
  change (2 ^ 23) with 8388608 in Hm.
  split; [split|].
  - apply dyadic_rel_lower. change (2 ^ 23) with 8388608. nia.
  - apply dyadic_rel_upper. change (2 ^ 23) with 8388608. nia.
  - intros _. apply dyadic_rel_lower. change (2 ^ 23) with 8388608. nia.
Qed.

(** Shifting left by [k] bits multiplies by [2 ^ k]. *)
Lemma pos_iter_xO (p k : positive) :
  Z.pos (Pos.iter xO p k) = Z.pos p * 2 ^ Z.pos k.
Proof.
  induction k as [|k IH] using Pos.peano_ind.
  - simpl. lia.
  - rewrite Pos.iter_succ, Pos2Z.inj_succ, Z.pow_succ_r by lia.
    change (Z.pos (Pos.iter xO p k)~0) with (2 * Z.pos (Pos.iter xO p k)).
    rewrite IH. ring.
Qed.

Lemma digits2_pos_bounds (p : positive) (a b : Z) :
  2 ^ a <= Z.pos p < 2 ^ b -> 0 <= a -> a < Z.pos (digits2_pos p) <= b.
Proof.
  intros [Hlo Hhi] Ha. pose proof (digits2_pos_spec p) as [Hlo' Hhi'].
  split.
  - apply (Z.pow_lt_mono_r_iff 2); lia.
  - assert (Z.pos (digits2_pos p) - 1 < b); [|lia].
    apply (Z.pow_lt_mono_r_iff 2); try lia.
    destruct (Z_lt_le_dec b 0) as [Hb|Hb]; [|exact Hb].
    rewrite (Z.pow_neg_r 2 b) in Hhi by lia. lia.
Qed.

(** [shl_align] to the exponent of a [prec]-bit mantissa. *)
Lemma shl_align_spec (prec emax : Z) (m : positive) (e : Z) :
  0 < prec ->
  emin prec emax <= Z.pos (digits2_pos m) + e - prec ->
  exists (mz : positive) (ez : Z),
    shl_align m e (fexp prec emax (Z.pos (digits2_pos m) + e)) = (mz, ez)
    /\ ez <= e /\ Z.pos mz = Z.pos m * 2 ^ (e - ez)
    /\ Z.pos (digits2_pos mz) = Z.max prec (Z.pos (digits2_pos m))
    /\ Z.pos (digits2_pos mz) + ez = Z.max prec (Z.pos (digits2_pos m)) + e - Z.max 0 (prec - Z.pos (digits2_pos m)).
Proof.
  intros Hprec Hmin. pose proof (digits2_pos_spec m) as Hm.
  remember (Z.pos (digits2_pos m)) as d eqn:Hdd.
  assert (Hf : fexp prec emax (d + e) = d + e - prec) by (unfold fexp; lia).
  rewrite Hf. unfold shl_align.
  destruct (d + e - prec - e) as [|k|k] eqn:Hk.
  - exists m, e. replace (e - e) with 0 by lia. rewrite <- Hdd.
    repeat split; try lia.
  - exists m, e. replace (e - e) with 0 by lia. rewrite <- Hdd.
    repeat split; try lia.
  - exists (Pos.iter xO m k), (d + e - prec).
    assert (Hkk : Z.pos k = prec - d) by lia.
    assert (Hmz : Z.pos (Pos.iter xO m k) = Z.pos m * 2 ^ (prec - d))
      by (rewrite pos_iter_xO, Hkk; reflexivity).
    assert (Hdz : Z.pos (digits2_pos (Pos.iter xO m k)) = prec).
    { apply digits2_pos_unique. rewrite Hmz.
      pose proof (pow2_pos (prec - d) ltac:(lia)) as Hp.
      assert (H1 : 2 ^ (prec - 1) = 2 ^ (d - 1) * 2 ^ (prec - d))
        by (rewrite <- pow2_split by lia; f_equal; lia).
      assert (H2 : 2 ^ prec = 2 ^ d * 2 ^ (prec - d))
        by (rewrite <- pow2_split by lia; f_equal; lia).
      rewrite H1, H2. clear - Hm Hp.
      generalize dependent (2 ^ (prec - d)). generalize dependent (2 ^ (d - 1)).
      generalize dependent (2 ^ d). intros; nia. }
    split; [reflexivity|]. split; [lia|]. split.
    { rewrite Hmz. f_equal. f_equal. lia. }
    rewrite Hdz. lia.
Qed.

(** Conversion of a positive integer below [2 ^ 64] to binary32: a normal
    number within the relative error. *)
Lemma float_of_Z_bounds (z : Z) :
  0 < z < 2 ^ 64 ->
  exists (m : positive) (e : Z),
    normal_float (float_of_Z z) m e /\ -23 <= e <= 41
    /\ (inject_Z z * (1 - eps) <= dyadic (Z.pos m) e <= inject_Z z * (1 + eps))%Q.
Proof.
  intros [Hz Hz64]. destruct z as [|p|p]; try lia.
  unfold float_of_Z, binary_normalize, binary_round.
  assert (Hd : 0 < Z.pos (digits2_pos p) <= 64).
  { apply (digits2_pos_bounds p 0 64); simpl; lia. }
  destruct (shl_align_spec 24 128 p 0 ltac:(lia)) as (mz & ez & Hsh & Hez & Hmz & Hdz & Hde).
  { unfold emin. lia. }
  rewrite Hsh.
  destruct (round32_bounds mz ez loc_Exact) as (m' & e' & Hr & Hd' & He' & [_ Hup] & Hlo);
    try lia.
  exists m', e'. split; [split; assumption|]. split; [lia|].
  assert (Hval : (dyadic (Z.pos mz) ez == inject_Z (Z.pos p))%Q).
  { rewrite Hmz, dyadic_shift by lia. replace (ez + (0 - ez)) with 0 by lia.
    apply dyadic_0. }
  rewrite Hval in Hup. specialize (Hlo eq_refl). rewrite Hval in Hlo.
  split; assumption.
Qed.

(** The binary32 product of two positive normal numbers is at most the
    exact product times [1 + eps]. *)
Lemma float_mul_bounds (x y : spec_float) (mx my : positive) (ex ey : Z) :
  normal_float x mx ex -> normal_float y my ey ->
  -172 <= ex + ey <= 79 ->
  exists (m : positive) (e : Z),
    normal_float (float_mul x y) m e /\ ex + ey + 23 <= e <= ex + ey + 25
    /\ (dyadic (Z.pos m) e
        <= dyadic (Z.pos mx) ex * dyadic (Z.pos my) ey * (1 + eps))%Q.
Proof.
  intros [-> Hdx] [-> Hdy] He.
  unfold float_mul, SFmul. simpl xorb.
  pose proof (digits2_pos_spec mx) as Hmx. rewrite Hdx in Hmx.
  pose proof (digits2_pos_spec my) as Hmy. rewrite Hdy in Hmy.
  assert (Hd : 46 < Z.pos (digits2_pos (mx * my)) <= 48).
  { apply digits2_pos_bounds; [|lia]. rewrite Pos2Z.inj_mul.
    change (2 ^ (24 - 1)) with 8388608 in *. change (2 ^ 24) with 16777216 in *.
    change (2 ^ 46) with (8388608 * 8388608). change (2 ^ 48) with (16777216 * 16777216).
    nia. }
  destruct (round32_bounds (mx * my) (ex + ey) loc_Exact)
    as (m' & e' & Hr & Hd' & He' & [_ Hup] & _); try lia.
  exists m', e'. split; [split; assumption|]. split; [lia|].
  assert (Hval : (dyadic (Z.pos (mx * my)) (ex + ey)
                  == dyadic (Z.pos mx) ex * dyadic (Z.pos my) ey)%Q).
  { unfold dyadic. rewrite Pos2Z.inj_mul, inject_Z_mult, Qpow2_add. ring. }
  rewrite Hval in Hup. exact Hup.
Qed.

(** The binary32 quotient [x / y] of two positive normal numbers, times
    [y], is at most [x * (1 + eps)]; [float_div_lower] is the bound from
    below. *)
Lemma float_div_bounds (x y : spec_float) (mx my : positive) (ex ey : Z) :
  normal_float x mx ex -> normal_float y my ey ->
  -125 <= ex - ey <= 125 ->
  exists (m : positive) (e : Z),
    normal_float (float_div x y) m e /\ ex - ey - 24 <= e <= ex - ey - 22
    /\ (dyadic (Z.pos m) e * dyadic (Z.pos my) ey
        <= dyadic (Z.pos mx) ex * (1 + eps))%Q.
Proof.
  intros [-> Hdx] [-> Hdy] He.
  unfold float_div, SFdiv, SFdiv_core_binary. simpl xorb.
  change (Zdigits2 (Z.pos mx)) with (Z.pos (digits2_pos mx)).
  change (Zdigits2 (Z.pos my)) with (Z.pos (digits2_pos my)).
  rewrite Hdx, Hdy.
  pose proof (digits2_pos_spec mx) as Hmx. rewrite Hdx in Hmx.
  pose proof (digits2_pos_spec my) as Hmy. rewrite Hdy in Hmy.
  change (2 ^ (24 - 1)) with 8388608 in *. change (2 ^ 24) with 16777216 in *.
  assert (He' : Z.min (fexp 24 128 (24 + ex - (24 + ey))) (ex - ey) = ex - ey - 24)
    by (unfold fexp, emin; lia).
  rewrite He'. replace (ex - ey - (ex - ey - 24)) with 24 by lia.
  rewrite Z.shiftl_mul_pow2 by lia. change (2 ^ 24) with 16777216.
  pose proof (Z.div_mod (Z.pos mx * 16777216) (Z.pos my) ltac:(lia)) as Hdm.
  pose proof (Z.mod_pos_bound (Z.pos mx * 16777216) (Z.pos my) ltac:(lia)) as Hmod.
  unfold Z.div, Z.modulo in Hdm, Hmod.
  destruct (Z.div_eucl (Z.pos mx * 16777216) (Z.pos my)) as [q r].
  assert (Hq : 2 ^ 23 <= q < 2 ^ 25).
  { change (2 ^ 23) with 8388608. change (2 ^ 25) with 33554432. nia. }
  destruct q as [|pq|pq]; try (simpl in Hq; lia).
  assert (Hd : 23 < Z.pos (digits2_pos pq) <= 25)
    by (apply digits2_pos_bounds; [exact Hq | lia]).
  destruct (round32_bounds pq (ex - ey - 24) (new_location (Z.pos my) r))
    as (m' & e' & Hr & Hd' & He'' & [_ Hup] & _); try lia.
  exists m', e'. split; [split; assumption|]. split; [lia|].
  assert (Hval : (dyadic (Z.pos pq) (ex - ey - 24) * dyadic (Z.pos my) ey
                  <= dyadic (Z.pos mx) ex)%Q).
  { assert (Hle : Z.pos pq * Z.pos my <= Z.pos mx * 2 ^ 24)
      by (change (2 ^ 24) with 16777216; nia).
    apply (dyadic_le _ _ (ex - 24)) in Hle.
    rewrite dyadic_shift in Hle by lia.
    replace (ex - 24 + 24) with ex in Hle by lia.
    unfold dyadic in *. rewrite inject_Z_mult in Hle.
    replace (ex - 24) with ((ex - ey - 24) + ey) in Hle by lia.
    rewrite Qpow2_add in Hle. lra. }
  pose proof (dyadic_pos (Z.pos my) ey ltac:(lia)) as Hypos.
  pose proof (dyadic_pos (Z.pos pq) (ex - ey - 24) ltac:(lia)) as Hqpos.
  assert (H1 : (dyadic (Z.pos m') e' * dyadic (Z.pos my) ey
                <= dyadic (Z.pos pq) (ex - ey - 24) * (1 + eps) * dyadic (Z.pos my) ey)%Q).
  { apply Qmult_le_compat_r; [exact Hup | apply Qlt_le_weak, Hypos]. }
  unfold eps in *. nra.
Qed.

(** The exponent of a normal binary32 number below [2 ^ k]. *)
Lemma normal_float_exponent (x : spec_float) (m : positive) (e k : Z) :
  normal_float x m e -> (dyadic (Z.pos m) e < (2 # 1) ^ k)%Q -> e <= k - 24.
Proof.
  intros [_ Hd] Hv. pose proof (digits2_pos_spec m) as Hm. rewrite Hd in Hm.
  assert (H1 : (dyadic (2 ^ 23) e <= dyadic (Z.pos m) e)%Q)
    by (apply dyadic_le; change (2 ^ (24 - 1)) with (2 ^ 23) in Hm; lia).
  assert (H2 : (dyadic (2 ^ 23) e == (2 # 1) ^ (23 + e))%Q).
  { unfold dyadic. rewrite Qpow2_add. reflexivity. }
  rewrite H2 in H1.
  assert (H3 : ((2 # 1) ^ (23 + e) < (2 # 1) ^ k)%Q) by (eapply Qle_lt_trans; eauto).
  apply Qpower_lt_compat_l_inv in H3; [lia | reflexivity].
Qed.

Lemma float_div_lower (x y : spec_float) (mx my : positive) (ex ey : Z) :
  normal_float x mx ex -> normal_float y my ey ->
  -125 <= ex - ey <= 125 ->
  exists (m : positive) (e : Z),
    float_div x y = S754_finite false m e
    /\ (dyadic (Z.pos mx) ex * (1 - eps)
        <= dyadic (Z.pos m) e * dyadic (Z.pos my) ey)%Q.
Proof.
  intros [-> Hdx] [-> Hdy] He.
  unfold float_div, SFdiv, SFdiv_core_binary. simpl xorb.
  change (Zdigits2 (Z.pos mx)) with (Z.pos (digits2_pos mx)).
  change (Zdigits2 (Z.pos my)) with (Z.pos (digits2_pos my)).
  rewrite Hdx, Hdy.
  pose proof (digits2_pos_spec mx) as Hmx. rewrite Hdx in Hmx.
  pose proof (digits2_pos_spec my) as Hmy. rewrite Hdy in Hmy.
  change (2 ^ (24 - 1)) with 8388608 in *. change (2 ^ 24) with 16777216 in *.
  assert (He' : Z.min (fexp 24 128 (24 + ex - (24 + ey))) (ex - ey) = ex - ey - 24)
    by (unfold fexp, emin; lia).
  rewrite He'. replace (ex - ey - (ex - ey - 24)) with 24 by lia.
  rewrite Z.shiftl_mul_pow2 by lia. change (2 ^ 24) with 16777216.
  pose proof (Z.div_mod (Z.pos mx * 16777216) (Z.pos my) ltac:(lia)) as Hdm.
  pose proof (Z.mod_pos_bound (Z.pos mx * 16777216) (Z.pos my) ltac:(lia)) as Hmod.
  unfold Z.div, Z.modulo in Hdm, Hmod.
  destruct (Z.div_eucl (Z.pos mx * 16777216) (Z.pos my)) as [q r].
  assert (Hq : 2 ^ 23 <= q < 2 ^ 25).
  { change (2 ^ 23) with 8388608. change (2 ^ 25) with 33554432. nia. }
  destruct q as [|pq|pq]; try (simpl in Hq; lia).
  assert (Hd : 23 < Z.pos (digits2_pos pq) <= 25)
    by (apply digits2_pos_bounds; [exact Hq | lia]).
  destruct (round32_bounds pq (ex - ey - 24) (new_location (Z.pos my) r))
    as (m' & e' & Hr & Hd' & He'' & [Hlo _] & _); try lia.
  exists m', e'. split; [exact Hr|].
  assert (Hval : (dyadic (Z.pos mx) ex
                  <= dyadic (Z.pos pq + 1) (ex - ey - 24) * dyadic (Z.pos my) ey)%Q).
  { assert (Hle : Z.pos mx * 2 ^ 24 <= (Z.pos pq + 1) * Z.pos my)
      by (change (2 ^ 24) with 16777216; nia).
    apply (dyadic_le _ _ (ex - 24)) in Hle.
    rewrite dyadic_shift in Hle by lia.
    replace (ex - 24 + 24) with ex in Hle by lia.
    unfold dyadic in *. rewrite inject_Z_mult in Hle.
    replace (ex - 24) with ((ex - ey - 24) + ey) in Hle by lia.
    rewrite Qpow2_add in Hle. lra. }
  pose proof (dyadic_pos (Z.pos my) ey ltac:(lia)) as Hypos.
  assert (H1 : (dyadic (Z.pos pq + 1) (ex - ey - 24) * (1 - eps) * dyadic (Z.pos my) ey
                <= dyadic (Z.pos m') e' * dyadic (Z.pos my) ey)%Q).
  { apply Qmult_le_compat_r; [exact Hlo | apply Qlt_le_weak, Hypos]. }
  unfold eps in *. nra.
Qed.

(** ** Grid and dye sizing *)

(** [floor] of a positive finite number is an integer not above it. *)
Lemma floor_le_value (m : positive) (e : Z) :
  exists z : Z, floor (S754_finite false m e) = Some z
    /\ 0 <= z /\ (inject_Z z <= dyadic (Z.pos m) e)%Q.
Proof.
  unfold floor. destruct (Z.leb_spec 0 e) as [He|He].
  - exists (Z.pos m * 2 ^ e). split; [reflexivity|].
    pose proof (pow2_pos e He). split; [nia|].
    rewrite <- dyadic_0, dyadic_shift by lia. apply Qle_refl.
  - exists (Z.pos m / 2 ^ (- e)). split; [reflexivity|].
    pose proof (pow2_pos (- e) ltac:(lia)) as Hp.
    split; [apply Z.div_pos; lia|].
    assert (Hle : Z.pos m / 2 ^ (- e) * 2 ^ (- e) <= Z.pos m).
    { pose proof (Z.div_mod (Z.pos m) (2 ^ (- e)) ltac:(lia)).
      pose proof (Z.mod_pos_bound (Z.pos m) (2 ^ (- e)) Hp). lia. }
    apply (dyadic_le _ _ e) in Hle. rewrite dyadic_shift in Hle by lia.
    replace (e + - e) with 0 in Hle by lia. rewrite dyadic_0 in Hle. exact Hle.
Qed.

(** Widening a binary32 number to binary64 keeps its value. *)
Lemma double_of_float_exact (m : positive) (e : Z) :
  Z.pos (digits2_pos m) = 24 -> -1000 <= e <= 900 ->
  exists (m' : positive) (e' : Z),
    double_of_float (S754_finite false m e) = S754_finite false m' e'
    /\ (dyadic (Z.pos m') e' == dyadic (Z.pos m) e)%Q.
Proof.
  intros Hd He. unfold double_of_float, binary_round.
  destruct (shl_align_spec 53 1024 m e ltac:(lia))
    as (mz & ez & Hsh & Hez & Hmz & Hdz & Hde).
  { unfold emin. lia. }
  rewrite Hsh. rewrite Hd in Hdz, Hde.
  destruct (binary_round_aux_normal 53 1024 ltac:(lia) false mz ez loc_Exact)
    as (m' & e' & Hr & _ & _ & _ & Hex); try (unfold emin; lia).
  destruct (Hex eq_refl ltac:(lia)) as [-> ->].
  exists mz, ez. split; [exact Hr|].
  rewrite Hmz, dyadic_shift by lia. replace (ez + (e - ez)) with e by lia.
  reflexivity.
Qed.

(** Storing the floor of a positive normal number below [N + 1] is
    defined and gives at most [N]. *)
Lemma uint32_of_floor_bound (x : spec_float) (m : positive) (e N : Z) :
  normal_float x m e -> -1000 <= e <= 900 ->
  (dyadic (Z.pos m) e < inject_Z N + 1)%Q -> N < 2 ^ 32 ->
  exists z : Z, uint32_of_floor x = Some z /\ 0 <= z <= N.
Proof.
  intros [-> Hd] He Hv HN. unfold uint32_of_floor.
  destruct (double_of_float_exact m e Hd He) as (m' & e' & -> & Hval).
  destruct (floor_le_value m' e') as (z & -> & Hz0 & Hz).
  cbn [mbind option_bind].
  assert (HzN : z <= N).
  { assert (Hlt : (inject_Z z < inject_Z (N + 1))%Q)
      by (rewrite inject_Z_plus; change (inject_Z 1) with 1%Q; lra).
    rewrite <- Zlt_Qlt in Hlt. lia. }
  exists z. split; [|lia].
  destruct (Z.leb_spec 0 z); [|lia]. destruct (Z.ltb_spec z (2 ^ 32)); [|lia].
  reflexivity.
Qed.

(** Scaling a dimension of at most 8192 by a ratio of at most [1 + eps]
    does not enlarge it. *)
Lemma scale_small (z : Z) (r : spec_float) (mr : positive) (er : Z) :
  0 <= z <= 8192 -> normal_float r mr er -> -100 <= er <= 0 ->
  (dyadic (Z.pos mr) er <= 1 + eps)%Q ->
  exists b : Z,
    uint32_of_floor (float_mul (float_of_Z z) r) = Some b /\ 0 <= b <= z.
Proof.
  intros Hz Hr Her Hv.
  destruct (Z.eq_dec z 0) as [->|Hz0].
  - destruct Hr as [-> _]. exists 0. split; [reflexivity | lia].
  - destruct (float_of_Z_bounds z ltac:(lia)) as (mx & ex & Hx & Hex & _ & Hxv).
    destruct (float_mul_bounds _ _ mx mr ex er Hx Hr ltac:(lia))
      as (m & e & Hm & He & Hmv).
    apply (uint32_of_floor_bound _ m e z Hm); [lia| |lia].
    pose proof (dyadic_pos (Z.pos mx) ex ltac:(lia)) as Hxpos.
    pose proof (dyadic_pos (Z.pos mr) er ltac:(lia)) as Hrpos.
    assert (Hzq : (1 <= inject_Z z <= 8192)%Q).
    { split.
      - change 1%Q with (inject_Z 1). rewrite <- Zle_Qle. lia.
      - change 8192%Q with (inject_Z 8192). rewrite <- Zle_Qle. lia. }
    assert (H1 : (dyadic (Z.pos mx) ex * dyadic (Z.pos mr) er
                  <= inject_Z z * (1 + eps) * (1 + eps))%Q).
    { apply Qmult_le_compat_nonneg; split; unfold eps in *; lra. }
    unfold eps in *. nra.
Qed.

(** The ratio [8192 / big] for a dimension beyond 8192. *)
Lemma canvas_ratio (big : Z) :
  8192 < big < 2 ^ 32 ->
  exists (mx mr : positive) (ex er : Z),
    normal_float (float_of_Z big) mx ex /\ -23 <= ex <= 41
    /\ normal_float (float_div (float_of_Z 8192) (float_of_Z big)) mr er
    /\ -75 <= er <= -9
    /\ (dyadic (Z.pos mr) er * dyadic (Z.pos mx) ex <= 8192 * (1 + eps))%Q
    /\ (dyadic (Z.pos mr) er <= 1 + eps)%Q.
Proof.
  intros Hbig.
  destruct (float_of_Z_bounds big ltac:(lia)) as (mx & ex & Hx & Hex & Hxlo & _).
  assert (Hc : normal_float (float_of_Z 8192) 8388608 (-10)) by (split; reflexivity).
  destruct (float_div_bounds _ _ 8388608 mx (-10) ex Hc Hx ltac:(lia))
    as (mr & er & Hr & Her & Hrv).
  exists mx, mr, ex, er. repeat (split; [assumption || lia|]).
  assert (Hcv : (dyadic 8388608 (-10) == 8192)%Q) by reflexivity.
  rewrite Hcv in Hrv. split; [exact Hrv|].
  pose proof (dyadic_pos (Z.pos mr) er ltac:(lia)) as Hrpos.
  assert (Hbq : (8193 <= inject_Z big)%Q).
  { change 8193%Q with (inject_Z 8193). rewrite <- Zle_Qle. lia. }
  unfold eps in *. nra.
Qed.

(** Scaling the dimension that exceeds 8192 brings it down to 8192. *)
Lemma scale_big (x r : spec_float) (mx mr : positive) (ex er : Z) :
  normal_float x mx ex -> -23 <= ex <= 41 ->
  normal_float r mr er -> -75 <= er <= -9 ->
  (dyadic (Z.pos mr) er * dyadic (Z.pos mx) ex <= 8192 * (1 + eps))%Q ->
  exists a : Z, uint32_of_floor (float_mul x r) = Some a /\ 0 <= a <= 8192.
Proof.
  intros Hx Hex Hr Her Hv.
  destruct (float_mul_bounds _ _ mx mr ex er Hx Hr ltac:(lia))
    as (m & e & Hm & He & Hmv).
  apply (uint32_of_floor_bound _ m e 8192 Hm); [lia| |reflexivity].
  change (inject_Z 8192) with 8192%Q. unfold eps in *. nra.
Qed.

Lemma float_one_normal : normal_float float_one 8388608 (-23).
Proof. split; reflexivity. Qed.

(** With the limits 128 MB and 8192, when one requested dimension is at
    most 2048, both results are at most 8192 and one is at most 2048. *)
Lemma get_valid_dimensions_bounds (w h : Z) :
  0 <= w < 2 ^ 32 -> 0 <= h < 2 ^ 32 -> w <= 2048 \/ h <= 2048 ->
  exists ext : WGPUExtent3D,
    get_valid_dimensions w h 134217728 8192 = Some ext
    /\ 0 <= width ext <= 8192 /\ 0 <= height ext <= 8192
    /\ (width ext <= 2048 \/ height ext <= 2048).
Proof.
  intros Hw Hh Hsmall. unfold get_valid_dimensions, down_ratio.
  rewrite !Z.gtb_ltb.
  destruct (Z.ltb_spec 8192 w) as [Hwbig|Hwle].
  - destruct (canvas_ratio w ltac:(lia))
      as (mx & mr & ex & er & Hx & Hex & Hr & Her & Hprod & Hone).
    destruct (scale_big _ _ mx mr ex er Hx Hex Hr Her Hprod) as (a & -> & Ha).
    destruct (scale_small h _ mr er ltac:(lia) Hr ltac:(lia) Hone) as (b & -> & Hb).
    cbn [mbind option_bind]. eexists. split; [reflexivity|]. simpl. lia.
  - destruct (Z.ltb_spec 8192 h) as [Hhbig|Hhle].
    + destruct (canvas_ratio h ltac:(lia))
        as (mx & mr & ex & er & Hx & Hex & Hr & Her & Hprod & Hone).
      destruct (scale_small w _ mr er ltac:(lia) Hr ltac:(lia) Hone) as (a & -> & Ha).
      destruct (scale_big _ _ mx mr ex er Hx Hex Hr Her Hprod) as (b & -> & Hb).
      cbn [mbind option_bind]. eexists. split; [reflexivity|]. simpl. lia.
    + assert (Hsz : (wrap32 (w * h * 4) >=? 134217728) = false).
      { rewrite Z.geb_leb. apply Z.leb_gt. unfold wrap32.
        rewrite Z.mod_small; change (2 ^ 32) with 4294967296 in *; nia. }
      rewrite Hsz.
      assert (H1 : (dyadic 8388608 (-23) <= 1 + eps)%Q) by (unfold eps; vm_compute; discriminate).
      destruct (scale_small w _ _ _ ltac:(lia) float_one_normal ltac:(lia) H1)
        as (a & -> & Ha).
      destruct (scale_small h _ _ _ ltac:(lia) float_one_normal ltac:(lia) H1)
        as (b & -> & Hb).
      cbn [mbind option_bind]. eexists. split; [reflexivity|]. simpl. lia.
Qed.

(** A stored floor is a [uint32_t]. *)
Lemma uint32_of_floor_range (x : spec_float) (z : Z) :
  uint32_of_floor x = Some z -> 0 <= z < 2 ^ 32.
Proof.
  unfold uint32_of_floor. destruct (floor (double_of_float x)) as [v|]; [|discriminate].
  cbn [mbind option_bind].
  destruct (Z.leb_spec 0 v), (Z.ltb_spec v (2 ^ 32)); simpl; try discriminate.
  intros [= <-]. lia.
Qed.

(** One of the candidate dimensions is [size] itself. *)
Lemma preferred_wh_shape (size sw sh w h : Z) :
  0 <= size < 2 ^ 32 -> preferred_wh size sw sh = Some (w, h) ->
  0 <= w < 2 ^ 32 /\ 0 <= h < 2 ^ 32 /\ (w = size \/ h = size).
Proof.
  intros Hs. unfold preferred_wh. destruct (sh <? sw).
  - destruct (uint32_of_floor _) as [z|] eqn:Hz; [|discriminate].
    cbn [mbind option_bind]. intros [= <- <-].
    apply uint32_of_floor_range in Hz. lia.
  - destruct (uint32_of_floor _) as [z|] eqn:Hz; [|discriminate].
    cbn [mbind option_bind]. intros [= <- <-].
    apply uint32_of_floor_range in Hz. lia.
Qed.

(** For a surface of 1 to 1048576 pixels each way the candidate dimensions
    of [get_preferred_dimensions] are defined. *)
Lemma preferred_wh_defined (size sw sh : Z) :
  1 <= size <= 2048 -> 1 <= sw <= 1048576 -> 1 <= sh <= 1048576 ->
  is_Some (preferred_wh size sw sh).
Proof.
  intros Hsize Hsw Hsh. unfold preferred_wh.
  destruct (float_of_Z_bounds size ltac:(lia)) as (ms & es & Hs & Hes0 & Hslo & Hshi).
  destruct (float_of_Z_bounds sw ltac:(lia)) as (mx & ex & Hx & Hex & Hxlo & Hxhi).
  destruct (float_of_Z_bounds sh ltac:(lia)) as (my & ey & Hy & Hey & Hylo & Hyhi).
  assert (Hq : forall z lo hi, lo <= z <= hi ->
                 (inject_Z lo <= inject_Z z <= inject_Z hi)%Q).
  { intros z lo hi Hz. rewrite <- !Zle_Qle. lia. }
  pose proof (Hq size 1 2048 Hsize) as Hsizeq.
  pose proof (Hq sw 1 1048576 Hsw) as Hswq.
  pose proof (Hq sh 1 1048576 Hsh) as Hshq.
  change (inject_Z 1) with 1%Q in *. change (inject_Z 2048) with 2048%Q in *.
  change (inject_Z 1048576) with 1048576%Q in *.
  assert (Hes : es <= 12 - 24)
    by (apply (normal_float_exponent _ ms es 12 Hs);
        change ((2 # 1) ^ 12)%Q with 4096%Q; unfold eps in *; nra).
  assert (Hex' : ex <= 21 - 24)
    by (apply (normal_float_exponent _ mx ex 21 Hx);
        change ((2 # 1) ^ 21)%Q with 2097152%Q; unfold eps in *; nra).
  assert (Hey' : ey <= 21 - 24)
    by (apply (normal_float_exponent _ my ey 21 Hy);
        change ((2 # 1) ^ 21)%Q with 2097152%Q; unfold eps in *; nra).
  destruct (float_div_bounds _ _ mx my ex ey Hx Hy ltac:(lia))
    as (ma & ea & Ha & Hea & Haup).
  destruct (float_div_lower _ _ mx my ex ey Hx Hy ltac:(lia))
    as (ma' & ea' & Ha' & Halo).
  destruct Ha as [Haeq Had]. rewrite Haeq in Ha'. injection Ha' as <- <-.
  pose proof (dyadic_pos (Z.pos ms) es ltac:(lia)) as Hspos.
  pose proof (dyadic_pos (Z.pos mx) ex ltac:(lia)) as Hxpos.
  pose proof (dyadic_pos (Z.pos my) ey ltac:(lia)) as Hypos.
  pose proof (dyadic_pos (Z.pos ma) ea ltac:(lia)) as Hapos.
  set (S := dyadic (Z.pos ms) es) in *. set (X := dyadic (Z.pos mx) ex) in *.
  set (Y := dyadic (Z.pos my) ey) in *. set (A := dyadic (Z.pos ma) ea) in *.
  assert (HAup : (A <= 1048577)%Q) by (unfold eps in *; nra).
  assert (HAlo : (1 <= 1048577 * A)%Q) by (unfold eps in *; nra).
  rewrite Haeq.
  destruct (sh <? sw).
  - destruct (float_mul_bounds _ _ ms ma es ea Hs (conj eq_refl Had) ltac:(lia))
      as (m & e & Hm & He & Hmv).
    destruct (uint32_of_floor_bound _ m e (2 ^ 32 - 1) Hm ltac:(lia)) as (z & -> & _).
    + fold S A in Hmv. change (inject_Z (2 ^ 32 - 1)) with 4294967295%Q.
      assert (HSA : (S * A <= 2049 * 1048577)%Q)
        by (apply Qmult_le_compat_nonneg; split; unfold eps in *; lra).
      unfold eps in *. nra.
    + reflexivity.
    + cbn [mbind option_bind]. eexists. reflexivity.
  - destruct (float_div_bounds _ _ ms ma es ea Hs (conj eq_refl Had) ltac:(lia))
      as (m & e & Hm & He & Hmv).
    destruct (uint32_of_floor_bound _ m e (2 ^ 32 - 1) Hm ltac:(lia)) as (z & -> & _).
    + fold S A in Hmv. change (inject_Z (2 ^ 32 - 1)) with 4294967295%Q.
      pose proof (dyadic_pos (Z.pos m) e ltac:(lia)) as Hmpos.
      set (R := dyadic (Z.pos m) e) in *.
      assert (H1 : (R <= 1048577 * (R * A))%Q) by nra.
      unfold eps in *. nra.
    + reflexivity.
    + cbn [mbind option_bind]. eexists. reflexivity.
Qed.

(** [get_preferred_dimensions] for a size of at most 2048, when its
    candidate dimensions are defined. *)
Lemma get_preferred_dimensions_bounds (size sw sh : Z) :
  0 <= size <= 2048 -> is_Some (preferred_wh size sw sh) ->
  exists ext : WGPUExtent3D,
    get_preferred_dimensions size sw sh 134217728 8192 = Some ext
    /\ within_limits (width ext) (height ext).
Proof.
  intros Hs [[w h] Hp]. unfold get_preferred_dimensions. rewrite Hp.
  cbn [mbind option_bind].
  destruct (preferred_wh_shape size sw sh w h ltac:(change (2 ^ 32) with 4294967296; lia) Hp)
    as (Hw & Hh & Hor).
  destruct (get_valid_dimensions_bounds w h Hw Hh ltac:(lia))
    as (ext & -> & Hew & Heh & Hsmall).
  exists ext. split; [reflexivity|]. unfold within_limits. nia.
Qed.

(** X18. The bounds of the end-to-end scenario for every surface of 1 to
    1048576 pixels each way: [init_sizes] is defined there, and the grid
    and dye dimensions it stores are within the limits 128 MB and 8192. *)
Lemma init_sizes_within_limits_bounded_surface (surface_width surface_height : Z) :
  1 <= surface_width <= 1048576 -> 1 <= surface_height <= 1048576 ->
  init_sizes_within_limits surface_width surface_height.
Proof.
  intros Hw Hh. unfold init_sizes_within_limits, init_sizes. simpl.
  destruct (get_preferred_dimensions_bounds 512 surface_width surface_height)
    as (g & -> & Hgl); [lia | apply preferred_wh_defined; lia |].
  destruct (get_preferred_dimensions_bounds 2048 surface_width surface_height)
    as (d & -> & Hdl); [lia | apply preferred_wh_defined; lia |].
  cbn [mbind option_bind]. eexists. split; [reflexivity|]. simpl. auto.
Qed.

(** The value left by a conversion is a [uint32_t]. *)
Lemma uint32_of_floor_with_range (oor : spec_float -> Z) (x : spec_float) :
  0 <= uint32_of_floor_with oor x < 2 ^ 32.
Proof.
  unfold uint32_of_floor_with.
  destruct (uint32_of_floor x) as [z|] eqn:Hz.
  - exact (uint32_of_floor_range x z Hz).
  - unfold wrap32. apply Z.mod_pos_bound. reflexivity.
Qed.

(** Where the conversions are defined, the total functions return what
    the partial ones return. *)
Lemma uint32_of_floor_with_defined (oor : spec_float -> Z) (x : spec_float)
    (z : Z) :
  uint32_of_floor x = Some z -> uint32_of_floor_with oor x = z.
Proof. unfold uint32_of_floor_with. intros ->. reflexivity. Qed.

Lemma get_valid_dimensions_with_defined (oor : spec_float -> Z)
    (w h max_buffer_size max_canvas_size : Z) (ext : WGPUExtent3D) :
  get_valid_dimensions w h max_buffer_size max_canvas_size = Some ext ->
  get_valid_dimensions_with oor w h max_buffer_size max_canvas_size = ext.
Proof.
  unfold get_valid_dimensions, get_valid_dimensions_with.
  destruct (uint32_of_floor (float_mul (float_of_Z w) _)) as [a|] eqn:Ha;
    [|discriminate].
  destruct (uint32_of_floor (float_mul (float_of_Z h) _)) as [b|] eqn:Hb;
    [|discriminate].
  cbn [mbind option_bind]. intros [= <-].
  rewrite (uint32_of_floor_with_defined oor _ a Ha).
  rewrite (uint32_of_floor_with_defined oor _ b Hb). reflexivity.
Qed.

Lemma preferred_wh_with_defined (oor : spec_float -> Z) (size sw sh w h : Z) :
  preferred_wh size sw sh = Some (w, h) ->
  preferred_wh_with oor size sw sh = (w, h).
Proof.
  unfold preferred_wh, preferred_wh_with. destruct (sh <? sw).
  - destruct (uint32_of_floor _) as [z|] eqn:Hz; [|discriminate].
    cbn [mbind option_bind]. intros [= <- <-].
    rewrite (uint32_of_floor_with_defined oor _ z Hz). reflexivity.
  - destruct (uint32_of_floor _) as [z|] eqn:Hz; [|discriminate].
    cbn [mbind option_bind]. intros [= <- <-].
    rewrite (uint32_of_floor_with_defined oor _ z Hz). reflexivity.
Qed.

Lemma init_sizes_with_defined (oor : spec_float -> Z) (s : settings_t)
    (sw sh : Z) (device_limits : option WGPULimits) (s' : settings_t) :
  init_sizes s sw sh device_limits = Some s' ->
  init_sizes_with oor s sw sh device_limits = s'.
Proof.
  unfold init_sizes, init_sizes_with, get_preferred_dimensions,
    get_preferred_dimensions_with.
  destruct (match device_limits with
            | Some l => (maxStorageBufferBindingSize l, maxTextureDimension2D l)
            | None => (0, 0)
            end) as [mb mc].
  destruct (preferred_wh (grid_size s) sw sh) as [[gw gh]|] eqn:Hg; [|discriminate].
  destruct (preferred_wh (dye_size s) sw sh) as [[dw dh]|] eqn:Hd;
    [|cbn [mbind option_bind]; destruct (get_valid_dimensions gw gh mb mc); discriminate].
  cbn [mbind option_bind].
  destruct (get_valid_dimensions gw gh mb mc) as [g|] eqn:Hg'; [|discriminate].
  destruct (get_valid_dimensions dw dh mb mc) as [d|] eqn:Hd'; [|discriminate].
  cbn [mbind option_bind]. intros [= <-].
  rewrite (preferred_wh_with_defined oor _ _ _ _ _ Hg).
  rewrite (preferred_wh_with_defined oor _ _ _ _ _ Hd).
  rewrite (get_valid_dimensions_with_defined oor _ _ _ _ _ Hg').
  rewrite (get_valid_dimensions_with_defined oor _ _ _ _ _ Hd').
  reflexivity.
Qed.

(** The candidate dimensions are [uint32_t] values and one of them is
    [size]. *)
Lemma preferred_wh_with_shape (oor : spec_float -> Z) (size sw sh : Z) :
  0 <= size < 2 ^ 32 ->
  let '(w, h) := preferred_wh_with oor size sw sh in
  0 <= w < 2 ^ 32 /\ 0 <= h < 2 ^ 32 /\ (w = size \/ h = size).
Proof.
  intros Hs. unfold preferred_wh_with.
  destruct (sh <? sw);
    (split; [|split]); auto using uint32_of_floor_with_range.
Qed.

(** With the limits 128 MB and 8192 and a size of at most 2048, the
    dimensions are within the limits whatever the conversions leave. *)
Lemma get_preferred_dimensions_with_bounds (oor : spec_float -> Z)
    (size sw sh : Z) :
  0 <= size <= 2048 ->
  let ext := get_preferred_dimensions_with oor size sw sh 134217728 8192 in
  0 <= width ext /\ 0 <= height ext
  /\ within_limits (width ext) (height ext).
Proof.
  intros Hs. unfold get_preferred_dimensions_with.
  pose proof (preferred_wh_with_shape oor size sw sh
                ltac:(change (2 ^ 32) with 4294967296; lia)) as Hshape.
  destruct (preferred_wh_with oor size sw sh) as [w h].
  destruct Hshape as (Hw & Hh & Hor).
  destruct (get_valid_dimensions_bounds w h Hw Hh ltac:(lia))
    as (ext & Hext & Hew & Heh & Hsmall).
  rewrite (get_valid_dimensions_with_defined oor _ _ _ _ _ Hext).
  unfold within_limits. repeat split; try lia; nia.
Qed.

(** C10. With [grid_size = 512], [dye_size = 2048] and the limits 128 MB
    and 8192, [init_sizes] produces, for every surface width and height,
    grid and dye dimensions with [w * h * 4] at most 128 MB and [w], [h]
    at most 8192. This includes the surfaces for which a candidate
    dimension does not fit a [uint32_t], a surface of height 0 among them:
    whatever value the conversion leaves there, [get_valid_dimensions]
    brings the pair within the limits. *)
Theorem init_sizes_within_limits_every_surface (oor : spec_float -> Z)
    (surface_width surface_height : Z) :
  let s' :=
    init_sizes_with oor settings surface_width surface_height
      (Some scenario_limits) in
  (0 <= grid_w s' /\ 0 <= grid_h s' /\ within_limits (grid_w s') (grid_h s'))
  /\ (0 <= dye_w s' /\ 0 <= dye_h s' /\ within_limits (dye_w s') (dye_h s')).
Proof.
  unfold init_sizes_with. simpl.
  split.
  - apply (get_preferred_dimensions_with_bounds oor 512); lia.
  - apply (get_preferred_dimensions_with_bounds oor 2048); lia.
Qed.

(** For a 1920 x 0 surface, on a machine whose conversion leaves 0 for an
    infinite argument, the grid is 0 x 512 and the dye field 0 x 2048. *)
Example init_sizes_with_zero_height :
  let s' := init_sizes_with (fun _ => 0) settings 1920 0 (Some scenario_limits) in
  (grid_w s', grid_h s', dye_w s', dye_h s') = (0, 512, 0, 2048).
Proof. vm_compute. reflexivity. Qed.

(** Where a candidate dimension does not fit a [uint32_t] the partial
    [init_sizes] yields nothing, as for a surface 4194304 pixels wide and
    1 pixel high: [2048 * 4194304] is too large. *)
Example init_sizes_extreme_aspect_undefined :
  init_sizes settings 4194304 1 (Some scenario_limits) = None.
Proof. vm_compute. reflexivity. Qed.

(** C4, the code at a failing input. Both requested dimensions exceed the
    canvas limit 8192 and the height is the larger one. The ratio is taken
    from the width alone, [8192 / 9000] and not [8192 / 18000], and the
    returned height 16384 exceeds the limit. *)
Example get_valid_dimensions_tall_exceeds_canvas :
  down_ratio 9000 18000 134217728 8192
  = float_div (float_of_Z 8192) (float_of_Z 9000)
  /\ get_valid_dimensions 9000 18000 134217728 8192
     = Some {| width := 8192; height := 16384; depthOrArrayLayers := 0 |}
  /\ 8192 < 16384.
Proof. split; [|split]; vm_compute; reflexivity. Qed.

(** C5, the code at a failing input. The requested 9000 x 8000 grid needs
    more than the 128 MB budget and its width exceeds the canvas limit:
    the canvas ratio replaces the square-root ratio, and the returned
    8192 x 7281 grid still needs more than 128 MB. *)
Example get_valid_dimensions_wide_exceeds_buffer :
  134217728 < 9000 * 8000 * 4
  /\ down_ratio 9000 8000 134217728 8192
     = float_div (float_of_Z 8192) (float_of_Z 9000)
  /\ get_valid_dimensions 9000 8000 134217728 8192
     = Some {| width := 8192; height := 7281; depthOrArrayLayers := 0 |}
  /\ 134217728 < 8192 * 7281 * 4.
Proof. split; [|split; [|split]]; vm_compute; reflexivity. Qed.

(** The 32-bit product [w * h * 4] wraps to 0 for a 32768 x 32768 grid, so
    no downscaling happens although the grid needs 4 GB. *)
Example get_valid_dimensions_wrapped_product :
  wrap32 (32768 * 32768 * 4) = 0
  /\ get_valid_dimensions 32768 32768 134217728 1048576
     = Some {| width := 32768; height := 32768; depthOrArrayLayers := 0 |}.
Proof. split; vm_compute; reflexivity. Qed.

(** Rounding alone can leave the result over the budget: the float of
    [6 * 22369622 * 4] is [2 ^ 29], the ratio is exactly one half, and the
    halved grid needs 4 bytes more than 128 MB. *)
Example get_valid_dimensions_rounded_ratio :
  get_valid_dimensions 6 22369622 134217728 4294967296
  = Some {| width := 3; height := 11184811; depthOrArrayLayers := 0 |}
  /\ 3 * 11184811 * 4 = 134217728 + 4.
Proof. split; vm_compute; reflexivity. Qed.

(** ** Dynamic buffers: allocation, release and what stays untouched *)

(** The allocation loop, in full: it allocates [n] buffers with distinct
    handles that were not in use, stores them in the channels from [dim]
    on, and leaves every other buffer, channel and the queue as they were. *)
Lemma dynamic_buffer_init_loop_spec (n dim : nat) (ctx : wgpu_context_t)
    (this : dynamic_buffer_t) (ctx' : wgpu_context_t) (this' : dynamic_buffer_t) :
  (dim + n <= length (db_buffers this))%nat ->
  dynamic_buffer_init_loop n (Z.of_nat dim) ctx this = Ok (ctx', this') ->
  exists hs : list positive,
    length hs = n /\ NoDup hs
    /\ Forall (fun h => device_buffers ctx !! h = None) hs
    /\ (forall k, k ∉ hs -> device_buffers ctx' !! k = device_buffers ctx !! k)
    /\ Forall (fun h => device_buffers ctx' !! h
                        = Some (fresh_storage (db_buffer_size this))) hs
    /\ queue_writes ctx' = queue_writes ctx
    /\ db_buffers this'
       = take dim (db_buffers this)
         ++ (channel_buffer (db_buffer_size this) <$> hs)
         ++ drop (dim + n) (db_buffers this)
    /\ db_dims this' = db_dims this /\ db_buffer_size this' = db_buffer_size this
    /\ db_w this' = db_w this /\ db_h this' = db_h this.
Proof.
  revert dim ctx this. induction n as [|n IH]; intros dim ctx this Hlen Hrun.
  - simpl in Hrun. injection Hrun as <- <-. exists [].
    repeat split; auto using NoDup_nil_2.
    simpl. rewrite Nat.add_0_r, take_drop. reflexivity.
  - cbn [dynamic_buffer_init_loop] in Hrun.
    unfold wgpuDeviceCreateBuffer in Hrun.
    set (h := fresh (dom (device_buffers ctx))) in *.
    assert (Hh : device_buffers ctx !! h = None) by apply fresh_handle_unused.
    clearbody h.
    rewrite array_set_ok in Hrun by lia. cbn [mbind result_bind] in Hrun.
    replace (Z.of_nat dim + 1) with (Z.of_nat (S dim)) in Hrun by lia.
    rewrite Nat2Z.id in Hrun.
    apply IH in Hrun; [|simpl; rewrite length_insert; lia].
    destruct Hrun as (hs & Hl & Hnd & Hnone & Hframe & Hnew & Hq & Hbs & H1 & H2 & H3 & H4).
    simpl in *.
    assert (Hnotin : h ∉ hs).
    { intros Hin. rewrite Forall_forall in Hnone. specialize (Hnone h Hin).
      rewrite lookup_insert_eq in Hnone. discriminate. }
    exists (h :: hs). split; [simpl; lia|]. split; [apply NoDup_cons; auto|].
    split.
    { apply Forall_cons. split; [exact Hh|].
      rewrite Forall_forall in Hnone |- *. intros k Hk. specialize (Hnone k Hk).
      rewrite lookup_insert_ne in Hnone; [exact Hnone|]. intros ->. contradiction. }
    split.
    { intros k Hk. apply not_elem_of_cons in Hk as [Hkh Hk].
      rewrite Hframe by exact Hk. apply lookup_insert_ne. auto. }
    split.
    { apply Forall_cons. split; [|exact Hnew].
      rewrite Hframe by exact Hnotin. apply lookup_insert_eq. }
    split; [exact Hq|]. split; [|auto].
    rewrite Hbs.
    assert (Hx : <[dim:=channel_buffer (db_buffer_size this) h]> (db_buffers this) !! dim
                 = Some (channel_buffer (db_buffer_size this) h))
      by (apply list_lookup_insert_eq; lia).
    unfold channel_buffer in *.
    rewrite (take_S_r _ _ _ Hx).
    rewrite (take_insert_ge _ dim dim) by (apply Nat.le_refl).
    rewrite (drop_insert_lt _ (S (dim + n)) dim) by (apply Nat.lt_succ_r, Nat.le_add_r).
    replace (dim + S n)%nat with (S (dim + n)) by lia.
    rewrite <- app_assoc. reflexivity.
Qed.

(** X1. [dynamic_buffer_init] with up to [MAX_DIMENSIONS] channels: the fields,
    the channels and the device afterwards. *)
Theorem dynamic_buffer_init_spec (assertions : bool) (ctx : wgpu_context_t)
    (dims w h : Z) :
  0 <= dims <= MAX_DIMENSIONS ->
  exists (ctx' : wgpu_context_t) (this : dynamic_buffer_t) (hs : list positive),
    dynamic_buffer_init assertions ctx dims w h = Ok (ctx', this)
    /\ db_dims this = dims /\ db_w this = w /\ db_h this = h
    /\ db_buffer_size this = wrap32 (w * h * 4)
    /\ Z.of_nat (length hs) = dims /\ NoDup hs
    /\ Forall (fun k => device_buffers ctx !! k = None) hs
    /\ Forall (fun k => device_buffers ctx' !! k
                        = Some (fresh_storage (wrap32 (w * h * 4)))) hs
    /\ (forall k, k ∉ hs -> device_buffers ctx' !! k = device_buffers ctx !! k)
    /\ queue_writes ctx' = queue_writes ctx
    /\ db_buffers this
       = (channel_buffer (wrap32 (w * h * 4)) <$> hs)
         ++ replicate (Z.to_nat (MAX_DIMENSIONS - dims)) wgpu_buffer_zero.
Proof.
  intros Hd.
  destruct (dynamic_buffer_init_ok assertions ctx dims w h Hd) as (ctx' & this & Hrun).
  exists ctx', this. pose proof Hrun as Hrun'. unfold dynamic_buffer_init in Hrun'.
  destruct (Z.leb_spec dims MAX_DIMENSIONS); [|lia].
  rewrite andb_false_r in Hrun'.
  apply (dynamic_buffer_init_loop_spec _ 0) in Hrun';
    [|simpl; unfold MAX_DIMENSIONS in *; lia].
  destruct Hrun' as (hs & Hl & Hnd & Hnone & Hframe & Hnew & Hq & Hbs & H1 & H2 & H3 & H4).
  simpl in *. exists hs. repeat (split; [assumption || lia|]).
  rewrite Hbs. f_equal. unfold MAX_DIMENSIONS in *.
  assert (dims = 0 \/ dims = 1 \/ dims = 2 \/ dims = 3) as [->|[->|[->| ->]]] by lia;
    reflexivity.
Qed.

Lemma dynamic_buffer_init_spec_witness :
  exists (ctx' : wgpu_context_t) (this : dynamic_buffer_t) (hs : list positive),
    dynamic_buffer_init true empty_context 2 4 4 = Ok (ctx', this)
    /\ db_dims this = 2 /\ db_w this = 4 /\ db_h this = 4
    /\ db_buffer_size this = wrap32 (4 * 4 * 4)
    /\ Z.of_nat (length hs) = 2 /\ NoDup hs
    /\ Forall (fun k => device_buffers empty_context !! k = None) hs
    /\ Forall (fun k => device_buffers ctx' !! k
                        = Some (fresh_storage (wrap32 (4 * 4 * 4)))) hs
    /\ (forall k, k ∉ hs -> device_buffers ctx' !! k = device_buffers empty_context !! k)
    /\ queue_writes ctx' = queue_writes empty_context
    /\ db_buffers this
       = (channel_buffer (wrap32 (4 * 4 * 4)) <$> hs)
         ++ replicate (Z.to_nat (MAX_DIMENSIONS - 2)) wgpu_buffer_zero.
Proof.
  apply (dynamic_buffer_init_spec true empty_context 2 4 4). vm_compute.
  split; discriminate.
Defined.

(** The loop faults at the first index that is outside the array. *)
Lemma dynamic_buffer_init_loop_overrun (n dim : nat) (ctx : wgpu_context_t)
    (this : dynamic_buffer_t) :
  (dim <= length (db_buffers this) < dim + n)%nat ->
  dynamic_buffer_init_loop n (Z.of_nat dim) ctx this
  = Fault (OutOfBounds (Z.of_nat (length (db_buffers this)))).
Proof.
  revert dim ctx this. induction n as [|n IH]; intros dim ctx this Hlen; [lia|].
  cbn [dynamic_buffer_init_loop]. unfold wgpuDeviceCreateBuffer.
  destruct (decide (dim = length (db_buffers this))) as [Heq|Hne].
  - unfold array_set.
    destruct (Z.ltb_spec (Z.of_nat dim) (Z.of_nat (length (db_buffers this)))); [lia|].
    rewrite andb_false_r. cbn [mbind result_bind]. rewrite Heq. reflexivity.
  - rewrite array_set_ok by lia. cbn [mbind result_bind].
    replace (Z.of_nat dim + 1) with (Z.of_nat (S dim)) by lia.
    rewrite IH; simpl; rewrite length_insert; [reflexivity | lia].
Qed.

(** X2. Every channel count beyond [MAX_DIMENSIONS] is refused: by the assertion
    when assertions are compiled in, by the write to [buffers[3]] when not. *)
Theorem dynamic_buffer_init_over_max_dimensions (ctx : wgpu_context_t)
    (dims w h : Z) :
  MAX_DIMENSIONS < dims ->
  dynamic_buffer_init true ctx dims w h = Fault AssertionFailed
  /\ dynamic_buffer_init false ctx dims w h = Fault (OutOfBounds MAX_DIMENSIONS).
Proof.
  intros Hd. unfold dynamic_buffer_init.
  destruct (Z.leb_spec dims MAX_DIMENSIONS); [lia|]. split; [reflexivity|].
  cbn [andb]. rewrite (dynamic_buffer_init_loop_overrun _ 0); [reflexivity|].
  simpl. unfold MAX_DIMENSIONS in *. lia.
Qed.

Lemma dynamic_buffer_init_over_max_dimensions_witness :
  dynamic_buffer_init true empty_context 7 1 1 = Fault AssertionFailed
  /\ dynamic_buffer_init false empty_context 7 1 1 = Fault (OutOfBounds MAX_DIMENSIONS).
Proof.
  apply (dynamic_buffer_init_over_max_dimensions empty_context 7 1 1). reflexivity.
Defined.

(** Releasing the channels [hs], stored from index [i] on, removes exactly
    these buffers. *)
Lemma dynamic_buffer_destroy_loop_spec (size : Z) (hs : list positive)
    (pre post : list wgpu_buffer_t) (ctx : wgpu_context_t)
    (this : dynamic_buffer_t) :
  db_buffers this = pre ++ (channel_buffer size <$> hs) ++ post ->
  NoDup hs ->
  Forall (fun h => is_Some (device_buffers ctx !! h)) hs ->
  exists ctx',
    dynamic_buffer_destroy_loop (length hs) (Z.of_nat (length pre)) ctx this
    = Some ctx'
    /\ queue_writes ctx' = queue_writes ctx
    /\ Forall (fun h => device_buffers ctx' !! h = None) hs
    /\ forall k, k ∉ hs -> device_buffers ctx' !! k = device_buffers ctx !! k.
Proof.
  revert pre ctx. induction hs as [|h hs IH]; intros pre ctx Hbs Hnd Hlive.
  - exists ctx. simpl. auto.
  - apply NoDup_cons in Hnd as [Hnotin Hnd].
    apply Forall_cons in Hlive as [[gb Hgb] Hlive].
    cbn [length dynamic_buffer_destroy_loop].
    assert (Hi : db_buffers this !! length pre = Some (channel_buffer size h)).
    { rewrite Hbs. simpl. apply list_lookup_middle. reflexivity. }
    assert (Hget : array_get (db_buffers this) (Z.of_nat (length pre))
                   = Ok (channel_buffer size h))
      by (apply array_get_ok; [lia | rewrite Nat2Z.id; exact Hi]).
    rewrite Hget.
    unfold wgpu_destroy_buffer. simpl. rewrite Hgb. cbn [mbind option_bind].
    replace (Z.of_nat (length pre) + 1)
      with (Z.of_nat (length (pre ++ [channel_buffer size h])))
      by (rewrite length_app; simpl; lia).
    destruct (IH (pre ++ [channel_buffer size h])
                {| device_buffers := delete h (device_buffers ctx);
                   queue_writes := queue_writes ctx |})
      as (ctx' & Hrun & Hq & Hgone & Hframe).
    + rewrite Hbs, <- app_assoc. reflexivity.
    + exact Hnd.
    + rewrite Forall_forall in Hlive |- *. intros k Hk. simpl.
      rewrite lookup_delete_ne; [auto|]. intros ->. contradiction.
    + exists ctx'. split; [exact Hrun|]. split; [exact Hq|]. split.
      * apply Forall_cons. split; [|exact Hgone].
        rewrite Hframe by exact Hnotin. simpl. apply lookup_delete_eq.
      * intros k Hk. apply not_elem_of_cons in Hk as [Hkh Hk].
        rewrite Hframe by exact Hk. simpl. apply lookup_delete_ne. auto.
Qed.

(** X3. Round trip: destroying a dynamic buffer right after its initialisation
    gives back the device store that was there before. *)
Theorem dynamic_buffer_init_destroy (assertions : bool) (ctx : wgpu_context_t)
    (dims w h : Z) (ctx1 : wgpu_context_t) (this : dynamic_buffer_t) :
  0 <= dims <= MAX_DIMENSIONS ->
  dynamic_buffer_init assertions ctx dims w h = Ok (ctx1, this) ->
  exists ctx2,
    dynamic_buffer_destroy ctx1 this = Some ctx2
    /\ device_buffers ctx2 = device_buffers ctx
    /\ queue_writes ctx2 = queue_writes ctx.
Proof.
  intros Hd Hrun. unfold dynamic_buffer_init in Hrun.
  destruct (Z.leb_spec dims MAX_DIMENSIONS); [|lia].
  rewrite andb_false_r in Hrun.
  apply (dynamic_buffer_init_loop_spec _ 0) in Hrun;
    [|simpl; unfold MAX_DIMENSIONS in *; lia].
  destruct Hrun as (hs & Hl & Hnd & Hnone & Hframe & Hnew & Hq & Hbs & H1 & H2 & _).
  simpl in *.
  destruct (dynamic_buffer_destroy_loop_spec _ hs [] _ ctx1 this Hbs Hnd)
    as (ctx2 & Hrun2 & Hq2 & Hgone & Hframe2).
  { rewrite Forall_forall in Hnew |- *. intros k Hk. rewrite (Hnew k Hk). eauto. }
  exists ctx2. unfold dynamic_buffer_destroy. rewrite H1.
  replace (Z.to_nat dims) with (length hs) by lia.
  split; [exact Hrun2|]. split; [|congruence].
  apply map_eq. intros k. destruct (decide (k ∈ hs)) as [Hin|Hout].
  - rewrite Forall_forall in Hgone, Hnone. rewrite (Hgone k Hin), (Hnone k Hin).
    reflexivity.
  - rewrite Hframe2, Hframe by exact Hout. reflexivity.
Qed.

Lemma dynamic_buffer_init_destroy_witness :
  exists ctx2,
    dynamic_buffer_destroy clear_ctx copy_src = Some ctx2
    /\ device_buffers ctx2 = device_buffers empty_context
    /\ queue_writes ctx2 = queue_writes empty_context.
Proof.
  apply (dynamic_buffer_init_destroy true empty_context 1 2 2 clear_ctx copy_src).
  - vm_compute. split; discriminate.
  - vm_compute. reflexivity.
Defined.

(** One queue write changes at most the contents of its target: every
    other buffer is untouched, and no buffer changes size or usage. *)
Lemma wgpu_queue_write_buffer_frame (ctx : wgpu_context_t) (b : WGPUBuffer)
    (o : Z) (d : option (list byte)) (s : Z) (k : positive) :
  (b <> Some k ->
   device_buffers (wgpu_queue_write_buffer ctx b o d s) !! k
   = device_buffers ctx !! k)
  /\ gb_size <$> device_buffers (wgpu_queue_write_buffer ctx b o d s) !! k
     = gb_size <$> device_buffers ctx !! k
  /\ gb_usage <$> device_buffers (wgpu_queue_write_buffer ctx b o d s) !! k
     = gb_usage <$> device_buffers ctx !! k.
Proof.
  unfold wgpu_queue_write_buffer.
  destruct b as [h|], d as [d|]; simpl; auto.
  destruct (device_buffers ctx !! h) as [gb|] eqn:Hh; simpl; auto.
  destruct (_ && _); simpl; auto.
  destruct (decide (h = k)) as [->|Hne].
  - rewrite lookup_insert_eq, Hh. simpl. split; [congruence | auto].
  - rewrite lookup_insert_ne by exact Hne. auto.
Qed.

Lemma dynamic_buffer_clear_loop_frame (n : nat) (i : Z) (ctx : wgpu_context_t)
    (this : dynamic_buffer_t) (data : list byte) (ctx' : wgpu_context_t)
    (k : positive) :
  dynamic_buffer_clear_loop n i ctx this data = Ok ctx' ->
  ((forall b, b ∈ db_buffers this -> wb_buffer b <> Some k) ->
   device_buffers ctx' !! k = device_buffers ctx !! k)
  /\ gb_size <$> device_buffers ctx' !! k = gb_size <$> device_buffers ctx !! k
  /\ gb_usage <$> device_buffers ctx' !! k = gb_usage <$> device_buffers ctx !! k.
Proof.
  revert i ctx. induction n as [|n IH]; intros i ctx Hrun.
  - simpl in Hrun. injection Hrun as <-. auto.
  - cbn [dynamic_buffer_clear_loop] in Hrun.
    unfold array_get in Hrun.
    destruct ((0 <=? i) && (i <? Z.of_nat (length (db_buffers this))));
      [|discriminate].
    destruct (db_buffers this !! Z.to_nat i) as [b|] eqn:Hb; [|discriminate].
    cbn [mbind result_bind] in Hrun. apply IH in Hrun.
    destruct Hrun as (H1 & H2 & H3).
    destruct (wgpu_queue_write_buffer_frame ctx (wb_buffer b) 0 (Some data)
                (db_buffer_size this) k) as (F1 & F2 & F3).
    split; [|split; congruence].
    intros Hother. rewrite H1 by exact Hother. apply F1, Hother.
    eapply list_elem_of_lookup_2, Hb.
Qed.

(** X4. [clear] changes nothing but the contents of the buffers of the field:
    a buffer that is none of its array entries is untouched, no buffer
    changes size or usage, and none is created or released. *)
Theorem dynamic_buffer_clear_frame (ctx : wgpu_context_t)
    (this : dynamic_buffer_t) (ctx' : wgpu_context_t) (k : positive) :
  dynamic_buffer_clear ctx this = Ok ctx' ->
  ((forall b, b ∈ db_buffers this -> wb_buffer b <> Some k) ->
   device_buffers ctx' !! k = device_buffers ctx !! k)
  /\ gb_size <$> device_buffers ctx' !! k = gb_size <$> device_buffers ctx !! k
  /\ gb_usage <$> device_buffers ctx' !! k = gb_usage <$> device_buffers ctx !! k.
Proof. apply dynamic_buffer_clear_loop_frame. Qed.

Lemma dynamic_buffer_clear_frame_witness :
  exists ctx',
    dynamic_buffer_clear clear_ctx copy_src = Ok ctx'
    /\ ((forall b, b ∈ db_buffers copy_src -> wb_buffer b <> Some 2%positive) ->
        device_buffers ctx' !! 2%positive = device_buffers clear_ctx !! 2%positive)
    /\ gb_size <$> device_buffers ctx' !! 2%positive
       = gb_size <$> device_buffers clear_ctx !! 2%positive
    /\ gb_usage <$> device_buffers ctx' !! 2%positive
       = gb_usage <$> device_buffers clear_ctx !! 2%positive.
Proof.
  destruct (dynamic_buffer_clear clear_ctx copy_src) as [ctx'|f] eqn:E.
  - exists ctx'. split; [reflexivity|].
    exact (dynamic_buffer_clear_frame clear_ctx copy_src ctx' 2%positive E).
  - vm_compute in E. discriminate E.
Defined.

(** Writing zeroes over a buffer that is zero already changes no buffer. *)
Lemma write_zero_zeroed (size : Z) (ctx : wgpu_context_t) (b : WGPUBuffer) :
  0 <= size -> zeroed_buffer ctx size b ->
  device_buffers (write_zero size ctx b) = device_buffers ctx.
Proof.
  intros Hs (h & gb & -> & Hh & Hsz & Hd & _).
  unfold write_zero, wgpu_queue_write_buffer. rewrite Hh.
  destruct (_ && _); [|reflexivity]. simpl.
  apply insert_id. rewrite Hh. f_equal. destruct gb as [u s d]. simpl in *.
  subst s d. f_equal. symmetry.
  apply blit_whole; rewrite ?length_zero_bytes; auto.
Qed.

Lemma dynamic_buffer_clear_loop_zeroed (this : dynamic_buffer_t) (n i : nat)
    (ctx : wgpu_context_t) :
  0 <= db_buffer_size this ->
  (i + n <= length (db_buffers this))%nat ->
  (forall j b, (i <= j < i + n)%nat -> db_buffers this !! j = Some b ->
     zeroed_buffer ctx (db_buffer_size this) (wb_buffer b)) ->
  exists ctx',
    dynamic_buffer_clear_loop n (Z.of_nat i) ctx this
      (zero_bytes (db_buffer_size this)) = Ok ctx'
    /\ device_buffers ctx' = device_buffers ctx.
Proof.
  intros Hsz. revert i ctx. induction n as [|n IH]; intros i ctx Hlen Hz.
  - exists ctx. auto.
  - destruct (lookup_lt_is_Some_2 (db_buffers this) i) as [bi Hbi]; [lia|].
    cbn [dynamic_buffer_clear_loop].
    rewrite (array_get_ok _ _ bi) by (rewrite ?Nat2Z.id; auto; lia).
    cbn [mbind result_bind].
    replace (Z.of_nat i + 1) with (Z.of_nat (S i)) by lia.
    pose proof (write_zero_zeroed _ ctx (wb_buffer bi) Hsz (Hz i bi ltac:(lia) Hbi))
      as Hsame.
    unfold write_zero in Hsame.
    destruct (IH (S i)
      (wgpu_queue_write_buffer ctx (wb_buffer bi) 0
         (Some (zero_bytes (db_buffer_size this))) (db_buffer_size this)))
      as (ctx' & Hrun & Heq).
    + lia.
    + intros j b Hj Hb.
      apply (write_zero_keeps_zeroed _ Hsz). apply (Hz j); [lia | exact Hb].
    + exists ctx'. split; [exact Hrun | congruence].
Qed.

(** X5. [clear] is idempotent on the device: a second [clear] succeeds and
    leaves every buffer as the first one left it. *)
Theorem dynamic_buffer_clear_idempotent (ctx : wgpu_context_t)
    (this : dynamic_buffer_t) :
  dynamic_buffer_wf ctx this ->
  exists ctx1 ctx2,
    dynamic_buffer_clear ctx this = Ok ctx1
    /\ dynamic_buffer_clear ctx1 this = Ok ctx2
    /\ device_buffers ctx2 = device_buffers ctx1.
Proof.
  intros (Hd & Hl & Hs & Hb). unfold dynamic_buffer_clear.
  destruct (dynamic_buffer_clear_loop_spec this (Z.to_nat (db_dims this)) 0 ctx)
    as (ctx1 & Hrun & _ & Hz); auto.
  { rewrite Hl. unfold MAX_DIMENSIONS in *. lia. }
  { intros j b Hj. apply Hb. lia. }
  { intros j b Hj. lia. }
  destruct (dynamic_buffer_clear_loop_zeroed this (Z.to_nat (db_dims this)) 0 ctx1)
    as (ctx2 & Hrun2 & Heq).
  { exact Hs. }
  { rewrite Hl. unfold MAX_DIMENSIONS in *. lia. }
  { intros j b Hj. apply Hz. lia. }
  exists ctx1, ctx2. auto.
Qed.

Lemma copy_src_wf : dynamic_buffer_wf clear_ctx copy_src.
Proof.
  split; [vm_compute; split; discriminate|].
  split; [reflexivity|]. split; [vm_compute; discriminate|].
  intros i b Hi Hb.
  assert (i = 0%nat) as -> by (vm_compute in Hi; lia).
  injection Hb as <-.
  eexists _, _. split; [reflexivity|]. split; [vm_compute; reflexivity|].
  split; reflexivity.
Qed.

Lemma dynamic_buffer_clear_idempotent_witness :
  exists ctx1 ctx2,
    dynamic_buffer_clear clear_ctx copy_src = Ok ctx1
    /\ dynamic_buffer_clear ctx1 copy_src = Ok ctx2
    /\ device_buffers ctx2 = device_buffers ctx1.
Proof.
  exact (dynamic_buffer_clear_idempotent clear_ctx copy_src copy_src_wf).
Defined.

(** X6. A field without channels is no empty source: [dims - 1] wraps, the
    loop runs once per channel of the destination, and each recorded copy
    reads the array entry of a channel that was never allocated, the null
    buffer. Two fields without channels record nothing. *)
Theorem dynamic_buffer_copy_to_empty_source (w h : Z) (buffer : dynamic_buffer_t)
    (enc : WGPUCommandEncoder) :
  channels_ok buffer ->
  let this :=
    {| db_dims := 0; db_buffer_size := wrap32 (w * h * 4); db_w := w; db_h := h;
       db_buffers := replicate (Z.to_nat MAX_DIMENSIONS) wgpu_buffer_zero |} in
  (forall ctx, dynamic_buffer_init true ctx 0 w h = Ok (ctx, this))
  /\ dynamic_buffer_copy_to this this enc = Ok enc
  /\ exists cmds,
       dynamic_buffer_copy_to this buffer enc = Ok (enc ++ cmds)
       /\ Z.of_nat (length cmds) = db_dims buffer
       /\ forall i : Z, 0 <= i < db_dims buffer ->
            cmds !! Z.to_nat i
            = (dst ← db_buffers buffer !! Z.to_nat i;
               Some (CopyBufferToBuffer None 0 (wb_buffer dst) 0
                       (wrap32 (w * h * 4)))).
Proof.
  intros [Hd Hl] this. split; [reflexivity|]. split; [reflexivity|].
  destruct buffer as [d2 s2 w2 h2 bs2]. simpl in *.
  destruct bs2 as [|b0 [|b1 [|b2 [|]]]]; try discriminate Hl.
  subst this. generalize (wrap32 (w * h * 4)). intros sz.
  destruct Hd as [->|[->| ->]];
    (eexists; split;
      [ cbv -[app]; rewrite <- ?app_assoc; reflexivity
      | split; [reflexivity|];
        intros i Hi;
        assert (i = 0 \/ i = 1 \/ i = 2) as [->|[->| ->]] by lia;
        solve [reflexivity | lia] ]).
Qed.

Lemma dynamic_buffer_copy_to_empty_source_witness :
  let this :=
    {| db_dims := 0; db_buffer_size := wrap32 (2 * 2 * 4); db_w := 2; db_h := 2;
       db_buffers := replicate (Z.to_nat MAX_DIMENSIONS) wgpu_buffer_zero |} in
  (forall ctx, dynamic_buffer_init true ctx 0 2 2 = Ok (ctx, this))
  /\ dynamic_buffer_copy_to this this [] = Ok []
  /\ exists cmds,
       dynamic_buffer_copy_to this copy_dst [] = Ok ([] ++ cmds)
       /\ Z.of_nat (length cmds) = db_dims copy_dst
       /\ forall i : Z, 0 <= i < db_dims copy_dst ->
            cmds !! Z.to_nat i
            = (dst ← db_buffers copy_dst !! Z.to_nat i;
               Some (CopyBufferToBuffer None 0 (wb_buffer dst) 0
                       (wrap32 (2 * 2 * 4)))).
Proof.
  apply (dynamic_buffer_copy_to_empty_source 2 2 copy_dst []).
  split; [left; reflexivity | reflexivity].
Defined.

(** ** Uniform slots: what an update changes *)

(** X7. [update] never leaves a slot dirty and never changes its kind, element
    count, update policy or buffer. *)
Theorem uniform_update_keeps_slot (this : uniform_t) (ctx : wgpu_context_t)
    (value : option (list byte)) :
  let u' := (uniform_update this ctx value).2 in
  u_needs_update u' = false
  /\ u_type u' = u_type this /\ u_size u' = u_size this
  /\ u_always_update u' = u_always_update this
  /\ u_buffer u' = u_buffer this.
Proof.
  unfold uniform_update.
  destruct (u_needs_update this) eqn:Hn, (u_always_update this) eqn:Ha,
    (not_null value); simpl; repeat split; auto.
Qed.

(** X8. [update] touches at most the contents of the slot's own buffer: every
    other buffer is unchanged, no buffer changes size or usage, and at most
    one write is added to the queue. *)
Theorem uniform_update_frame (this : uniform_t) (ctx : wgpu_context_t)
    (value : option (list byte)) (k : positive) :
  let ctx' := (uniform_update this ctx value).1 in
  (wb_buffer (u_buffer this) <> Some k ->
   device_buffers ctx' !! k = device_buffers ctx !! k)
  /\ gb_size <$> device_buffers ctx' !! k = gb_size <$> device_buffers ctx !! k
  /\ gb_usage <$> device_buffers ctx' !! k = gb_usage <$> device_buffers ctx !! k
  /\ (queue_writes ctx' = queue_writes ctx
      \/ queue_writes ctx'
         = queue_writes ctx
           ++ [QueueWrite (wb_buffer (u_buffer this)) 0 value (u_size this)]).
Proof.
  unfold uniform_update.
  destruct (u_needs_update this || u_always_update this || not_null value);
    simpl; [|auto].
  destruct (wgpu_queue_write_buffer_frame ctx (wb_buffer (u_buffer this)) 0 value
              (u_size this) k) as (F1 & F2 & F3).
  rewrite queue_writes_write. auto.
Qed.

(** X9. What a write of [update] changes: the first [u_size] bytes of the
    buffer, the element count taken as a byte count, are replaced by the
    first bytes of the value; the rest of the buffer keeps its old
    contents. *)
Theorem uniform_update_overwrites_prefix (this : uniform_t)
    (ctx : wgpu_context_t) (d : list byte) (h : positive) (gb : gpu_buffer) :
  wb_buffer (u_buffer this) = Some h ->
  device_buffers ctx !! h = Some gb ->
  0 <= u_size this <= gb_size gb ->
  u_size this <= Z.of_nat (length d) ->
  device_buffers (uniform_update this ctx (Some d)).1 !! h
  = Some {| gb_usage := gb_usage gb; gb_size := gb_size gb;
            gb_data := take (Z.to_nat (u_size this)) d
                       ++ drop (Z.to_nat (u_size this)) (gb_data gb) |}.
Proof.
  intros Hb Hh Hs Hd. unfold uniform_update.
  rewrite orb_true_r. simpl. unfold wgpu_queue_write_buffer. rewrite Hb, Hh.
  replace ((0 <=? 0) && (0 <=? u_size this) && (0 + u_size this <=? gb_size gb)
           && (u_size this <=? Z.of_nat (length d))) with true.
  2:{ symmetry. rewrite !andb_true_iff, !Z.leb_le. lia. }
  simpl. rewrite lookup_insert_eq. unfold blit. reflexivity.
Qed.

Lemma uniform_update_overwrites_prefix_witness :
  device_buffers
    (uniform_update mouse_slot
       (uniform_init uniform_init_defaults empty_context
          UNIFORM_MOUSE_INFOS 4 (Some mouse_value)).1 (Some mouse_value')).1
    !! 1%positive
  = Some {| gb_usage := uniform_usage; gb_size := 16;
            gb_data := take (Z.to_nat 4) mouse_value'
                       ++ drop (Z.to_nat 4) mouse_value |}.
Proof.
  apply (uniform_update_overwrites_prefix mouse_slot _ mouse_value' 1%positive
           {| gb_usage := uniform_usage; gb_size := 16; gb_data := mouse_value |}).
  - reflexivity.
  - vm_compute. reflexivity.
  - vm_compute. split; discriminate.
  - vm_compute. discriminate.
Defined.

(** X10. After any [update] of a slot that is not always updated, an [update]
    without a value does nothing. *)
Theorem uniform_update_then_null (this : uniform_t) (ctx : wgpu_context_t)
    (value : option (list byte)) :
  u_always_update this = false ->
  let '(ctx1, u1) := uniform_update this ctx value in
  uniform_update u1 ctx1 None = (ctx1, u1).
Proof.
  intros Ha. unfold uniform_update at 1.
  destruct (u_needs_update this || u_always_update this || not_null value) eqn:Hc.
  - unfold uniform_update. simpl. rewrite Ha. reflexivity.
  - unfold uniform_update. rewrite Ha in *.
    destruct (u_needs_update this); [discriminate|]. reflexivity.
Qed.

Lemma uniform_update_then_null_witness :
  let '(ctx1, u1) := uniform_update mouse_slot empty_context (Some mouse_value') in
  uniform_update u1 ctx1 None = (ctx1, u1).
Proof.
  apply (uniform_update_then_null mouse_slot empty_context (Some mouse_value')).
  reflexivity.
Defined.

(** X11. Initialising a slot a second time allocates a second buffer and does
    not release the first: the old buffer stays on the device, with its
    contents, and the slot no longer refers to it. *)
Theorem uniform_init_again_keeps_old_buffer (this : uniform_t)
    (ctx : wgpu_context_t) (type : uniform_type_t) (size : Z) (d : list byte)
    (h0 : positive) (gb0 : gpu_buffer) :
  0 < size ->
  wb_buffer (u_buffer this) = Some h0 ->
  device_buffers ctx !! h0 = Some gb0 ->
  let '(ctx', u) := uniform_init this ctx type size (Some d) in
  device_buffers ctx' !! h0 = Some gb0
  /\ exists h, wb_buffer (u_buffer u) = Some h /\ h <> h0
       /\ is_Some (device_buffers ctx' !! h).
Proof.
  intros Hs Hb Hh. unfold uniform_init.
  destruct (Z.ltb_spec 0 size); [|lia]. simpl.
  assert (Hne : fresh (dom (device_buffers ctx)) <> h0).
  { intros Heq. pose proof (fresh_handle_unused ctx) as Hf.
    rewrite Heq, Hh in Hf. discriminate. }
  split; [rewrite lookup_insert_ne by exact Hne; exact Hh|].
  eexists. split; [reflexivity|]. split; [exact Hne|].
  rewrite lookup_insert_eq. eauto.
Qed.

Lemma uniform_init_again_keeps_old_buffer_witness :
  let ctx := (uniform_init uniform_init_defaults empty_context
                UNIFORM_MOUSE_INFOS 4 (Some mouse_value)).1 in
  let '(ctx', u) := uniform_init mouse_slot ctx UNIFORM_MOUSE_INFOS 4
                      (Some mouse_value') in
  device_buffers ctx' !! 1%positive
  = Some {| gb_usage := uniform_usage; gb_size := 16; gb_data := mouse_value |}
  /\ exists h, wb_buffer (u_buffer u) = Some h /\ h <> 1%positive
       /\ is_Some (device_buffers ctx' !! h).
Proof.
  apply (uniform_init_again_keeps_old_buffer mouse_slot _ UNIFORM_MOUSE_INFOS 4
           mouse_value' 1%positive
           {| gb_usage := uniform_usage; gb_size := 16; gb_data := mouse_value |}).
  - reflexivity.
  - reflexivity.
  - vm_compute. reflexivity.
Defined.

(** ** The render program *)

(** X12. The render program's resources fit together: after the rgb buffer and
    the two render uniforms are set up, the bind group entries 0, 1, 2, 4
    and 5 each bind a live buffer of exactly the bound size, at offset 0,
    and the five buffers are pairwise distinct. Entry 3 is the grid uniform,
    which is set up elsewhere. *)
Theorem render_program_bind_group_bound (assertions : bool)
    (ctx : wgpu_context_t) (s : settings_t) (u : uniforms_t) :
  exists (ctx1 : wgpu_context_t) (rgb : dynamic_buffer_t),
    render_program_setup_rgb_buffer assertions ctx s = Ok (ctx1, rgb)
    /\ db_buffer_size rgb = wrap32 (dye_w s * dye_h s * 4)
    /\ let '(ctx2, u') := render_program_setup_render_uniforms ctx1 u in
       exists e0 e1 e2 e3 e4 e5,
         render_bind_group_entries rgb u' = Ok [e0; e1; e2; e3; e4; e5]
         /\ binding <$> [e0; e1; e2; e3; e4; e5] = [0; 1; 2; 3; 4; 5]
         /\ Forall (entry_bound ctx2) [e0; e1; e2; e4; e5]
         /\ entry_size e0 = db_buffer_size rgb
         /\ entry_size e4 = 4 /\ entry_size e5 = 4
         /\ NoDup (entry_buffer <$> [e0; e1; e2; e4; e5]).
Proof.
  unfold render_program_setup_rgb_buffer.
  destruct (dynamic_buffer_init_ok assertions ctx 3 (dye_w s) (dye_h s))
    as (ctx1 & rgb & Hrun); [done|].
  exists ctx1, rgb. split; [exact Hrun|].
  unfold dynamic_buffer_init in Hrun. rewrite andb_false_r in Hrun.
  apply (dynamic_buffer_init_loop_spec _ 0) in Hrun; [|simpl; lia].
  destruct Hrun as (hs & Hl & Hnd & _ & _ & Hnew & _ & Hbs & _ & Hsz & _).
  simpl in *. split; [exact Hsz|].
  destruct hs as [|h0 [|h1 [|h2 [|]]]]; try discriminate Hl. clear Hl.
  simpl in Hbs.
  apply Forall_cons in Hnew as [Hn0 Hnew].
  apply Forall_cons in Hnew as [Hn1 Hnew].
  apply Forall_cons in Hnew as [Hn2 _].
  unfold render_program_setup_render_uniforms, uniform_init, wgpu_create_buffer.
  simpl.
  set (h4 := fresh (dom (device_buffers ctx1))).
  assert (Hf4 : device_buffers ctx1 !! h4 = None) by apply fresh_handle_unused.
  clearbody h4.
  set (m4 := <[h4 := _]> (device_buffers ctx1)).
  set (h5 := fresh (dom m4)).
  assert (Hf5 : m4 !! h5 = None) by apply not_elem_of_dom, is_fresh.
  clearbody h5.
  assert (Hne : forall k gb, device_buffers ctx1 !! k = Some gb -> k <> h4 /\ k <> h5).
  { intros k gb Hk. split; intros ->; [congruence|].
    unfold m4 in Hf5. destruct (decide (h5 = h4)) as [->|Hn]; [congruence|].
    rewrite lookup_insert_ne in Hf5 by auto. congruence. }
  assert (H54 : h5 <> h4).
  { intros ->. unfold m4 in Hf5. rewrite lookup_insert_eq in Hf5. discriminate. }
  destruct (Hne _ _ Hn0) as [N04 N05]. destruct (Hne _ _ Hn1) as [N14 N15].
  destruct (Hne _ _ Hn2) as [N24 N25].
  unfold render_bind_group_entries. rewrite Hbs. simpl.
  do 6 eexists. split; [reflexivity|]. split; [reflexivity|].
  assert (Hlook : forall k gb, device_buffers ctx1 !! k = Some gb ->
            <[h5 := {| gb_usage := uniform_usage; gb_size := wrap_size_t 4;
                       gb_data := blit (zero_bytes (wrap_size_t 4)) 0
                                    float_one_bytes (wrap_size_t 4) |}]> m4 !! k
            = Some gb).
  { intros k gb Hk. destruct (Hne _ _ Hk).
    rewrite lookup_insert_ne by auto. unfold m4.
    rewrite lookup_insert_ne by auto. exact Hk. }
  split.
  { repeat apply Forall_cons_2; try apply Forall_nil_2; unfold entry_bound; simpl.
    - eexists _, _. split; [reflexivity|]. split; [apply Hlook, Hn0|]. auto.
    - eexists _, _. split; [reflexivity|]. split; [apply Hlook, Hn1|]. auto.
    - eexists _, _. split; [reflexivity|]. split; [apply Hlook, Hn2|]. auto.
    - eexists _, _. split; [reflexivity|]. split.
      + rewrite lookup_insert_ne by auto. unfold m4. apply lookup_insert_eq.
      + auto.
    - eexists _, _. split; [reflexivity|]. split; [apply lookup_insert_eq|]. auto. }
  rewrite Hsz. split; [reflexivity|]. split; [reflexivity|]. split; [reflexivity|].
  apply NoDup_cons in Hnd as [Hn01 Hnd]. apply NoDup_cons in Hnd as [Hn12 _].
  apply not_elem_of_cons in Hn01 as [N01 Hn02].
  apply not_elem_of_cons in Hn02 as [N02 _].
  apply not_elem_of_cons in Hn12 as [N12 _].
  change (NoDup (Some <$> [h0; h1; h2; h4; h5])).
  apply (NoDup_fmap_2 Some).
  rewrite !NoDup_cons, !not_elem_of_cons.
  repeat split; auto using NoDup_nil_2, not_elem_of_nil.
Qed.

(** ** Exact roundings *)

(** Shifting out [p] zero bits loses nothing: the location stays exact. *)
Lemma shr_1_even (m : Z) :
  0 <= m ->
  shr_1 {| shr_m := 2 * m; shr_r := false; shr_s := false |}
  = {| shr_m := m; shr_r := false; shr_s := false |}.
Proof. intros Hm. destruct m as [|p|p]; try lia; reflexivity. Qed.

Lemma iter_shr_1_exact (p : positive) (m : Z) :
  0 <= m ->
  SpecFloat.iter_pos shr_1 p
    {| shr_m := m * 2 ^ Z.pos p; shr_r := false; shr_s := false |}
  = {| shr_m := m; shr_r := false; shr_s := false |}.
Proof.
  revert m. induction p as [p IH|p IH|]; intros m Hm; cbn [SpecFloat.iter_pos].
  - change (Z.pos p~1) with (2 * Z.pos p + 1).
    replace (m * 2 ^ (2 * Z.pos p + 1))
      with (2 * ((m * 2 ^ Z.pos p) * 2 ^ Z.pos p)).
    2:{ replace (2 * Z.pos p + 1) with (1 + Z.pos p + Z.pos p) by lia.
        rewrite !pow2_split by lia. change (2 ^ 1) with 2. ring. }
    pose proof (pow2_pos (Z.pos p) ltac:(lia)) as Hp.
    rewrite shr_1_even by nia. rewrite IH by nia. apply IH. exact Hm.
  - change (Z.pos p~0) with (2 * Z.pos p).
    replace (m * 2 ^ (2 * Z.pos p)) with ((m * 2 ^ Z.pos p) * 2 ^ Z.pos p).
    2:{ replace (2 * Z.pos p) with (Z.pos p + Z.pos p) by lia.
        rewrite !pow2_split by lia. ring. }
    pose proof (pow2_pos (Z.pos p) ltac:(lia)) as Hp.
    rewrite IH by nia. apply IH. exact Hm.
  - change (2 ^ 1) with 2. rewrite Z.mul_comm. apply shr_1_even. exact Hm.
Qed.

Section exact_rounding.
Variables prec emax : Z.
Hypothesis prec_pos : 0 < prec.

(** A mantissa of [prec] bits followed by [k] zero bits is rounded to
    itself: nothing is lost. *)
Lemma binary_round_aux_exact (s : bool) (m0 mx : positive) (e k : Z) :
  Z.pos (digits2_pos m0) = prec -> 0 <= k ->
  Z.pos mx = Z.pos m0 * 2 ^ k ->
  emin prec emax <= e + k <= emax - prec ->
  binary_round_aux prec emax s (Z.pos mx) e loc_Exact = S754_finite s m0 (e + k).
Proof using prec_pos.
  intros Hd Hk Hmx He.
  pose proof (digits2_pos_spec m0) as Hm0. rewrite Hd in Hm0.
  pose proof (pow2_pos k Hk) as Hpk.
  assert (Hdx : Z.pos (digits2_pos mx) = prec + k).
  { apply digits2_pos_unique. rewrite Hmx.
    replace (prec + k - 1) with ((prec - 1) + k) by lia.
    rewrite !pow2_split by lia.
    generalize dependent (2 ^ k). generalize dependent (2 ^ (prec - 1)).
    generalize dependent (2 ^ prec). intros; nia. }
  unfold binary_round_aux, shr_fexp.
  change (Zdigits2 (Z.pos mx)) with (Z.pos (digits2_pos mx)). rewrite Hdx.
  assert (Hf : fexp prec emax (prec + k + e) - e = k) by (unfold fexp; lia).
  rewrite Hf. simpl shr_record_of_loc.
  assert (Hshr : shr {| shr_m := Z.pos mx; shr_r := false; shr_s := false |} e k
                 = ({| shr_m := Z.pos m0; shr_r := false; shr_s := false |}, e + k)).
  { unfold shr. destruct k as [|p|p]; try lia.
    - f_equal; [|lia]. f_equal. rewrite Hmx. simpl. lia.
    - f_equal. rewrite Hmx. apply iter_shr_1_exact. lia. }
  rewrite Hshr. simpl round_nearest_even.
  change (Zdigits2 (Z.pos m0)) with (Z.pos (digits2_pos m0)). rewrite Hd.
  assert (Hf2 : fexp prec emax (prec + (e + k)) - (e + k) = 0) by (unfold fexp; lia).
  rewrite Hf2. simpl.
  destruct (Z.leb_spec (e + k) (emax - prec)); [reflexivity | lia].
Qed.
End exact_rounding.

(** Conversion of an integer below [2 ^ 24] to binary32 is exact. *)
Lemma float_of_Z_exact (z : Z) :
  0 < z < 2 ^ 24 ->
  exists (m : positive) (e : Z),
    normal_float (float_of_Z z) m e /\ -23 <= e <= 0
    /\ Z.pos m = z * 2 ^ (- e).
Proof.
  intros [Hz Hz24]. destruct z as [|p|p]; try lia.
  unfold float_of_Z, binary_normalize, binary_round.
  assert (Hd : 0 < Z.pos (digits2_pos p) <= 24).
  { apply (digits2_pos_bounds p 0 24); simpl; lia. }
  destruct (shl_align_spec 24 128 p 0 ltac:(lia)) as (mz & ez & Hsh & Hez & Hmz & Hdz & Hde).
  { unfold emin. lia. }
  rewrite Hsh.
  rewrite (binary_round_aux_exact 24 128 ltac:(lia) false mz mz ez 0);
    try (unfold emin; lia).
  - exists mz, (ez + 0). split; [split; [reflexivity | lia]|].
    split; [lia|]. rewrite Hmz. f_equal. f_equal. lia.
Qed.

(** Multiplying a normal binary32 number by 1 gives the number back. *)
Lemma float_mul_one (x : spec_float) (m : positive) (e : Z) :
  normal_float x m e -> -120 <= e <= 100 -> float_mul x float_one = x.
Proof.
  intros [-> Hd] He. change float_one with (S754_finite false 8388608 (-23)).
  unfold float_mul, SFmul. simpl xorb.
  rewrite (binary_round_aux_exact 24 128 ltac:(lia) false m _ _ 23 Hd);
    try (unfold emin; lia); try (rewrite Pos2Z.inj_mul; reflexivity).
  f_equal. lia.
Qed.

(** Dividing a normal binary32 number by itself gives 1, and dividing it
    by 1 gives the number back. *)
Lemma float_div_self (x : spec_float) (m : positive) (e : Z) :
  normal_float x m e -> float_div x x = float_one.
Proof.
  intros [-> Hd]. change float_one with (S754_finite false 8388608 (-23)).
  unfold float_div, SFdiv, SFdiv_core_binary. simpl xorb.
  change (Zdigits2 (Z.pos m)) with (Z.pos (digits2_pos m)). rewrite Hd.
  assert (He' : Z.min (fexp 24 128 (24 + e - (24 + e))) (e - e) = -24)
    by (unfold fexp, emin; lia).
  rewrite He'. replace (e - e - -24) with 24 by lia.
  rewrite Z.shiftl_mul_pow2 by lia.
  assert (Hde : Z.div_eucl (Z.pos m * 2 ^ 24) (Z.pos m) = (2 ^ 24, 0)).
  { pose proof (Z.div_mod (Z.pos m * 2 ^ 24) (Z.pos m) ltac:(lia)) as H1.
    unfold Z.div, Z.modulo in H1.
    pose proof (Z_div_mult (2 ^ 24) (Z.pos m) ltac:(lia)) as H2.
    pose proof (Z_mod_mult (2 ^ 24) (Z.pos m)) as H3.
    rewrite (Z.mul_comm (2 ^ 24)) in H2, H3.
    unfold Z.div in H2. unfold Z.modulo in H3.
    destruct (Z.div_eucl (Z.pos m * 2 ^ 24) (Z.pos m)) as [q r].
    simpl in H2, H3. congruence. }
  rewrite Hde.
  assert (Hloc : new_location (Z.pos m) 0 = loc_Exact)
    by (unfold new_location; destruct (Z.even (Z.pos m)); reflexivity).
  rewrite Hloc. change (2 ^ 24) with (Z.pos 16777216).
  rewrite (binary_round_aux_exact 24 128 ltac:(lia) false 8388608 _ _ 1);
    try reflexivity; try (unfold emin; lia).
Qed.

Lemma float_div_one (x : spec_float) (m : positive) (e : Z) :
  normal_float x m e -> -100 <= e <= 100 -> float_div x float_one = x.
Proof.
  intros [-> Hd] He. change float_one with (S754_finite false 8388608 (-23)).
  unfold float_div, SFdiv, SFdiv_core_binary. simpl xorb.
  change (Zdigits2 (Z.pos m)) with (Z.pos (digits2_pos m)). rewrite Hd.
  change (Zdigits2 8388608) with 24.
  assert (He' : Z.min (fexp 24 128 (24 + e - (24 + -23))) (e - -23) = e - 1)
    by (unfold fexp, emin; lia).
  rewrite He'. replace (e - -23 - (e - 1)) with 24 by lia.
  rewrite Z.shiftl_mul_pow2 by lia.
  assert (Hde : Z.div_eucl (Z.pos m * 2 ^ 24) 8388608 = (Z.pos m * 2, 0)).
  { pose proof (Z_div_mult (Z.pos m * 2) 8388608 ltac:(lia)) as H2.
    pose proof (Z_mod_mult (Z.pos m * 2) 8388608) as H3.
    replace (Z.pos m * 2 * 8388608) with (Z.pos m * 2 ^ 24) in H2, H3
      by (change (2 ^ 24) with 16777216; lia).
    unfold Z.div in H2. unfold Z.modulo in H3.
    destruct (Z.div_eucl (Z.pos m * 2 ^ 24) 8388608) as [q r].
    simpl in H2, H3. congruence. }
  rewrite Hde. change (new_location 8388608 0) with loc_Exact.
  change (Z.pos m * 2) with (Z.pos (m * 2)).
  rewrite (binary_round_aux_exact 24 128 ltac:(lia) false m _ _ 1 Hd);
    try (unfold emin; lia); try (rewrite Pos2Z.inj_mul; reflexivity).
  f_equal. lia.
Qed.

(** The floor of a binary32 number that is an integer below [2 ^ 32] is
    that integer. *)
Lemma uint32_of_floor_integer (x : spec_float) (m : positive) (e z : Z) :
  normal_float x m e -> -100 <= e <= 0 -> Z.pos m = z * 2 ^ (- e) ->
  z < 2 ^ 32 -> uint32_of_floor x = Some z.
Proof.
  intros [-> Hd] He Hm Hz. unfold uint32_of_floor, double_of_float, binary_round.
  destruct (shl_align_spec 53 1024 m e ltac:(lia))
    as (mz & ez & Hsh & Hez & Hmz & Hdz & Hde).
  { unfold emin. lia. }
  rewrite Hsh. rewrite Hd in Hdz, Hde.
  rewrite (binary_round_aux_exact 53 1024 ltac:(lia) false mz mz ez 0);
    try (unfold emin; lia).
  replace (ez + 0) with ez by lia.
  assert (Hmz' : Z.pos mz = z * 2 ^ (- ez)).
  { rewrite Hmz, Hm, <- Z.mul_assoc, <- pow2_split by lia. f_equal. f_equal. lia. }
  assert (Hfl : floor (S754_finite false mz ez) = Some z).
  { unfold floor. destruct (Z.leb_spec 0 ez) as [H0|H0].
    - assert (ez = 0) as -> by lia. f_equal. rewrite Hmz'. simpl. lia.
    - f_equal. rewrite Hmz'. apply Z.div_mul.
      pose proof (pow2_pos (- ez) ltac:(lia)). lia. }
  rewrite Hfl. cbn [mbind option_bind].
  assert (Hz0 : 0 < z).
  { pose proof (pow2_pos (- ez) ltac:(lia)). nia. }
  destruct (Z.leb_spec 0 z); [|lia]. destruct (Z.ltb_spec z (2 ^ 32)); [|lia].
  reflexivity.
Qed.

(** ** Sizing: grids within the limits, square surfaces, missing limits *)

(** Scaling a dimension below [2 ^ 24] by the ratio 1 gives it back. *)
Lemma scale_one (z : Z) :
  0 <= z < 2 ^ 24 ->
  uint32_of_floor (float_mul (float_of_Z z) float_one) = Some z.
Proof.
  intros Hz. destruct (Z.eq_dec z 0) as [->|Hz0]; [reflexivity|].
  destruct (float_of_Z_exact z ltac:(lia)) as (m & e & Hx & He & Hm).
  rewrite (float_mul_one _ m e Hx) by lia.
  apply (uint32_of_floor_integer _ m e z Hx); [lia | exact Hm |].
  change (2 ^ 32) with 4294967296. change (2 ^ 24) with 16777216 in Hz. lia.
Qed.

(** X13. A grid that is within both limits is returned as it is: when
    the 32-bit product [w * h * 4] is below the buffer limit and neither
    dimension exceeds the canvas limit, with both dimensions below
    [2 ^ 24] so that their conversion to [float] is exact,
    [get_valid_dimensions] returns [w] and [h] themselves. *)
Theorem get_valid_dimensions_identity (w h max_buffer_size max_canvas_size : Z) :
  0 <= w < 2 ^ 24 -> 0 <= h < 2 ^ 24 ->
  wrap32 (w * h * 4) < max_buffer_size ->
  w <= max_canvas_size -> h <= max_canvas_size ->
  get_valid_dimensions w h max_buffer_size max_canvas_size
  = Some {| width := w; height := h; depthOrArrayLayers := 0 |}.
Proof.
  intros Hw Hh Hb Hcw Hch. unfold get_valid_dimensions, down_ratio.
  rewrite Z.geb_leb, !Z.gtb_ltb.
  destruct (Z.leb_spec max_buffer_size (wrap32 (w * h * 4))); [lia|].
  destruct (Z.ltb_spec max_canvas_size w); [lia|].
  destruct (Z.ltb_spec max_canvas_size h); [lia|].
  rewrite !scale_one by assumption. reflexivity.
Qed.

Lemma get_valid_dimensions_identity_witness :
  get_valid_dimensions 512 288 134217728 8192
  = Some {| width := 512; height := 288; depthOrArrayLayers := 0 |}.
Proof.
  apply (get_valid_dimensions_identity 512 288 134217728 8192);
    vm_compute; intuition discriminate.
Defined.

(** For a square surface the candidate dimensions are [size] both ways. *)
Lemma preferred_wh_square (size s : Z) :
  0 < size < 2 ^ 24 -> 0 < s < 2 ^ 32 ->
  preferred_wh size s s = Some (size, size).
Proof.
  intros Hsz Hs. unfold preferred_wh. rewrite Z.ltb_irrefl.
  destruct (float_of_Z_bounds s ltac:(change (2 ^ 64) with 18446744073709551616;
                                       change (2 ^ 32) with 4294967296 in Hs; lia))
    as (ms & es & Hx & _ & _).
  rewrite (float_div_self _ ms es Hx).
  destruct (float_of_Z_exact size Hsz) as (m & e & Hm & He & Hv).
  rewrite (float_div_one _ m e Hm) by lia.
  rewrite (uint32_of_floor_integer _ m e size Hm); [reflexivity | lia | exact Hv |].
  change (2 ^ 32) with 4294967296. change (2 ^ 24) with 16777216 in Hsz. lia.
Qed.

(** X14. On a square surface, whatever its side, a requested size that
    is within both limits gives a [size] x [size] grid. *)
Theorem get_preferred_dimensions_square_surface
    (size s max_buffer_size max_canvas_size : Z) :
  0 < size < 2 ^ 24 -> 0 < s < 2 ^ 32 ->
  wrap32 (size * size * 4) < max_buffer_size -> size <= max_canvas_size ->
  get_preferred_dimensions size s s max_buffer_size max_canvas_size
  = Some {| width := size; height := size; depthOrArrayLayers := 0 |}.
Proof.
  intros Hsz Hs Hb Hc. unfold get_preferred_dimensions.
  rewrite preferred_wh_square by assumption. cbn [mbind option_bind].
  unfold get_valid_dimensions, down_ratio. rewrite Z.geb_leb, !Z.gtb_ltb.
  destruct (Z.leb_spec max_buffer_size (wrap32 (size * size * 4))); [lia|].
  destruct (Z.ltb_spec max_canvas_size size); [lia|].
  rewrite !scale_one by lia. reflexivity.
Qed.

Lemma get_preferred_dimensions_square_surface_witness :
  get_preferred_dimensions 2048 1000 1000 134217728 8192
  = Some {| width := 2048; height := 2048; depthOrArrayLayers := 0 |}.
Proof.
  apply (get_preferred_dimensions_square_surface 2048 1000 134217728 8192);
    vm_compute; intuition discriminate.
Defined.

(** Without limits the ratio is zero and both dimensions become 0, when
    at least one of them is not 0 to begin with. *)
Lemma get_valid_dimensions_no_limits (w h : Z) :
  0 <= w < 2 ^ 32 -> 0 <= h < 2 ^ 32 -> 0 < w \/ 0 < h ->
  get_valid_dimensions w h 0 0
  = Some {| width := 0; height := 0; depthOrArrayLayers := 0 |}.
Proof.
  intros Hw Hh Hpos.
  assert (H64 : 2 ^ 32 < 2 ^ 64) by reflexivity.
  assert (Hz : forall z, 0 < z < 2 ^ 32 ->
            exists m e, float_of_Z z = S754_finite false m e).
  { intros z Hz. destruct (float_of_Z_bounds z ltac:(lia)) as (m & e & [-> _] & _).
    eauto. }
  assert (Hm : forall z r, 0 <= z < 2 ^ 32 -> r = S754_zero false ->
            uint32_of_floor (float_mul (float_of_Z z) r) = Some 0).
  { intros z r Hz0 ->. destruct (Z.eq_dec z 0) as [->|Hne]; [reflexivity|].
    destruct (Hz z ltac:(lia)) as (m & e & ->). reflexivity. }
  unfold get_valid_dimensions.
  assert (Hr : down_ratio w h 0 0 = S754_zero false).
  { unfold down_ratio. rewrite !Z.gtb_ltb.
    destruct (Z.ltb_spec 0 w) as [H0|H0].
    - destruct (Hz w ltac:(lia)) as (m & e & ->). reflexivity.
    - destruct (Z.ltb_spec 0 h) as [H1|H1]; [|lia].
      destruct (Hz h ltac:(lia)) as (m & e & ->). reflexivity. }
  rewrite !Hm by (assumption || lia). reflexivity.
Qed.

(** X15. When the adapter reports no limits, both limits stay 0, and
    [init_sizes] then scales every grid down to 0 x 0 cells: for each
    surface for which the candidate dimensions are defined, the grid and
    dye dimensions it stores are all 0. *)
Theorem init_sizes_no_limits_zero_grid (surface_width surface_height : Z) :
  is_Some (preferred_wh (grid_size settings) surface_width surface_height) ->
  is_Some (preferred_wh (dye_size settings) surface_width surface_height) ->
  exists s' : settings_t,
    init_sizes settings surface_width surface_height None = Some s'
    /\ grid_w s' = 0 /\ grid_h s' = 0 /\ dye_w s' = 0 /\ dye_h s' = 0.
Proof.
  intros [[gw gh] Hg] [[dw dh] Hd]. unfold init_sizes, get_preferred_dimensions.
  rewrite Hg, Hd. cbn [mbind option_bind].
  apply preferred_wh_shape in Hg as (Hgw & Hgh & Hgs); [|simpl; lia].
  apply preferred_wh_shape in Hd as (Hdw & Hdh & Hds); [|simpl; lia].
  simpl in Hgs, Hds.
  rewrite (get_valid_dimensions_no_limits gw gh) by (assumption || lia).
  rewrite (get_valid_dimensions_no_limits dw dh) by (assumption || lia).
  cbn [mbind option_bind]. eexists. split; [reflexivity|]. simpl. auto.
Qed.

Lemma init_sizes_no_limits_zero_grid_witness :
  exists s' : settings_t,
    init_sizes settings 1920 1080 None = Some s'
    /\ grid_w s' = 0 /\ grid_h s' = 0 /\ dye_w s' = 0 /\ dye_h s' = 0.
Proof.
  apply (init_sizes_no_limits_zero_grid 1920 1080).
  - vm_compute. eexists. reflexivity.
  - vm_compute. eexists. reflexivity.
Defined.

(** The ratio [max_canvas_size / big] for a dimension beyond a canvas
    limit of at most [2 ^ 20]. *)
Lemma canvas_ratio_any (max_canvas_size big : Z) :
  1 <= max_canvas_size <= 1048576 -> max_canvas_size < big < 2 ^ 32 ->
  exists (mr : positive) (er : Z),
    normal_float (float_div (float_of_Z max_canvas_size) (float_of_Z big)) mr er
    /\ -88 <= er <= -2
    /\ (inject_Z big * dyadic (Z.pos mr) er * (1 - eps)
        <= inject_Z max_canvas_size * (1 + eps) * (1 + eps))%Q.
Proof.
  intros Hc Hbig.
  assert (H64 : 2 ^ 32 < 2 ^ 64) by reflexivity.
  destruct (float_of_Z_bounds big ltac:(lia)) as (mx & ex & Hx & Hex & Hxlo & _).
  destruct (float_of_Z_bounds max_canvas_size ltac:(lia))
    as (mc & ec & Hmc & Hec & _ & Hcup).
  assert (Hcq : (1 <= inject_Z max_canvas_size <= 1048576)%Q).
  { split.
    - change 1%Q with (inject_Z 1). rewrite <- Zle_Qle. lia.
    - change 1048576%Q with (inject_Z 1048576). rewrite <- Zle_Qle. lia. }
  assert (Hec' : ec <= -3).
  { assert (Hlt : (dyadic (Z.pos mc) ec < (2 # 1) ^ 21)%Q).
    { change ((2 # 1) ^ 21)%Q with 2097152%Q. unfold eps in *. lra. }
    pose proof (normal_float_exponent _ mc ec 21 Hmc Hlt). lia. }
  destruct (float_div_bounds _ _ mc mx ec ex Hmc Hx ltac:(lia))
    as (mr & er & Hr & Her & Hrv).
  exists mr, er. split; [exact Hr|]. split; [lia|].
  pose proof (dyadic_pos (Z.pos mr) er ltac:(lia)) as Hrpos.
  pose proof (dyadic_pos (Z.pos mx) ex ltac:(lia)) as Hxpos.
  assert (H1 : (inject_Z big * (1 - eps) * dyadic (Z.pos mr) er
                <= dyadic (Z.pos mx) ex * dyadic (Z.pos mr) er)%Q)
    by (apply Qmult_le_compat_r; [exact Hxlo | lra]).
  assert (H2 : (dyadic (Z.pos mc) ec * (1 + eps)
                <= inject_Z max_canvas_size * (1 + eps) * (1 + eps))%Q)
    by (apply Qmult_le_compat_r; [exact Hcup | unfold eps; lra]).
  lra.
Qed.

(** Scaling a dimension by a ratio that brings it to about the canvas
    limit gives at most the limit. *)
Lemma scale_capped (z max_canvas_size : Z) (r : spec_float) (mr : positive)
    (er : Z) :
  0 <= z < 2 ^ 32 -> 1 <= max_canvas_size <= 1048576 ->
  normal_float r mr er -> -88 <= er <= -2 ->
  (inject_Z z * dyadic (Z.pos mr) er * (1 - eps)
   <= inject_Z max_canvas_size * (1 + eps) * (1 + eps))%Q ->
  exists b : Z,
    uint32_of_floor (float_mul (float_of_Z z) r) = Some b
    /\ 0 <= b <= max_canvas_size.
Proof.
  intros Hz Hc Hr Her Hv.
  assert (H64 : 2 ^ 32 < 2 ^ 64) by reflexivity.
  destruct (Z.eq_dec z 0) as [->|Hz0].
  - destruct Hr as [-> _]. exists 0. split; [reflexivity | lia].
  - destruct (float_of_Z_bounds z ltac:(lia)) as (mx & ex & Hx & Hex & _ & Hxv).
    destruct (float_mul_bounds _ _ mx mr ex er Hx Hr ltac:(lia))
      as (m & e & Hm & He & Hmv).
    apply (uint32_of_floor_bound _ m e max_canvas_size Hm);
      [lia | | change (2 ^ 32) with 4294967296; lia].
    pose proof (dyadic_pos (Z.pos mr) er ltac:(lia)) as Hrpos.
    assert (Hcq : (1 <= inject_Z max_canvas_size <= 1048576)%Q).
    { split.
      - change 1%Q with (inject_Z 1). rewrite <- Zle_Qle. lia.
      - change 1048576%Q with (inject_Z 1048576). rewrite <- Zle_Qle. lia. }
    assert (H1 : (dyadic (Z.pos mx) ex * dyadic (Z.pos mr) er
                  <= inject_Z z * (1 + eps) * dyadic (Z.pos mr) er)%Q)
      by (apply Qmult_le_compat_r; [exact Hxv | lra]).
    remember (dyadic (Z.pos m) e) as P eqn:HP.
    remember (dyadic (Z.pos mx) ex * dyadic (Z.pos mr) er)%Q as XR eqn:HXR.
    remember (inject_Z z * dyadic (Z.pos mr) er)%Q as T eqn:HT.
    remember (inject_Z max_canvas_size) as C eqn:HC.
    assert (H1' : (XR <= T * (1 + eps))%Q).
    { rewrite HT. lra. }
    clear H1 HP HXR HT HC Hxv.
    unfold eps in *. lra.
Qed.

(** X16. The canvas clamp works when the larger dimension is the one
    compared first, for every canvas limit from 1 to 1048576: if the width
    exceeds the limit and the height is not larger than the width, or if
    only the height exceeds the limit, both returned dimensions are at
    most the limit, whatever the buffer limit is. *)
Theorem get_valid_dimensions_canvas_clamp
    (w h max_buffer_size max_canvas_size : Z) :
  1 <= max_canvas_size <= 1048576 ->
  0 <= w < 2 ^ 32 -> 0 <= h < 2 ^ 32 ->
  (max_canvas_size < w /\ h <= w) \/ (w <= max_canvas_size /\ max_canvas_size < h) ->
  exists ext : WGPUExtent3D,
    get_valid_dimensions w h max_buffer_size max_canvas_size = Some ext
    /\ 0 <= width ext <= max_canvas_size
    /\ 0 <= height ext <= max_canvas_size.
Proof.
  intros Hc Hw Hh Hcase. unfold get_valid_dimensions, down_ratio.
  rewrite !Z.gtb_ltb.
  assert (Hmono : forall (a b : Z) (q t : Q), 0 <= a <= b -> (0 < q)%Q ->
            (inject_Z b * q * (1 - eps) <= t)%Q ->
            (inject_Z a * q * (1 - eps) <= t)%Q).
  { intros a b q t Hab Hq Hb.
    assert (Hle : (inject_Z a <= inject_Z b)%Q) by (rewrite <- Zle_Qle; lia).
    assert (H1 : (inject_Z a * q <= inject_Z b * q)%Q)
      by (apply Qmult_le_compat_r; [exact Hle | lra]).
    unfold eps in *. lra. }
  destruct Hcase as [[Hbig Hle]|[Hle Hbig]].
  - destruct (Z.ltb_spec max_canvas_size w); [|lia].
    destruct (canvas_ratio_any max_canvas_size w Hc ltac:(lia))
      as (mr & er & Hr & Her & Hv).
    pose proof (dyadic_pos (Z.pos mr) er ltac:(lia)) as Hrpos.
    destruct (scale_capped w max_canvas_size _ mr er Hw Hc Hr Her Hv)
      as (a & -> & Ha).
    destruct (scale_capped h max_canvas_size _ mr er Hh Hc Hr Her
                (Hmono h w _ _ ltac:(lia) Hrpos Hv)) as (b & -> & Hb).
    cbn [mbind option_bind]. eexists. split; [reflexivity|]. simpl. lia.
  - destruct (Z.ltb_spec max_canvas_size w); [lia|].
    destruct (Z.ltb_spec max_canvas_size h); [|lia].
    destruct (canvas_ratio_any max_canvas_size h Hc ltac:(lia))
      as (mr & er & Hr & Her & Hv).
    pose proof (dyadic_pos (Z.pos mr) er ltac:(lia)) as Hrpos.
    destruct (scale_capped w max_canvas_size _ mr er Hw Hc Hr Her
                (Hmono w h _ _ ltac:(lia) Hrpos Hv)) as (a & -> & Ha).
    destruct (scale_capped h max_canvas_size _ mr er Hh Hc Hr Her Hv)
      as (b & -> & Hb).
    cbn [mbind option_bind]. eexists. split; [reflexivity|]. simpl. lia.
Qed.

Lemma get_valid_dimensions_canvas_clamp_witness :
  exists ext : WGPUExtent3D,
    get_valid_dimensions 18000 9000 134217728 8192 = Some ext
    /\ 0 <= width ext <= 8192 /\ 0 <= height ext <= 8192.
Proof.
  apply (get_valid_dimensions_canvas_clamp 18000 9000 134217728 8192);
    [lia | vm_compute; intuition discriminate
         | vm_compute; intuition discriminate | left; lia].
Defined.

(** X18 for a 1280 x 720 surface. *)
Lemma init_sizes_within_limits_bounded_surface_witness :
  init_sizes_within_limits 1280 720.
Proof.
  apply (init_sizes_within_limits_bounded_surface 1280 720); lia.
Defined.

(** The dimensions that [get_valid_dimensions] returns are [uint32_t]
    values. *)
Lemma get_valid_dimensions_range (w h max_buffer_size max_canvas_size : Z)
    (ext : WGPUExtent3D) :
  get_valid_dimensions w h max_buffer_size max_canvas_size = Some ext ->
  0 <= width ext < 2 ^ 32 /\ 0 <= height ext < 2 ^ 32.
Proof.
  unfold get_valid_dimensions.
  destruct (uint32_of_floor (float_mul (float_of_Z w) _)) as [a|] eqn:Ha;
    [|discriminate].
  destruct (uint32_of_floor (float_mul (float_of_Z h) _)) as [b|] eqn:Hb;
    [|discriminate].
  cbn [mbind option_bind]. intros [= <-]. simpl.
  apply uint32_of_floor_range in Ha, Hb. auto.
Qed.

(** X17. Sizing and allocation together: with the limits 128 MB and
    8192, whenever [init_sizes] yields dimensions, the rgb buffer that
    [render_program_setup_rgb_buffer] then allocates has three channels of
    exactly [dye_w * dye_h * 4] bytes, a product that does not wrap and is
    at most the 128 MB limit: the three array entries hold three distinct
    handles that were not in use, each now a zero-filled storage buffer
    of that size on the device, and no other device buffer has changed. *)
Theorem init_sizes_rgb_buffer_fits (assertions : bool) (ctx : wgpu_context_t)
    (surface_width surface_height : Z) (s' : settings_t) :
  init_sizes settings surface_width surface_height (Some scenario_limits)
  = Some s' ->
  exists (ctx' : wgpu_context_t) (rgb : dynamic_buffer_t) (h0 h1 h2 : positive),
    render_program_setup_rgb_buffer assertions ctx s' = Ok (ctx', rgb)
    /\ db_dims rgb = 3
    /\ db_buffer_size rgb = dye_w s' * dye_h s' * 4
    /\ 0 <= db_buffer_size rgb <= maxStorageBufferBindingSize scenario_limits
    /\ db_buffers rgb
       = channel_buffer (dye_w s' * dye_h s' * 4) <$> [h0; h1; h2]
    /\ NoDup [h0; h1; h2]
    /\ Forall (fun h => device_buffers ctx !! h = None
                        /\ device_buffers ctx' !! h
                           = Some (fresh_storage (dye_w s' * dye_h s' * 4)))
         [h0; h1; h2]
    /\ (forall k, k ∉ [h0; h1; h2] ->
          device_buffers ctx' !! k = device_buffers ctx !! k)
    /\ queue_writes ctx' = queue_writes ctx.
Proof.
  intros Hs. unfold init_sizes in Hs. simpl in Hs.
  destruct (get_preferred_dimensions 512 _ _ _ _) as [g|]; [|discriminate].
  destruct (get_preferred_dimensions 2048 _ _ _ _) as [d|] eqn:Hd; [|discriminate].
  cbn [mbind option_bind] in Hs. injection Hs as <-.
  assert (Hdef : is_Some (preferred_wh 2048 surface_width surface_height)).
  { unfold get_preferred_dimensions in Hd.
    destruct (preferred_wh 2048 surface_width surface_height); [eauto|discriminate]. }
  destruct (get_preferred_dimensions_bounds 2048 surface_width surface_height
              ltac:(lia) Hdef) as (d' & Hd' & Hl & Hw & Hh).
  rewrite Hd in Hd'. injection Hd' as <-.
  assert (Hr : 0 <= width d < 2 ^ 32 /\ 0 <= height d < 2 ^ 32).
  { unfold get_preferred_dimensions in Hd.
    destruct (preferred_wh 2048 surface_width surface_height) as [[w h]|];
      [|discriminate].
    cbn [mbind option_bind] in Hd. exact (get_valid_dimensions_range _ _ _ _ _ Hd). }
  unfold render_program_setup_rgb_buffer. cbn [dye_w dye_h].
  assert (Hsmall : 0 <= width d * height d * 4 <= 134217728) by nia.
  assert (Hwrap : wrap32 (width d * height d * 4) = width d * height d * 4).
  { unfold wrap32. apply Z.mod_small. change (2 ^ 32) with 4294967296. lia. }
  destruct (dynamic_buffer_init_ok assertions ctx 3 (width d) (height d))
    as (ctx' & rgb & Hrun); [unfold MAX_DIMENSIONS; lia|].
  exists ctx', rgb.
  pose proof Hrun as Hrun'.
  unfold dynamic_buffer_init in Hrun'. rewrite andb_false_r in Hrun'.
  apply (dynamic_buffer_init_loop_spec _ 0) in Hrun'; [|simpl; lia].
  destruct Hrun' as (hs & Hlen & Hnd & Hnone & Hframe & Hnew & Hq & Hbs
                     & H1 & H2 & _).
  simpl in Hlen, Hnone, Hframe, Hnew, Hq, Hbs, H1, H2.
  rewrite Hwrap in Hnew, Hbs, H2.
  destruct hs as [|h0 [|h1 [|h2 [|h3 hs]]]]; try discriminate Hlen.
  exists h0, h1, h2. split; [exact Hrun|]. split; [exact H1|].
  split; [exact H2|]. split; [rewrite H2; simpl; lia|].
  split; [rewrite Hbs; reflexivity|]. split; [exact Hnd|].
  split; [|split; [exact Hframe | exact Hq]].
  rewrite Forall_forall in Hnone, Hnew |- *. intros k Hk.
  split; [apply Hnone | apply Hnew]; exact Hk.
Qed.

Lemma init_sizes_rgb_buffer_fits_witness :
  exists (s' : settings_t) (ctx' : wgpu_context_t) (rgb : dynamic_buffer_t)
         (h0 h1 h2 : positive),
    render_program_setup_rgb_buffer true empty_context s' = Ok (ctx', rgb)
    /\ db_dims rgb = 3
    /\ db_buffer_size rgb = dye_w s' * dye_h s' * 4
    /\ 0 <= db_buffer_size rgb <= maxStorageBufferBindingSize scenario_limits
    /\ db_buffers rgb
       = channel_buffer (dye_w s' * dye_h s' * 4) <$> [h0; h1; h2]
    /\ NoDup [h0; h1; h2]
    /\ Forall (fun h => device_buffers empty_context !! h = None
                        /\ device_buffers ctx' !! h
                           = Some (fresh_storage (dye_w s' * dye_h s' * 4)))
         [h0; h1; h2]
    /\ (forall k, k ∉ [h0; h1; h2] ->
          device_buffers ctx' !! k = device_buffers empty_context !! k)
    /\ queue_writes ctx' = queue_writes empty_context.
Proof.
  eexists.
  apply (init_sizes_rgb_buffer_fits true empty_context 1920 1080).
  vm_compute. reflexivity.
Defined.
